(** * all_ctime.py: date-stamped renaming of media files

    A shallow embedding of [src/all_ctime.py] and the properties of its
    date-resolution, filename-reconciliation, collision-resolution and
    rename/permission phases.

    Conventions of the embedding.
    - A Python [str] is a Rocq [string].  File names are taken over the
      7-bit ASCII range: on such names the regular-expression class [\d]
      is [0-9], the class [\s] and [str.strip] cover the code points
      9-13, 28-31 and 32, and [str.lower] maps [A-Z] to [a-z].
    - Indices returned by [str.rfind] are integers ([Z], [-1] for "not
      found"), slices take natural-number bounds.
    - [dict] and [set] objects are [gmap] and [gset].
    - The file system of the working directory is a finite map from names
      to inodes; it is only changed by the program itself.  A symbolic
      link whose target is missing is an entry that [os.path.exists] does
      not find and [os.rename] replaces.  A symbolic link with a target
      is taken as an entry of its own with the mode of the target; that
      [os.chmod] then acts on the target is outside the model.
    - Library calls whose result depends on the platform (the [datetime]
      parsers, failures of [os.rename] and [os.chmod]) are fields of a
      [platform] record the development is parametrised by. *)

From Stdlib Require Import ZArith Bool List Ascii String Lia.
From Stdlib Require Import Numbers.DecimalString.
From stdpp Require Import base option list gmap strings sets fin_maps.

Import ListNotations.
Local Open Scope string_scope.
Local Open Scope Z_scope.

(* ===================================================================== *)
(** ** Python string primitives *)
(* ===================================================================== *)

Module PyStr.

(** [s[n:]] for [0 <= n]. *)
Fixpoint drop (n : nat) (s : string) : string :=
  match n, s with
  | O, _ => s
  | S _, EmptyString => EmptyString
  | S n', String _ t => drop n' t
  end.

(** [s[:n]] for [0 <= n]. *)
Fixpoint take (n : nat) (s : string) : string :=
  match n, s with
  | O, _ => EmptyString
  | S _, EmptyString => EmptyString
  | S n', String a t => String a (take n' t)
  end.

(** [s.startswith(p)]. *)
Fixpoint startswith (s p : string) {struct p} : bool :=
  match p, s with
  | EmptyString, _ => true
  | String _ _, EmptyString => false
  | String b p', String a s' => Ascii.eqb a b && startswith s' p'
  end.

(** [s.endswith(p)]. *)
Definition endswith (s p : string) : bool :=
  (String.length p <=? String.length s)%nat
  && String.eqb (drop (String.length s - String.length p) s) p.

(** [p in s]. *)
Fixpoint contains (s p : string) : bool :=
  startswith s p
  || match s with
     | EmptyString => false
     | String _ t => contains t p
     end.

(** [s.rfind(c)] for a one-character needle: the highest index holding
    [c], or [-1]. *)
Fixpoint rfind_from (c : ascii) (s : string) (i last : Z) : Z :=
  match s with
  | EmptyString => last
  | String a t => rfind_from c t (i + 1) (if Ascii.eqb a c then i else last)
  end.

Definition rfind (s : string) (c : ascii) : Z := rfind_from c s 0 (-1).

Definition is_upper (c : ascii) : bool :=
  let n := nat_of_ascii c in ((65 <=? n) && (n <=? 90))%nat.

Definition lower_char (c : ascii) : ascii :=
  if is_upper c then ascii_of_nat (nat_of_ascii c + 32) else c.

(** [s.lower()]. *)
Fixpoint lower (s : string) : string :=
  match s with
  | EmptyString => EmptyString
  | String a t => String (lower_char a) (lower t)
  end.

(** The class [\d]. *)
Definition is_digit (c : ascii) : bool :=
  let n := nat_of_ascii c in ((48 <=? n) && (n <=? 57))%nat.

(** The class [\s], which is also what [str.strip()] removes. *)
Definition is_space (c : ascii) : bool :=
  let n := nat_of_ascii c in
  ((9 <=? n) && (n <=? 13) || (28 <=? n) && (n <=? 32))%nat.

(** [re.sub('[...]', '', s)] for a one-character class. *)
Fixpoint remove_chars (cls : ascii -> bool) (s : string) : string :=
  match s with
  | EmptyString => EmptyString
  | String a t =>
      if cls a then remove_chars cls t else String a (remove_chars cls t)
  end.

(** [re.sub('^c+', '', s)]. *)
Fixpoint lstrip_char (c : ascii) (s : string) : string :=
  match s with
  | String a t => if Ascii.eqb a c then lstrip_char c t else s
  | EmptyString => EmptyString
  end.

Fixpoint lstrip (s : string) : string :=
  match s with
  | String a t => if is_space a then lstrip t else s
  | EmptyString => EmptyString
  end.

Fixpoint rev_app (s acc : string) : string :=
  match s with
  | EmptyString => acc
  | String a t => rev_app t (String a acc)
  end.

Definition rev (s : string) : string := rev_app s EmptyString.

(** [s.strip()]. *)
Definition strip (s : string) : string := rev (lstrip (rev (lstrip s))).

(** [s.replace(a, b)] for one-character [a]; [b] may be empty. *)
Fixpoint replace_char (a : ascii) (b : string) (s : string) : string :=
  match s with
  | EmptyString => EmptyString
  | String c t =>
      (if Ascii.eqb c a then b else String c EmptyString) ++ replace_char a b t
  end.

(** [str(n)] for a non-negative integer. *)
Definition of_nat (n : nat) : string :=
  NilZero.string_of_uint (Nat.to_uint n).

(** Truthiness of a string: non-empty. *)
Definition truthy (s : string) : bool :=
  match s with EmptyString => false | _ => true end.

End PyStr.

(* ===================================================================== *)
(** ** [os.path] *)
(* ===================================================================== *)

Module OsPath.

Definition sep : ascii := "/"%char.
Definition extsep : ascii := "."%char.

(** [os.path.basename]: everything after the last separator. *)
Definition basename (p : string) : string :=
  PyStr.drop (Z.to_nat (PyStr.rfind p sep + 1)) p.

(** The [while filenameIndex < dotIndex] loop of [genericpath._splitext]:
    [true] when a character other than the dot is met (the function then
    returns the split), [false] when the loop runs out. *)
Fixpoint skip_leading_dots (steps : nat) (p : string) (filenameIndex : Z)
  : bool :=
  match steps with
  | O => false
  | S steps' =>
      match String.get (Z.to_nat filenameIndex) p with
      | Some c =>
          if Ascii.eqb c extsep
          then skip_leading_dots steps' p (filenameIndex + 1)
          else true
      | None => true
      end
  end.

(** [os.path.splitext] (posixpath: separator [/], no alternative
    separator). *)
Definition splitext (p : string) : string * string :=
  let sepIndex := PyStr.rfind p sep in
  let dotIndex := PyStr.rfind p extsep in
  if (sepIndex <? dotIndex)
     && skip_leading_dots (Z.to_nat (dotIndex - (sepIndex + 1))) p (sepIndex + 1)
  then (PyStr.take (Z.to_nat dotIndex) p, PyStr.drop (Z.to_nat dotIndex) p)
  else (p, EmptyString).

End OsPath.

(* ===================================================================== *)
(** ** Configuration *)
(* ===================================================================== *)

(** The alternatives of the [EXTENSIONS] pattern, in source order. *)
Definition EXTENSION_NAMES : list string :=
  ["3g2"; "3gp"; "asf"; "avi"; "bmp"; "divx"; "flv"; "gif"; "jfif"; "jpg";
   "jpeg"; "m1v"; "mov"; "mp4"; "mpeg"; "mpe"; "mpg"; "png"; "ram"; "rm";
   "ts"; "viv"; "webm"; "webp"; "wmv"].

Definition newline : string := String (ascii_of_nat 10) EmptyString.

(** [EXTENSIONS.search(name)]: a dot and one of the alternatives, compared
    without regard to case, at the end of the name; [$] also matches just
    before a final newline. *)
Definition EXTENSIONS_search (name : string) : bool :=
  existsb
    (fun e =>
       PyStr.endswith (PyStr.lower name) ("." ++ e)
       || PyStr.endswith (PyStr.lower name) ("." ++ e ++ newline))
    EXTENSION_NAMES.

Definition DateTimeOriginal : Z := 0x9003.
Definition DateTimeDigitized : Z := 0x9004.

(** [EXIF_DATE_FALLBACK_TAGS.items()], in insertion order. *)
Definition EXIF_DATE_FALLBACK_TAGS : list (string * Z) :=
  [("DateTimeOriginal", DateTimeOriginal);
   ("DateTimeDigitized", DateTimeDigitized)].

(** One position of a regular expression without repetition. *)
Inductive re_item : Type :=
| ReDigit
| ReLit (c : ascii).

Definition D4 : list re_item := [ReDigit; ReDigit; ReDigit; ReDigit].
Definition D2 : list re_item := [ReDigit; ReDigit].
Definition DOT : list re_item := [ReLit "."%char].

(** [DATE_STAMP_FORMAT_REGEX_STR]. *)
Definition DATE_STAMP_FORMAT_REGEX : list re_item :=
  D4 ++ DOT ++ D2 ++ DOT ++ D2 ++ DOT ++ D2 ++ DOT ++ D2 ++ DOT ++ D2.

(** [pattern.match(s)] for a pattern anchored at the start. *)
Fixpoint re_match (pat : list re_item) (s : string) : bool :=
  match pat with
  | [] => true
  | it :: pat' =>
      match s with
      | EmptyString => false
      | String a t =>
          (match it with
           | ReDigit => PyStr.is_digit a
           | ReLit c => Ascii.eqb a c
           end) && re_match pat' t
      end
  end.

Definition STANDALONE_DATE_STAMP_REGEX_match (s : string) : bool :=
  re_match DATE_STAMP_FORMAT_REGEX s.

Definition DATE_STAMP_LENGTH : nat := 19.

(* ===================================================================== *)
(** ** The platform and the working directory *)
(* ===================================================================== *)

(** What the program obtains from its libraries and cannot compute from
    the file names.  The three parsers stand for the [datetime] calls
    followed by [strftime('%Y.%m.%d.%H.%M.%S')]; [None] is [ValueError]. *)
Record platform : Type := {
  PIL_AVAILABLE : bool;
  (** [datetime.fromisoformat(s)] *)
  fromisoformat : string -> option string;
  (** [datetime.strptime(s, '%Y-%m-%d %H:%M:%S')] *)
  strptime_iso : string -> option string;
  (** [datetime.strptime(s, '%Y:%m:%d %H:%M:%S')] *)
  strptime_exif : string -> option string;
  (** [os.rename(old, new)] raises although [old] exists *)
  rename_denied : string -> string -> bool;
  (** [os.chmod(path, mode)] raises *)
  chmod_denied : string -> bool
}.

(** What Pillow hands out for an opened image.  The two XMP fields are the
    first groups of the two [re.search] calls on the XMP packet ([None]
    when the pattern is not found, the packet is missing or [getxmp] is not
    available); [exif_data] is the result of [_getexif()], [None] when it
    raises or returns nothing. *)
Record pil_image : Type := {
  xmp_CreateDate : option string;
  xmp_DateCreated : option string;
  exif_data : option (gmap Z string)
}.

(** A directory entry.  [st_mode] is the mode [os.stat] reports for the
    name; for a symbolic link whose target is missing, for which
    [os.stat] raises, it is the mode of the link itself, whose file type
    is [S_IFLNK].  [ctime_stamp] is
    [time.strftime("%Y.%m.%d.%H.%M.%S", time.localtime(os.lstat(p).st_ctime))],
    [None] when one of the three calls raises; [image] is [Image.open],
    [None] when it raises. *)
Record inode : Type := {
  st_mode : Z;
  ctime_stamp : option string;
  image : option pil_image
}.

(** The constants of the [stat] module (octal 170000, 100000, 120000,
    100, 010 and 001). *)
Definition S_IFMT : Z := 0xF000.
Definition S_IFREG : Z := 0x8000.
Definition S_IFLNK : Z := 0xA000.
Definition S_IXUSR : Z := 0x40.
Definition S_IXGRP : Z := 0x8.
Definition S_IXOTH : Z := 0x1.

Definition S_ISREG (mode : Z) : bool := Z.land mode S_IFMT =? S_IFREG.

Definition S_ISLNK (mode : Z) : bool := Z.land mode S_IFMT =? S_IFLNK.

(** [os.path.exists]: whether [os.stat] succeeds.  It does not for a name
    that is not in the directory, nor for the name of a symbolic link
    whose target is missing. *)
Definition path_exists (fs : gmap string inode) (p : string) : bool :=
  match fs !! p with
  | Some ino => negb (S_ISLNK (st_mode ino))
  | None => false
  end.

Definition path_isfile (fs : gmap string inode) (p : string) : bool :=
  match fs !! p with
  | Some ino => S_ISREG (st_mode ino)
  | None => false
  end.

Record arguments : Type := {
  time_from_exif : bool;
  force : bool;
  verbose : bool
}.

Inductive date_source : Type :=
| SrcExifXmp         (* "EXIF/XMP" *)
| SrcCtimeFallback   (* "ctime (EXIF/XMP fallback)" *)
| SrcCtimeDefault.   (* "ctime (default)" *)

(** How the scan leaves a directory entry: one constructor per [continue]
    of the scan loop, and [Planned] for the entry put into [seen]. *)
Inductive outcome : Type :=
| NotAFile
| NotEligible
| ErrorCtime
| UndeterminedDate
| SkippedCorrectStamp
| SkippedInvalidAfterStrip
| SkippedContainsDate
| SkippedNoChange
| SkippedSelfCollision
| SkippedCollisionExhausted
| Planned (final_name : string) (src : date_source).

(* ===================================================================== *)
(** ** Metadata date extraction *)
(* ===================================================================== *)

Section Metadata.

Variable P : platform.

(** The text selected by the two searches of [_try_parse_xmp_create_date]:
    [photoshop:DateCreated] is looked for only when [xmp:CreateDate] is
    not found. *)
Definition xmp_date_str_iso (img : pil_image) : option string :=
  match xmp_CreateDate img with
  | Some m => Some (PyStr.strip m)
  | None =>
      match xmp_DateCreated img with
      | Some m => Some (PyStr.strip m)
      | None => None
      end
  end.

Definition _try_parse_xmp_create_date (img : pil_image) : option string :=
  match xmp_date_str_iso img with
  | Some s =>
      if PyStr.truthy s then
        match
          (if PyStr.endswith s "Z"
           then fromisoformat P
                  (PyStr.take (String.length s - 1) s ++ "+00:00")
           else fromisoformat P s)
        with
        | Some parsed_date => Some parsed_date
        | None =>
            let dt_part :=
              PyStr.replace_char "T"%char " " (PyStr.take 19 s) in
            strptime_iso P dt_part
        end
      else None
  | None => None
  end.

(** The [for ... break] loop of [_try_parse_exif_tags]: the value of the
    first tag whose value is truthy. *)
Fixpoint first_exif_date_str (tags : list (string * Z))
    (exif : gmap Z string) : option string :=
  match tags with
  | [] => None
  | (_, tag_id) :: tags' =>
      match exif !! tag_id with
      | Some date_val =>
          if PyStr.truthy date_val then Some date_val
          else first_exif_date_str tags' exif
      | None => first_exif_date_str tags' exif
      end
  end.

Definition NUL : ascii := ascii_of_nat 0.

Definition _try_parse_exif_tags (img : pil_image) : option string :=
  match exif_data img with
  | Some exif =>
      match first_exif_date_str EXIF_DATE_FALLBACK_TAGS exif with
      | Some exif_date_str_from_tags =>
          let cleaned_date_str :=
            PyStr.replace_char NUL "" (PyStr.strip exif_date_str_from_tags) in
          strptime_exif P cleaned_date_str
      | None => None
      end
  | None => None
  end.

Definition truthy_result (r : option string) : option string :=
  match r with
  | Some s => if PyStr.truthy s then Some s else None
  | None => None
  end.

Definition get_exif_date (ino : inode) : option string :=
  if negb (PIL_AVAILABLE P) then None
  else
    match image ino with
    | None => None
    | Some img =>
        match truthy_result (_try_parse_xmp_create_date img) with
        | Some xmp_parsed_date => Some xmp_parsed_date
        | None => truthy_result (_try_parse_exif_tags img)
        end
    end.

End Metadata.

(* ===================================================================== *)
(** ** Filename reconciliation *)
(* ===================================================================== *)

(** What the stamp-detection part of the scan loop hands on: the name to
    normalise, or the [continue] it takes. *)
Inductive strip_result : Type :=
| Proceed (filename_to_process : string)
| Skip (o : outcome).

(** [temp_name = temp_name[DATE_STAMP_LENGTH:]], then one leading
    underscore is dropped. *)
Definition strip_one_stamp (temp_name : string) : string :=
  let temp_name := PyStr.drop DATE_STAMP_LENGTH temp_name in
  if PyStr.startswith temp_name "_" then PyStr.drop 1 temp_name else temp_name.

(** The check made on the stripped name, written twice in the source
    (after the correct stamp and after incorrect stamps). *)
Definition check_stripped (filename_to_process : string) : strip_result :=
  let '(temp_base, temp_ext) := OsPath.splitext filename_to_process in
  if negb (PyStr.truthy temp_base) && PyStr.startswith filename_to_process "."
  then Proceed ("recovered" ++ filename_to_process)
  else if negb (PyStr.truthy filename_to_process) || negb (PyStr.truthy temp_base)
  then Skip SkippedInvalidAfterStrip
  else Proceed filename_to_process.

(** [for i_strip in range(2)]: strip while the name starts with a stamp. *)
Fixpoint strip_incorrect_stamps (passes : nat) (temp_name : string)
    (stripped_count : nat) : string * nat :=
  match passes with
  | O => (temp_name, stripped_count)
  | S passes' =>
      if STANDALONE_DATE_STAMP_REGEX_match temp_name
      then strip_incorrect_stamps passes' (strip_one_stamp temp_name)
             (S stripped_count)
      else (temp_name, stripped_count)
  end.

Definition strip_stage (force : bool) (file_date_str original_basename : string)
  : strip_result :=
  if STANDALONE_DATE_STAMP_REGEX_match original_basename then
    let filename_current_date_prefix :=
      PyStr.take DATE_STAMP_LENGTH original_basename in
    if String.eqb filename_current_date_prefix file_date_str then
      if negb force then Skip SkippedCorrectStamp
      else check_stripped (strip_one_stamp original_basename)
    else
      let '(temp_name, stripped_count) :=
        strip_incorrect_stamps 2 original_basename 0 in
      if (0 <? stripped_count)%nat then check_stripped temp_name
      else Proceed original_basename
  else if PyStr.contains original_basename file_date_str && negb force
  then Skip SkippedContainsDate
  else Proceed original_basename.

Definition is_bracket (c : ascii) : bool :=
  Ascii.eqb c "["%char || Ascii.eqb c "]"%char
  || Ascii.eqb c "("%char || Ascii.eqb c ")"%char.

Definition is_space_comma_plus_amp (c : ascii) : bool :=
  PyStr.is_space c || Ascii.eqb c ","%char
  || Ascii.eqb c "+"%char || Ascii.eqb c "&"%char.

(** The four [re.sub] calls on the lower-cased stem. *)
Definition clean_name_part (name_part : string) : string :=
  let processed_name_part := PyStr.lower name_part in
  let processed_name_part := PyStr.remove_chars is_bracket processed_name_part in
  let processed_name_part :=
    PyStr.remove_chars is_space_comma_plus_amp processed_name_part in
  let processed_name_part := PyStr.lstrip_char "_"%char processed_name_part in
  PyStr.lstrip_char "."%char processed_name_part.

Definition clean_ext_part (ext_part : string) : string :=
  let processed_ext_part := PyStr.lower ext_part in
  if String.eqb processed_ext_part ".jpeg" then ".jpg" else processed_ext_part.

(** The stem that goes into the name: the cleaned stem, or its
    replacement when nothing is left of it. *)
Definition final_name_part (processed_name_part processed_ext_part : string)
  : string :=
  if negb (PyStr.truthy processed_name_part)
  then (if PyStr.truthy processed_ext_part then "untitled" else "untitled_file")
  else processed_name_part.

(** Normalisation and assembly of the tentative name. *)
Definition tentative_final_name (file_date_str filename_to_process : string)
  : string :=
  let '(name_part, ext_part) := OsPath.splitext filename_to_process in
  let processed_ext_part := clean_ext_part ext_part in
  let processed_name_part :=
    final_name_part (clean_name_part name_part) processed_ext_part in
  let final_name_suffix := "_" ++ processed_name_part ++ processed_ext_part in
  file_date_str ++ final_name_suffix.

(** The reconciler: stamp detection, normalisation, no-change guard. *)
Inductive reconciled : Type :=
| Candidate (final_name : string)
| Stop (o : outcome).

Definition reconcile (force : bool) (file_date_str original_basename : string)
  : reconciled :=
  match strip_stage force file_date_str original_basename with
  | Skip o => Stop o
  | Proceed filename_to_process =>
      let final_name := tentative_final_name file_date_str filename_to_process in
      if String.eqb final_name original_basename then Stop SkippedNoChange
      else Candidate final_name
  end.

(* ===================================================================== *)
(** ** Collision resolution *)
(* ===================================================================== *)

Section Collision.

(** [name in seen] and [os.path.exists(name)]. *)
Variable in_seen : string -> bool.
Variable exists_on_disk : string -> bool.

(** The loop condition [temp_final_name in seen or os.path.exists(...)],
    with the file-system queries it makes. *)
Definition name_taken (name : string) : bool * list string :=
  if in_seen name then (true, []) else (exists_on_disk name, [name]).

Inductive loop_exit : Type :=
| LoopDone (temp_final_name : option string)
| OutOfFuel.

Definition suffixed (base ext : string) (counter : nat) : string :=
  base ++ "_" ++ PyStr.of_nat counter ++ ext.

(** The [while] loop of lines 353-361; the second component collects the
    names [os.path.exists] was asked about, in order. *)
Fixpoint collision_loop (fuel : nat) (original_basename base ext : string)
    (counter : nat) (temp_final_name : string) : loop_exit * list string :=
  match fuel with
  | O => (OutOfFuel, [])
  | S fuel' =>
      let '(taken, asked) := name_taken temp_final_name in
      if taken then
        if String.eqb temp_final_name original_basename
        then (LoopDone (Some temp_final_name), asked)
        else
          let temp_final_name := suffixed base ext counter in
          let counter := S counter in
          if (100 <? counter)%nat then (LoopDone None, asked)
          else
            let '(r, asked') :=
              collision_loop fuel' original_basename base ext counter
                temp_final_name in
            (r, (asked ++ asked')%list)
      else (LoopDone (Some temp_final_name), asked)
  end.

Inductive resolution : Type :=
| Final (name : string)
| SelfCollision
| Exhausted.

(** Lines 349-368: the loop and the test that follows it. *)
Definition resolve_unique_traced (original_basename final_name : string)
  : resolution * list string :=
  let '(base_final_name_for_counter, final_ext_for_counter) :=
    OsPath.splitext final_name in
  let '(r, asked) :=
    collision_loop 100 original_basename base_final_name_for_counter
      final_ext_for_counter 1 final_name in
  (match r with
   | LoopDone None => Exhausted
   | LoopDone (Some temp_final_name) =>
       if String.eqb temp_final_name original_basename then SelfCollision
       else Final temp_final_name
   | OutOfFuel => Exhausted
   end, asked).

Definition resolve_unique (original_basename final_name : string)
  : resolution :=
  fst (resolve_unique_traced original_basename final_name).

End Collision.

(* ===================================================================== *)
(** ** Phase 1: the scan *)
(* ===================================================================== *)

Section Scan.

Variable P : platform.
Variable args : arguments.
(** The directory as it is during the scan, which only reads it. *)
Variable fs : gmap string inode.

(** Lines 228-253: the date and its source, [None] when the ctime cannot
    be had. *)
Definition resolve_date (ino : inode) : option (string * date_source) :=
  if time_from_exif args then
    match get_exif_date P ino with
    | Some exif_date => Some (exif_date, SrcExifXmp)
    | None =>
        match ctime_stamp ino with
        | Some file_date_str => Some (file_date_str, SrcCtimeFallback)
        | None => None
        end
    end
  else
    match ctime_stamp ino with
    | Some file_date_str => Some (file_date_str, SrcCtimeDefault)
    | None => None
    end.

(** One turn of the scan loop for [original_filepath], given the plan so
    far. *)
Definition process_file (seen : gmap string (string * date_source))
    (original_filepath : string) : outcome :=
  match fs !! original_filepath with
  | None => NotAFile
  | Some ino =>
      if negb (S_ISREG (st_mode ino)) then NotAFile
      else if negb (EXTENSIONS_search original_filepath) then NotEligible
      else
        let original_basename := OsPath.basename original_filepath in
        match resolve_date ino with
        | None => ErrorCtime
        | Some (file_date_str, src) =>
            if negb (PyStr.truthy file_date_str) then UndeterminedDate
            else
              match reconcile (force args) file_date_str original_basename with
              | Stop o => o
              | Candidate final_name =>
                  match
                    resolve_unique
                      (fun n => bool_decide (is_Some (seen !! n)))
                      (path_exists fs) original_basename final_name
                  with
                  | Final name => Planned name src
                  | SelfCollision => SkippedSelfCollision
                  | Exhausted => SkippedCollisionExhausted
                  end
              end
        end
  end.

Record scan_state : Type := {
  seen : gmap string (string * date_source);
  eligible_files_not_renamed_paths : gset string;
  scanned_files_count : nat;
  eligible_files_count : nat;
  skipped_datestamped_no_force_count : nat;
  skipped_empty_after_strip_count : nat;
  skipped_contains_date_no_force_count : nat;
  skipped_no_change_count : nat;
  (** history variable, not in the source: what became of each entry *)
  history : list (string * outcome)
}.

Definition initial_scan_state : scan_state :=
  {| seen := ∅; eligible_files_not_renamed_paths := ∅;
     scanned_files_count := 0; eligible_files_count := 0;
     skipped_datestamped_no_force_count := 0;
     skipped_empty_after_strip_count := 0;
     skipped_contains_date_no_force_count := 0;
     skipped_no_change_count := 0;
     history := [] |}.

Definition is_eligible (o : outcome) : bool :=
  match o with
  | NotAFile | NotEligible => false
  | _ => true
  end.

Definition bump (b : bool) (n : nat) : nat := if b then S n else n.

(** The updates each exit of the loop body makes. *)
Definition record_outcome (st : scan_state) (original_filepath : string)
    (o : outcome) : scan_state :=
  {| seen :=
       match o with
       | Planned final_name src =>
           <[final_name := (original_filepath, src)]> (seen st)
       | _ => seen st
       end;
     eligible_files_not_renamed_paths :=
       match o with
       | NotAFile | NotEligible | Planned _ _ =>
           eligible_files_not_renamed_paths st
       | _ => {[original_filepath]} ∪ eligible_files_not_renamed_paths st
       end;
     scanned_files_count := S (scanned_files_count st);
     eligible_files_count := bump (is_eligible o) (eligible_files_count st);
     skipped_datestamped_no_force_count :=
       bump (match o with SkippedCorrectStamp => true | _ => false end)
         (skipped_datestamped_no_force_count st);
     skipped_empty_after_strip_count :=
       bump (match o with SkippedInvalidAfterStrip => true | _ => false end)
         (skipped_empty_after_strip_count st);
     skipped_contains_date_no_force_count :=
       bump (match o with SkippedContainsDate => true | _ => false end)
         (skipped_contains_date_no_force_count st);
     skipped_no_change_count :=
       bump (match o with
             | SkippedNoChange | SkippedSelfCollision => true
             | _ => false
             end)
         (skipped_no_change_count st);
     history := (history st ++ [(original_filepath, o)])%list |}.

Definition scan_step (st : scan_state) (original_filepath : string)
  : scan_state :=
  record_outcome st original_filepath (process_file (seen st) original_filepath).

(** [for original_filepath in glob.glob("*")]. *)
Definition scan_from (st : scan_state) (listing : list string) : scan_state :=
  fold_left scan_step listing st.

Definition scan (listing : list string) : scan_state :=
  scan_from initial_scan_state listing.

End Scan.

(* ===================================================================== *)
(** ** Phases 2 and 3: renaming and permissions *)
(* ===================================================================== *)

Section Run.

Variable P : platform.
Variable args : arguments.

(** [sorted(seen.items())]: the keys differ, so the order is the order
    of the keys. *)
Fixpoint insert_sorted {V : Type} (it : string * V)
    (l : list (string * V)) : list (string * V) :=
  match l with
  | [] => [it]
  | x :: l' =>
      if String.leb (fst it) (fst x) then it :: l
      else x :: insert_sorted it l'
  end.

Definition sorted_items {V : Type} (m : gmap string V) : list (string * V) :=
  foldr insert_sorted [] (map_to_list m).

Definition with_mode (ino : inode) (mode : Z) : inode :=
  {| st_mode := mode; ctime_stamp := ctime_stamp ino; image := image ino |}.

Definition clear_exec (current_mode : Z) : Z :=
  Z.land (Z.land (Z.land current_mode (Z.lnot S_IXUSR)) (Z.lnot S_IXGRP))
    (Z.lnot S_IXOTH).

(** [try_remove_executable_bits]: the directory afterwards and the
    returned flag. *)
Definition try_remove_executable_bits (fs : gmap string inode)
    (filepath : string) : gmap string inode * bool :=
  match fs !! filepath with
  | None => (fs, false)
  | Some ino =>
      let current_mode := st_mode ino in
      if negb (S_ISREG current_mode) then (fs, false)
      else
        let new_mode := clear_exec current_mode in
        if negb (new_mode =? current_mode) then
          if chmod_denied P filepath then (fs, false)
          else (<[filepath := with_mode ino new_mode]> fs, true)
        else (fs, false)
  end.

(** [os.rename(old, new)]; [None] when it raises. *)
Definition os_rename (fs : gmap string inode) (old_name new_name : string)
  : option (gmap string inode) :=
  match fs !! old_name with
  | None => None
  | Some ino =>
      if rename_denied P old_name new_name then None
      else Some (<[new_name := ino]> (delete old_name fs))
  end.

Record run_state : Type := {
  disk : gmap string inode;
  not_renamed : gset string;
  successfully_renamed_original_paths : gset string;
  renamed_count : nat;
  total_permissions_adjusted : nat;
  (** history variable: the arguments of the calls of
      [try_remove_executable_bits], in order *)
  chmod_calls : list string
}.

(** The body of the loop over the sorted plan. *)
Definition rename_step (rs : run_state)
    (item : string * (string * date_source)) : run_state :=
  let '(new_name, (old_name, _)) := item in
  match os_rename (disk rs) old_name new_name with
  | Some fs' =>
      let '(fs'', adjusted) := try_remove_executable_bits fs' new_name in
      {| disk := fs'';
         not_renamed := not_renamed rs;
         successfully_renamed_original_paths :=
           {[old_name]} ∪ successfully_renamed_original_paths rs;
         renamed_count := S (renamed_count rs);
         total_permissions_adjusted :=
           bump adjusted (total_permissions_adjusted rs);
         chmod_calls := (chmod_calls rs ++ [new_name])%list |}
  | None =>
      {| disk := disk rs;
         not_renamed := {[old_name]} ∪ not_renamed rs;
         successfully_renamed_original_paths :=
           successfully_renamed_original_paths rs;
         renamed_count := renamed_count rs;
         total_permissions_adjusted := total_permissions_adjusted rs;
         chmod_calls := chmod_calls rs |}
  end.

(** The body of the loop over the files that were not renamed. *)
Definition chmod_step (rs : run_state) (path_to_chmod : string) : run_state :=
  if path_exists (disk rs) path_to_chmod then
    let '(fs', adjusted) :=
      try_remove_executable_bits (disk rs) path_to_chmod in
    {| disk := fs';
       not_renamed := not_renamed rs;
       successfully_renamed_original_paths :=
         successfully_renamed_original_paths rs;
       renamed_count := renamed_count rs;
       total_permissions_adjusted :=
         bump adjusted (total_permissions_adjusted rs);
       chmod_calls := (chmod_calls rs ++ [path_to_chmod])%list |}
  else rs.

Definition start_run (fs : gmap string inode) (st : scan_state) : run_state :=
  {| disk := fs;
     not_renamed := eligible_files_not_renamed_paths st;
     successfully_renamed_original_paths := ∅;
     renamed_count := 0;
     total_permissions_adjusted := 0;
     chmod_calls := [] |}.

Definition rename_phase (rs : run_state)
    (plan : list (string * (string * date_source))) : run_state :=
  fold_left rename_step plan rs.

Definition final_paths_to_chmod_original (rs : run_state) : gset string :=
  not_renamed rs ∖ successfully_renamed_original_paths rs.

Definition chmod_phase (rs : run_state) : run_state :=
  fold_left chmod_step (elements (final_paths_to_chmod_original rs)) rs.

(** [main], for the listing [glob.glob("*")] of the directory [fs]. *)
Definition main (fs : gmap string inode) (listing : list string)
  : scan_state * run_state :=
  let st := scan P args fs listing in
  let rs := rename_phase (start_run fs st) (sorted_items (seen st)) in
  (st, chmod_phase rs).

End Run.

(* ===================================================================== *)
(** ** Vocabulary of the statements *)
(* ===================================================================== *)

(** Every character of [s] satisfies [f]. *)
Fixpoint str_all (f : ascii -> bool) (s : string) : bool :=
  match s with
  | EmptyString => true
  | String a t => f a && str_all f t
  end.

(** The characters stamps and their separator are made of. *)
Definition stamp_char (c : ascii) : bool :=
  PyStr.is_digit c || Ascii.eqb c "."%char || Ascii.eqb c "_"%char.

(** A resolved timestamp as [strftime("%Y.%m.%d.%H.%M.%S")] writes it:
    the stamp pattern, and nothing after it. *)
Definition well_formed_stamp (ts : string) : bool :=
  STANDALONE_DATE_STAMP_REGEX_match ts
  && (String.length ts =? DATE_STAMP_LENGTH)%nat.

(** What the two passes of the stripping loop leave of a name. *)
Definition strip_stale_stamps (original_basename : string) : string :=
  fst (strip_incorrect_stamps 2 original_basename 0).

(** The names collision resolution looks at, in order: the candidate and
    its variants numbered 1 to 99. *)
Definition probes (base ext final_name : string) : list string :=
  final_name :: map (suffixed base ext) (seq 1 99).

(** A platform for the examples: Pillow is not installed (so that the
    parsers are never asked) and no call is refused. *)
Definition plain_platform : platform :=
  {| PIL_AVAILABLE := false;
     fromisoformat := fun _ => None;
     strptime_iso := fun _ => None;
     strptime_exif := fun _ => None;
     rename_denied := fun _ _ => false;
     chmod_denied := fun _ => false |}.

Definition no_flags : arguments :=
  {| time_from_exif := false; force := false; verbose := false |}.

Definition force_flag : arguments :=
  {| time_from_exif := false; force := true; verbose := false |}.

(** A regular file with the given permission bits and ctime. *)
Definition regular_file (perm : Z) (ctime : string) : inode :=
  {| st_mode := Z.lor S_IFREG perm;
     ctime_stamp := Some ctime;
     image := None |}.

(** A directory holding one regular file. *)
Definition single_file (name : string) (perm : Z) (ctime : string)
  : gmap string inode :=
  {[ name := regular_file perm ctime ]}.

(** A directory in which the file a.jpg, dated 2023.05.06.07.08.09, finds
    its candidate name and the variants numbered 1 to 99 all in use. *)
Definition crowded_directory : gmap string inode :=
  list_to_map
    (("a.jpg", regular_file 0x1A4 "2023.05.06.07.08.09")
       :: map (fun n => (n, regular_file 0x1A4 "2023.05.06.07.08.09"))
            (probes "2023.05.06.07.08.09_a" ".jpg"
               "2023.05.06.07.08.09_a.jpg")).

(** The runs of [main] used as examples. *)
Definition run_stale_stamp : scan_state * run_state :=
  main plain_platform no_flags
    (single_file "2020.01.01.00.00.00_old.jpg" 0x1A4 "2023.05.06.07.08.09")
    ["2020.01.01.00.00.00_old.jpg"].

Definition run_forced_dot_jpg : scan_state * run_state :=
  main plain_platform force_flag
    (single_file "2023.05.06.07.08.09_.jpg" 0x1A4 "2023.05.06.07.08.09")
    ["2023.05.06.07.08.09_.jpg"].





(** The final names the scan has assigned so far, in the order in which
    they were put into the plan. *)
Definition planned_names (h : list (string * outcome)) : list string :=
  omap (fun po => match snd po with
                  | Planned n _ => Some n
                  | _ => None
                  end) h.

(** The entries that pass the two tests at the head of the scan loop. *)
Definition eligible (fs : gmap string inode) (path : string) : bool :=
  path_isfile fs path && EXTENSIONS_search path.

(** Three files of one directory that resolve to the same candidate. *)
Definition same_candidate_directory : gmap string inode :=
  list_to_map
    [("a.jpg", regular_file 0x1A4 "2023.05.06.07.08.09");
     ("A.JPG", regular_file 0x1A4 "2023.05.06.07.08.09");
     ("(a).jpeg", regular_file 0x1A4 "2023.05.06.07.08.09");
     ("2023.05.06.07.08.09_a_1.jpg", regular_file 0x1A4 "2023.05.06.07.08.09")].

(** A symbolic link whose target is missing.  [os.stat] fails on it;
    the mode is the link's own, and there is no ctime and no content
    that the program could read. *)
Definition dangling_link : inode :=
  {| st_mode := Z.lor S_IFLNK 0x1FF; ctime_stamp := None; image := None |}.

(** Two pictures with the same candidate beside two symbolic links
    without target, one of which has the name of the candidate. *)
Definition directory_with_dangling_link : gmap string inode :=
  list_to_map
    [("a.jpg", regular_file 0x1A4 "2023.05.06.07.08.09");
     ("A.JPG", regular_file 0x1A4 "2023.05.06.07.08.09");
     ("2023.05.06.07.08.09_a.jpg", dangling_link);
     ("lost.jpg", dangling_link)].

Section Invariants.

Variable P : platform.
Variable args : arguments.
(** The directory as the scan finds it. *)
Variable fs : gmap string inode.

(** What holds of the scan state at every point of the scan. *)
Record scan_invariant (st : scan_state) : Prop := {
  inv_nodup : NoDup (planned_names (history st));
  inv_keys : forall n, n ∈ planned_names (history st) <-> is_Some (seen st !! n);
  inv_fresh : forall n v, seen st !! n = Some v ->
                path_exists fs n = false
                /\ (fst v, Planned n (snd v)) ∈ history st;
  inv_history : forall p o, (p, o) ∈ history st ->
                  match o with
                  | Planned n src => seen st !! n = Some (p, src)
                  | NotAFile | NotEligible => True
                  | _ => p ∈ eligible_files_not_renamed_paths st
                  end;
  inv_eligible : forall p o, (p, o) ∈ history st ->
                   is_eligible o = eligible fs p;
  inv_outcome : forall p o, (p, o) ∈ history st ->
                  exists s, o = process_file P args fs s p
}.

(** What the rename phase keeps true, for a plan whose targets are names
    that did not exist when the scan saw the directory: an existing
    entry that has not been renamed away is as it was, and the
    permission calls made so far went to new names. *)
Record rename_invariant (rs : run_state) : Prop := {
  rinv_kept : forall p, path_exists fs p = true ->
                p ∉ successfully_renamed_original_paths rs ->
                disk rs !! p = fs !! p;
  rinv_calls : forall p, p ∈ chmod_calls rs -> path_exists fs p = false
}.

End Invariants.

(** A regular file whose ctime cannot be had: reading it, or turning it
    into a local time, raises. *)
Definition file_without_ctime (perm : Z) : inode :=
  {| st_mode := Z.lor S_IFREG perm;
     ctime_stamp := None;
     image := None |}.

(** A directory with such a file, which carries execute bits, next to an
    ordinary one. *)
Definition directory_with_unreadable_ctime : gmap string inode :=
  list_to_map
    [("a.jpg", file_without_ctime 0x1ED);
     ("b.jpg", regular_file 0x1A4 "2023.05.06.07.08.09")].

(** A platform on which every rename is refused. *)
Definition read_only_platform : platform :=
  {| PIL_AVAILABLE := false;
     fromisoformat := fun _ => None;
     strptime_iso := fun _ => None;
     strptime_exif := fun _ => None;
     rename_denied := fun _ _ => true;
     chmod_denied := fun _ => false |}.

(** How often [try_remove_executable_bits] was called on [path] in a
    run. *)
Definition times_normalised (rs : run_state) (path : string) : nat :=
  count_occ string_dec (chmod_calls rs) path.

(** The three execute bits together (octal 111). *)
Definition EXEC_BITS : Z := Z.lor (Z.lor S_IXUSR S_IXGRP) S_IXOTH.

(** A directory entry of the working directory. *)
Definition directory_entry (perm : Z) : inode :=
  {| st_mode := Z.lor 0x4000 perm; ctime_stamp := Some "2023.05.06.07.08.09";
     image := None |}.

(** A directory, a picture with execute bits and an executable text
    file. *)
Definition mixed_directory : gmap string inode :=
  list_to_map
    [("album", directory_entry 0x1ED);
     ("b.jpg", regular_file 0x1ED "2023.05.06.07.08.09");
     ("notes.txt", regular_file 0x1ED "2023.05.06.07.08.09")].

(** What [try_remove_executable_bits] makes of the inode of a renamed
    file under its new name: the execute bits go when the file is a
    regular file and [os.chmod] is not refused.  The fields [ctime_stamp]
    and [image] are what the scan read of the file; they identify it in
    the statements about the end of the run, and the new ctime the
    kernel gives a file that is renamed or whose mode is changed is not
    part of the model. *)
Definition normalised (P : platform) (new_name : string) (ino : inode)
  : inode :=
  if S_ISREG (st_mode ino) && negb (chmod_denied P new_name)
  then with_mode ino (clear_exec (st_mode ino))
  else ino.

(** Where the file that was the entry [p] with inode [ino] of the
    directory is while the part [todo] of the plan [whole] is still to be
    carried out: under its own name and as it was, or renamed away to a
    target of the plan that is done with. *)
Definition file_kept (P : platform)
    (whole todo : list (string * (string * date_source)))
    (rs : run_state) (p : string) (ino : inode) : Prop :=
  ((p ∉ successfully_renamed_original_paths rs) /\ disk rs !! p = Some ino)
  \/ (exists q src,
        ((q, (p, src)) ∈ whole)
        /\ (q ∉ map fst todo)
        /\ (p ∈ successfully_renamed_original_paths rs)
        /\ disk rs !! p = None
        /\ disk rs !! q = Some (normalised P q ino)).

(** The characters normalisation leaves in a stem: no bracket, no white
    space, comma, plus sign or ampersand, and no capital letter. *)
Definition clean_char (c : ascii) : bool :=
  negb (is_bracket c) && negb (is_space_comma_plus_amp c)
  && negb (PyStr.is_upper c).

Definition not_upper (c : ascii) : bool := negb (PyStr.is_upper c).

Definition is_not (c : ascii) (a : ascii) : bool := negb (Ascii.eqb a c).

(** The flags with and without [-t]. *)
Definition flags (t f v : bool) : arguments :=
  {| time_from_exif := t; force := f; verbose := v |}.

(** An outcome with the label of the date source changed to the one of
    the ctime fallback. *)
Definition as_fallback (o : outcome) : outcome :=
  match o with
  | Planned final_name _ => Planned final_name SrcCtimeFallback
  | _ => o
  end.

(** The entry [p] of the directory is a regular file with at least one
    execute bit. *)
Definition has_execute_bit (fs : gmap string inode) (p : string) : bool :=
  match fs !! p with
  | Some ino =>
      S_ISREG (st_mode ino) && negb (Z.land (st_mode ino) EXEC_BITS =? 0)
  | None => false
  end.

(** The listed entries that are regular files with a media extension. *)
Definition eligible_listed (fs : gmap string inode) (listing : list string)
  : gset string :=
  list_to_set (List.filter (eligible fs) listing).
Section StringFacts.

Lemma append_cons a (x y : string) : String a x ++ y = String a (x ++ y).
Proof. reflexivity. Qed.

Lemma append_nil_l (y : string) : "" ++ y = y.
Proof. reflexivity. Qed.

Lemma take_drop n s : PyStr.take n s ++ PyStr.drop n s = s.
Proof.
  revert s; induction n as [|n IH]; intros [|a t]; simpl; try reflexivity.
  rewrite append_cons. f_equal. apply IH.
Qed.

Lemma take_empty_inv n s : PyStr.take n s = "" -> n = 0%nat \/ s = "".
Proof. destruct n, s; simpl; intros H; auto; discriminate. Qed.

Lemma rfind_from_lower c s i last :
  -1 <= last -> 0 <= i -> -1 <= PyStr.rfind_from c s i last.
Proof.
  revert i last; induction s as [|a t IH]; simpl; intros i last Hl Hi.
  - exact Hl.
  - apply IH; [destruct (Ascii.eqb a c)|]; lia.
Qed.

Lemma rfind_lower s c : -1 <= PyStr.rfind s c.
Proof. apply rfind_from_lower; lia. Qed.

Lemma splitext_root_empty p : fst (OsPath.splitext p) = "" -> p = "".
Proof.
  unfold OsPath.splitext.
  destruct (_ && _) eqn:E; simpl; [|done].
  apply andb_true_iff in E as [Hlt Hskip]. apply Z.ltb_lt in Hlt.
  pose proof (rfind_lower p OsPath.sep) as Hsep.
  intros [Hz| ->]%take_empty_inv; [|done].
  destruct (Z.to_nat (PyStr.rfind p OsPath.extsep - (PyStr.rfind p OsPath.sep + 1))) eqn:Hn.
  - simpl in Hskip. discriminate.
  - lia.
Qed.
Lemma str_all_app f (x y : string) :
  str_all f (x ++ y) = str_all f x && str_all f y.
Proof.
  induction x as [|a x IH]; [done|].
  rewrite append_cons. simpl. rewrite IH. by rewrite andb_assoc.
Qed.

Lemma re_match_stamp_chars pat s :
  Forall (fun it => match it with
                    | ReDigit => True
                    | ReLit c => stamp_char c = true
                    end) pat ->
  re_match pat s = true ->
  str_all stamp_char (PyStr.take (length pat) s) = true.
Proof.
  intros Hpat; revert s; induction Hpat as [|it pat Hit _ IH]; intros s.
  - done.
  - destruct s as [|a t]; simpl; [done|].
    intros [Ha Ht]%andb_true_iff. rewrite (IH _ Ht), andb_true_r.
    destruct it.
    + unfold stamp_char. by rewrite Ha.
    + apply Ascii.eqb_eq in Ha. by subst.
Qed.

Lemma stamp_prefix_chars s :
  STANDALONE_DATE_STAMP_REGEX_match s = true ->
  str_all stamp_char (PyStr.take DATE_STAMP_LENGTH s) = true.
Proof.
  intros H. apply (re_match_stamp_chars DATE_STAMP_FORMAT_REGEX s); [|done].
  repeat constructor.
Qed.

Lemma startswith_underscore t :
  PyStr.startswith t "_" = true -> t = "_" ++ PyStr.drop 1 t.
Proof.
  destruct t as [|a t]; simpl; [done|].
  rewrite andb_true_r. by intros ->%Ascii.eqb_eq.
Qed.

Lemma strip_one_stamp_chars s :
  STANDALONE_DATE_STAMP_REGEX_match s = true ->
  str_all stamp_char (strip_one_stamp s) = true ->
  str_all stamp_char s = true.
Proof.
  intros Hm Hs.
  rewrite <- (take_drop DATE_STAMP_LENGTH s), str_all_app.
  rewrite (stamp_prefix_chars _ Hm), andb_true_l.
  unfold strip_one_stamp in Hs. cbv zeta in Hs.
  destruct (PyStr.startswith _ _) eqn:E; [|done].
  rewrite (startswith_underscore _ E), str_all_app. by rewrite Hs.
Qed.

Lemma strip_stale_stamps_chars s :
  str_all stamp_char (strip_stale_stamps s) = true ->
  str_all stamp_char s = true.
Proof.
  unfold strip_stale_stamps. simpl.
  destruct (STANDALONE_DATE_STAMP_REGEX_match s) eqn:E1; [|done].
  destruct (STANDALONE_DATE_STAMP_REGEX_match (strip_one_stamp s)) eqn:E2;
    simpl; intros H.
  - by apply strip_one_stamp_chars, strip_one_stamp_chars.
  - by apply strip_one_stamp_chars.
Qed.
End StringFacts.

Section ModeFacts.

Lemma clear_exec_idem m : clear_exec (clear_exec m) = clear_exec m.
Proof.
  unfold clear_exec. apply Z.bits_inj'. intros n _.
  rewrite !Z.land_spec.
  destruct (Z.testbit m n), (Z.testbit (Z.lnot S_IXUSR) n),
    (Z.testbit (Z.lnot S_IXGRP) n), (Z.testbit (Z.lnot S_IXOTH) n);
    reflexivity.
Qed.

Lemma with_mode_clear_twice ino m :
  with_mode (with_mode ino (clear_exec m))
    (clear_exec (st_mode (with_mode ino (clear_exec m))))
  = with_mode ino (clear_exec m).
Proof.
  unfold with_mode. cbn [st_mode ctime_stamp image].
  by rewrite clear_exec_idem.
Qed.

Lemma clear_exec_ldiff m : clear_exec m = Z.ldiff m EXEC_BITS.
Proof.
  unfold clear_exec, EXEC_BITS. apply Z.bits_inj'. intros n Hn.
  rewrite !Z.land_spec, Z.ldiff_spec, !Z.lor_spec, !Z.lnot_spec by done.
  destruct (Z.testbit m n), (Z.testbit S_IXUSR n), (Z.testbit S_IXGRP n),
    (Z.testbit S_IXOTH n); reflexivity.
Qed.

Lemma clear_exec_no_exec_bits m : Z.land (clear_exec m) EXEC_BITS = 0.
Proof.
  rewrite clear_exec_ldiff. apply Z.bits_inj'. intros n Hn.
  rewrite Z.land_spec, Z.ldiff_spec, Z.bits_0.
  destruct (Z.testbit m n), (Z.testbit EXEC_BITS n); reflexivity.
Qed.

Lemma clear_exec_fixed m : clear_exec m = m <-> Z.land m EXEC_BITS = 0.
Proof.
  split.
  - intros <-. apply clear_exec_no_exec_bits.
  - intros H. rewrite clear_exec_ldiff. apply Z.bits_inj'. intros n Hn.
    rewrite Z.ldiff_spec.
    assert (Z.testbit (Z.land m EXEC_BITS) n = false) as Hb
      by (rewrite H; apply Z.bits_0).
    rewrite Z.land_spec in Hb.
    destruct (Z.testbit m n), (Z.testbit EXEC_BITS n); done.
Qed.

Lemma S_ISREG_clear_exec m : S_ISREG (clear_exec m) = S_ISREG m.
Proof.
  unfold S_ISREG. f_equal. rewrite clear_exec_ldiff.
  apply Z.bits_inj'. intros n Hn.
  rewrite !Z.land_spec, Z.ldiff_spec.
  assert (Z.testbit (Z.land EXEC_BITS S_IFMT) n = false) as Hb
    by (replace (Z.land EXEC_BITS S_IFMT) with 0 by reflexivity;
        apply Z.bits_0).
  rewrite Z.land_spec in Hb.
  destruct (Z.testbit m n), (Z.testbit EXEC_BITS n), (Z.testbit S_IFMT n);
    done.
Qed.

Lemma S_ISREG_not_link m : S_ISREG m = true -> S_ISLNK m = false.
Proof.
  unfold S_ISREG, S_ISLNK. intros ->%Z.eqb_eq. reflexivity.
Qed.

Lemma path_exists_is_Some (fs : gmap string inode) p :
  path_exists fs p = true -> is_Some (fs !! p).
Proof. unfold path_exists. destruct (fs !! p); [eauto|done]. Qed.

Lemma path_exists_absent (fs : gmap string inode) p :
  fs !! p = None -> path_exists fs p = false.
Proof. unfold path_exists. by intros ->. Qed.

Lemma regular_exists (fs : gmap string inode) p ino :
  fs !! p = Some ino -> S_ISREG (st_mode ino) = true ->
  path_exists fs p = true.
Proof.
  intros Hp Hreg. unfold path_exists. rewrite Hp.
  by rewrite (S_ISREG_not_link _ Hreg).
Qed.

(** A name that exists and a name that does not are different names. *)
Lemma exists_differs (fs : gmap string inode) p n :
  path_exists fs p = true -> path_exists fs n = false -> p <> n.
Proof. intros Hp Hn ->. by rewrite Hp in Hn. Qed.

End ModeFacts.
Section ReconcileFacts.

Lemma endswith_split s p :
  PyStr.endswith s p = true -> exists pre, s = pre ++ p.
Proof.
  unfold PyStr.endswith. intros [_ H]%andb_true_iff.
  apply String.eqb_eq in H.
  exists (PyStr.take (String.length s - String.length p) s).
  pose proof (take_drop (String.length s - String.length p) s) as E.
  rewrite H in E. by symmetry.
Qed.

Lemma stamp_char_lower a : stamp_char a = true -> PyStr.lower_char a = a.
Proof.
  unfold stamp_char, PyStr.lower_char. intros H.
  destruct (PyStr.is_upper a) eqn:E; [exfalso|done].
  unfold PyStr.is_upper in E. unfold PyStr.is_digit in H.
  apply andb_true_iff in E as [E1 E2].
  apply Nat.leb_le in E1, E2.
  apply orb_true_iff in H as [H|H]; [apply orb_true_iff in H as [H|H]|].
  - apply andb_true_iff in H as [H1 H2]. apply Nat.leb_le in H1, H2. lia.
  - apply Ascii.eqb_eq in H. subst a. compute in E1. lia.
  - apply Ascii.eqb_eq in H. subst a. compute in E2. lia.
Qed.

Lemma str_all_stamp_lower s :
  str_all stamp_char s = true -> str_all stamp_char (PyStr.lower s) = true.
Proof.
  induction s as [|a t IH]; simpl; [done|].
  intros [Ha Ht]%andb_true_iff.
  rewrite (stamp_char_lower _ Ha), Ha. by apply IH.
Qed.

Lemma eligible_has_other_chars s :
  EXTENSIONS_search s = true -> str_all stamp_char s = false.
Proof.
  intros He. destruct (str_all stamp_char s) eqn:Hall; [exfalso|done].
  apply str_all_stamp_lower in Hall.
  apply existsb_exists in He as (e & Hin & Hend).
  assert (exists suf, (suf = "." ++ e \/ suf = "." ++ e ++ newline)
                      /\ PyStr.endswith (PyStr.lower s) suf = true)
    as (suf & Hsuf & Hend').
  { apply orb_true_iff in Hend as [H|H]; eauto. }
  apply endswith_split in Hend' as [pre Hpre].
  rewrite Hpre, str_all_app in Hall.
  apply andb_true_iff in Hall as [_ Hall].
  unfold EXTENSION_NAMES in Hin. simpl in Hin.
  repeat (destruct Hin as [<-|Hin];
          [destruct Hsuf as [-> | ->]; vm_compute in Hall; discriminate|]).
  done.
Qed.

Lemma check_stripped_proceeds f :
  f <> "" -> check_stripped f = Proceed f.
Proof.
  intros Hf. unfold check_stripped.
  pose proof (splitext_root_empty f) as Hroot.
  destruct (OsPath.splitext f) as [temp_base temp_ext]; simpl in Hroot.
  destruct temp_base; [by destruct Hf; apply Hroot|].
  simpl. by destruct f.
Qed.

(** The branch that prefixes [recovered] is never taken. *)
Lemma check_stripped_cases f :
  check_stripped f
  = if PyStr.truthy f then Proceed f else Skip SkippedInvalidAfterStrip.
Proof.
  destruct f as [|a t]; [done|]. by apply check_stripped_proceeds.
Qed.

Lemma take_app_length (x y : string) : PyStr.take (String.length x) (x ++ y) = x.
Proof.
  induction x as [|a x IH]; [by destruct y|].
  rewrite append_cons. simpl. by rewrite IH.
Qed.

Lemma tentative_final_name_prefix ts f :
  exists rest, tentative_final_name ts f = ts ++ "_" ++ rest.
Proof.
  unfold tentative_final_name. destruct (OsPath.splitext f). eauto.
Qed.

Lemma tentative_final_name_take ts f :
  well_formed_stamp ts = true ->
  PyStr.take DATE_STAMP_LENGTH (tentative_final_name ts f) = ts.
Proof.
  intros [_ Hlen%Nat.eqb_eq]%andb_true_iff.
  destruct (tentative_final_name_prefix ts f) as [rest ->].
  rewrite <- Hlen. apply take_app_length.
Qed.

Lemma strip_stale_stamps_unfold name :
  STANDALONE_DATE_STAMP_REGEX_match name = true ->
  strip_stale_stamps name
  = let once := strip_one_stamp name in
    if STANDALONE_DATE_STAMP_REGEX_match once then strip_one_stamp once
    else once.
Proof.
  intros H. unfold strip_stale_stamps. simpl. rewrite H.
  by destruct (STANDALONE_DATE_STAMP_REGEX_match (strip_one_stamp name)).
Qed.

Lemma strip_stage_stale force ts name :
  EXTENSIONS_search name = true ->
  STANDALONE_DATE_STAMP_REGEX_match name = true ->
  PyStr.take DATE_STAMP_LENGTH name <> ts ->
  strip_stage force ts name = Proceed (strip_stale_stamps name).
Proof.
  intros He Hm Hne. unfold strip_stage. rewrite Hm.
  apply String.eqb_neq in Hne. rewrite Hne.
  unfold strip_stale_stamps.
  destruct (strip_incorrect_stamps 2 name 0) as [temp_name stripped_count] eqn:E.
  assert (temp_name = strip_stale_stamps name) as Htemp
    by (unfold strip_stale_stamps; by rewrite E).
  assert (stripped_count <> 0%nat) as Hc.
  { simpl in E. rewrite Hm in E.
    destruct (STANDALONE_DATE_STAMP_REGEX_match (strip_one_stamp name));
      by inversion E. }
  destruct (0 <? stripped_count)%nat eqn:Hlt;
    [|apply Nat.ltb_ge in Hlt; lia].
  simpl. apply check_stripped_proceeds. intros ->.
  pose proof (eligible_has_other_chars _ He) as Hoth.
  rewrite strip_stale_stamps_chars in Hoth; [done|]. by rewrite <- Htemp.
Qed.

End ReconcileFacts.
Section CollisionFacts.

Variable in_seen : string -> bool.
Variable exists_on_disk : string -> bool.
Variable original_basename : string.

Let taken (n : string) : bool := in_seen n || exists_on_disk n.

(** Where the loop stops: at a free name, or at the file's own name. *)
Let stops (n : string) : bool :=
  negb (taken n) || String.eqb n original_basename.

Lemma name_taken_fst n :
  fst (name_taken in_seen exists_on_disk n) = taken n.
Proof. unfold name_taken, taken. by destruct (in_seen n). Qed.

Lemma name_taken_asked n :
  Forall (fun m => in_seen m = false)
    (snd (name_taken in_seen exists_on_disk n)).
Proof.
  unfold name_taken. destruct (in_seen n) eqn:E; simpl; [constructor|].
  by repeat constructor.
Qed.

Lemma collision_loop_find base ext fuel counter temp :
  (1 <= counter <= 100)%nat -> (101 - counter <= fuel)%nat ->
  fst (collision_loop in_seen exists_on_disk fuel original_basename base ext
         counter temp)
  = LoopDone
      (find stops
         (temp :: map (suffixed base ext) (seq counter (100 - counter)))).
Proof.
  revert counter temp.
  induction fuel as [|fuel IH]; intros counter temp Hc Hf; [lia|].
  cbn [collision_loop find].
  pose proof (name_taken_fst temp) as Ht.
  destruct (name_taken in_seen exists_on_disk temp) as [tk asked].
  simpl in Ht. subst tk. unfold stops at 1.
  destruct (taken temp); simpl; [|done].
  destruct (String.eqb temp original_basename); [done|].
  destruct (100 <? S counter)%nat eqn:Hlt.
  - apply Nat.ltb_lt in Hlt. by replace (100 - counter)%nat with 0%nat by lia.
  - apply Nat.ltb_ge in Hlt.
    specialize (IH (S counter) (suffixed base ext counter)).
    destruct (collision_loop _ _ fuel _ _ _ _ _) as [r asked'].
    cbn [fst] in *. cbv beta iota zeta. cbn [fst].
    rewrite (IH ltac:(lia) ltac:(lia)).
    replace (100 - counter)%nat with (S (100 - S counter)) by lia.
    done.
Qed.

Lemma collision_loop_asked base ext fuel counter temp :
  Forall (fun m => in_seen m = false)
    (snd (collision_loop in_seen exists_on_disk fuel original_basename base
            ext counter temp)).
Proof.
  revert counter temp.
  induction fuel as [|fuel IH]; intros counter temp; [constructor|].
  cbn [collision_loop].
  pose proof (name_taken_asked temp) as Ha.
  destruct (name_taken in_seen exists_on_disk temp) as [tk asked].
  simpl in Ha.
  destruct tk; [|done].
  destruct (String.eqb temp original_basename); [done|].
  destruct (100 <? S counter)%nat; [done|].
  specialize (IH (S counter) (suffixed base ext counter)).
  destruct (collision_loop _ _ fuel _ _ _ _ _) as [r asked'].
  simpl in *. by apply Forall_app.
Qed.

(** The loop never runs out of fuel. *)
Lemma collision_loop_terminates base ext final_name :
  fst (collision_loop in_seen exists_on_disk 100 original_basename base ext 1
         final_name) <> OutOfFuel.
Proof. by rewrite collision_loop_find by lia. Qed.

Lemma resolve_unique_find final_name :
  resolve_unique in_seen exists_on_disk original_basename final_name
  = match
      find stops
        (probes (fst (OsPath.splitext final_name))
           (snd (OsPath.splitext final_name)) final_name)
    with
    | None => Exhausted
    | Some p =>
        if String.eqb p original_basename then SelfCollision else Final p
    end.
Proof.
  unfold resolve_unique, resolve_unique_traced, probes.
  destruct (OsPath.splitext final_name) as [base ext]. cbn [fst snd].
  pose proof (collision_loop_find base ext 100 1 final_name
                ltac:(lia) ltac:(lia)) as H.
  destruct (collision_loop _ _ 100 _ _ _ _ _) as [r asked].
  cbn [fst] in H. subst r. cbn [fst]. reflexivity.
Qed.

Lemma resolve_unique_asked final_name :
  Forall (fun m => in_seen m = false)
    (snd (resolve_unique_traced in_seen exists_on_disk original_basename
            final_name)).
Proof.
  unfold resolve_unique_traced.
  destruct (OsPath.splitext final_name) as [base ext].
  pose proof (collision_loop_asked base ext 100 1 final_name) as H.
  by destruct (collision_loop _ _ 100 _ _ _ _ _) as [r asked].
Qed.

Lemma find_map_seq_first (f : string -> bool) (g : nat -> string) a n k :
  (a <= k < a + n)%nat ->
  (forall j, (a <= j < k)%nat -> f (g j) = false) ->
  f (g k) = true ->
  find f (map g (seq a n)) = Some (g k).
Proof.
  revert a; induction n as [|n IH]; intros a Hk Hbefore Hat; [lia|].
  simpl. destruct (decide (a = k)) as [->|Hne].
  - by rewrite Hat.
  - rewrite Hbefore by lia. apply IH; [lia| |done].
    intros j Hj. apply Hbefore. lia.
Qed.

Lemma find_map_seq_none (f : string -> bool) (g : nat -> string) a n :
  (forall j, (a <= j < a + n)%nat -> f (g j) = false) ->
  find f (map g (seq a n)) = None.
Proof.
  revert a; induction n as [|n IH]; intros a H; [done|].
  simpl. rewrite H by lia. apply IH. intros j Hj. apply H. lia.
Qed.

Lemma stops_false n :
  taken n = true -> n <> original_basename -> stops n = false.
Proof.
  unfold stops. intros -> Hne%String.eqb_neq. by rewrite Hne.
Qed.

Lemma resolve_unique_free final_name :
  final_name <> original_basename ->
  taken final_name = false ->
  resolve_unique in_seen exists_on_disk original_basename final_name
  = Final final_name.
Proof.
  intros Hne%String.eqb_neq Hfree. rewrite resolve_unique_find.
  unfold probes. cbn [find]. unfold stops at 1.
  rewrite Hfree. cbn [negb orb]. by rewrite Hne.
Qed.

Lemma resolve_unique_final_free final_name name :
  resolve_unique in_seen exists_on_disk original_basename final_name
  = Final name ->
  taken name = false /\ name <> original_basename.
Proof.
  rewrite resolve_unique_find.
  destruct (find stops _) as [p|] eqn:E; [|done].
  apply find_some in E as [_ Hstop].
  destruct (String.eqb p original_basename) eqn:Hp; [done|].
  intros [= <-]. apply String.eqb_neq in Hp. split; [|done].
  unfold stops in Hstop. apply orb_true_iff in Hstop as [H|H].
  - by apply negb_true_iff in H.
  - apply String.eqb_eq in H. done.
Qed.

End CollisionFacts.
Section ReconcileTheorems.

Lemma well_formed_stamp_truthy ts :
  well_formed_stamp ts = true -> PyStr.truthy ts = true.
Proof.
  intros [_ H%Nat.eqb_eq]%andb_true_iff. by destruct ts.
Qed.

(** What the scan does with a file whose name starts with a stamp other
    than the resolved timestamp: the stamp and one more are stripped and
    the candidate built from the remainder goes to collision
    resolution, whatever the force flag is. *)
Lemma stale_stamp_scanned
    (P : platform) (args : arguments) (fs : gmap string inode)
    (path : string) (ino : inode) (ts : string) (src : date_source) :
  fs !! path = Some ino ->
  S_ISREG (st_mode ino) = true ->
  EXTENSIONS_search path = true ->
  OsPath.basename path = path ->
  resolve_date P args ino = Some (ts, src) ->
  well_formed_stamp ts = true ->
  STANDALONE_DATE_STAMP_REGEX_match path = true ->
  PyStr.take DATE_STAMP_LENGTH path <> ts ->
  let once := strip_one_stamp path in
  let remainder :=
    if STANDALONE_DATE_STAMP_REGEX_match once then strip_one_stamp once
    else once in
  let final_name := tentative_final_name ts remainder in
  strip_stage (force args) ts path = Proceed remainder
  /\ reconcile (force args) ts path = Candidate final_name
  /\ (forall seen,
        process_file P args fs seen path
        = match
            resolve_unique (fun n => bool_decide (is_Some (seen !! n)))
              (path_exists fs) path final_name
          with
          | Final name => Planned name src
          | SelfCollision => SkippedSelfCollision
          | Exhausted => SkippedCollisionExhausted
          end)
  /\ (forall seen,
        seen !! final_name = None -> path_exists fs final_name = false ->
        process_file P args fs seen path = Planned final_name src).
Proof.
  intros Hfs Hreg Hel Hbase Hdate Hts Hm Hne once remainder final_name.
  assert (remainder = strip_stale_stamps path) as Hrem
    by (by rewrite strip_stale_stamps_unfold).
  assert (strip_stage (force args) ts path = Proceed remainder) as Hstage
    by (rewrite Hrem; by apply strip_stage_stale).
  assert (final_name <> path) as Hfinal.
  { intros Heq. apply Hne. rewrite <- Heq at 1.
    by apply tentative_final_name_take. }
  assert (reconcile (force args) ts path = Candidate final_name) as Hrec.
  { unfold reconcile. rewrite Hstage.
    apply String.eqb_neq in Hfinal. fold final_name. by rewrite Hfinal. }
  assert (forall seen,
        process_file P args fs seen path
        = match
            resolve_unique (fun n => bool_decide (is_Some (seen !! n)))
              (path_exists fs) path final_name
          with
          | Final name => Planned name src
          | SelfCollision => SkippedSelfCollision
          | Exhausted => SkippedCollisionExhausted
          end) as Hproc.
  { intros seen. unfold process_file.
    rewrite Hfs, Hreg, Hel, Hdate, Hbase. cbn [negb].
    rewrite (well_formed_stamp_truthy _ Hts). cbn [negb]. by rewrite Hrec. }
  split; [done|]. split; [done|]. split; [done|].
  intros seen Hseen Hdisk. rewrite Hproc.
  rewrite resolve_unique_free; [done|done|].
  rewrite Hseen, Hdisk. by vm_compute.
Qed.

End ReconcileTheorems.

Section DegenerateNames.

Lemma tentative_final_name_empty_stem ts f :
  clean_name_part (fst (OsPath.splitext f)) = "" ->
  let ext := clean_ext_part (snd (OsPath.splitext f)) in
  tentative_final_name ts f
  = ts ++ "_" ++ (if PyStr.truthy ext then "untitled" else "untitled_file")
       ++ ext.
Proof.
  unfold tentative_final_name.
  destruct (OsPath.splitext f) as [name_part ext_part]. cbn [fst snd].
  intros ->. reflexivity.
Qed.

Lemma strip_stage_skip_invalid force ts name :
  strip_stage force ts name = Skip SkippedInvalidAfterStrip ->
  STANDALONE_DATE_STAMP_REGEX_match name = true.
Proof.
  unfold strip_stage.
  destruct (STANDALONE_DATE_STAMP_REGEX_match name); [done|].
  by destruct (_ && _).
Qed.

(** C10. When cleaning leaves nothing of the stem, the stem becomes
    [untitled] if an extension is left and [untitled_file] if none is;
    the normalisation stage never classifies a file as invalid after
    stripping: that outcome comes from the stamp-stripping stage alone,
    and only for names that start with a stamp. *)
Theorem empty_stem_is_substituted (force : bool) (ts name : string) :
  (forall f,
      strip_stage force ts name = Proceed f ->
      clean_name_part (fst (OsPath.splitext f)) = "" ->
      let ext := clean_ext_part (snd (OsPath.splitext f)) in
      let final_name :=
        ts ++ "_"
           ++ (if PyStr.truthy ext then "untitled" else "untitled_file")
           ++ ext in
      reconcile force ts name
      = if String.eqb final_name name then Stop SkippedNoChange
        else Candidate final_name)
  /\ (forall f,
         strip_stage force ts name = Proceed f ->
         reconcile force ts name <> Stop SkippedInvalidAfterStrip)
  /\ (reconcile force ts name = Stop SkippedInvalidAfterStrip ->
      strip_stage force ts name = Skip SkippedInvalidAfterStrip
      /\ STANDALONE_DATE_STAMP_REGEX_match name = true).
Proof.
  split; [|split].
  - intros f Hstage Hclean ext final_name. unfold reconcile.
    rewrite Hstage, (tentative_final_name_empty_stem ts f Hclean).
    reflexivity.
  - intros f Hstage. unfold reconcile. rewrite Hstage.
    by destruct (String.eqb _ _).
  - unfold reconcile.
    destruct (strip_stage force ts name) as [f|o] eqn:Hstage.
    + by destruct (String.eqb _ _).
    + intros [= ->]. split; [done|].
      by apply (strip_stage_skip_invalid force ts).
Qed.

Lemma empty_stem_examples :
  reconcile false "2023.05.06.07.08.09" "_ [].JPEG"
  = Candidate "2023.05.06.07.08.09_untitled.jpg"
  /\ reconcile false "2023.05.06.07.08.09" "_( )"
     = Candidate "2023.05.06.07.08.09_untitled_file".
Proof.
  split.
  - apply (proj1 (empty_stem_is_substituted false "2023.05.06.07.08.09"
                    "_ [].JPEG") "_ [].JPEG"); reflexivity.
  - apply (proj1 (empty_stem_is_substituted false "2023.05.06.07.08.09"
                    "_( )") "_( )"); reflexivity.
Defined.

(** C7: the code does not do what the claim says.  In force mode and
    with the resolved timestamp 2023.05.06.07.08.09, stripping the stamp
    and the underscore of 2023.05.06.07.08.09_.jpg leaves [.jpg].  The
    code then tests whether the name has become an extension only, but
    [os.path.splitext] gives the stem of [.jpg] as [.jpg] and not as
    empty, so the test fails and [.jpg] goes to the cleaning as it is,
    where the stem loses its leading dot and there is no extension: the
    file is planned and renamed as 2023.05.06.07.08.09_jpg, without an
    extension, and not as 2023.05.06.07.08.09_untitled.jpg. *)
Theorem force_mode_dot_jpg_loses_extension :
  strip_stage true "2023.05.06.07.08.09" "2023.05.06.07.08.09_.jpg"
  = Proceed ".jpg"
  /\ OsPath.splitext ".jpg" = (".jpg", "")
  /\ reconcile true "2023.05.06.07.08.09" "2023.05.06.07.08.09_.jpg"
     = Candidate "2023.05.06.07.08.09_jpg"
  /\ seen (fst run_forced_dot_jpg) !! "2023.05.06.07.08.09_jpg"
     = Some ("2023.05.06.07.08.09_.jpg", SrcCtimeDefault)
  /\ seen (fst run_forced_dot_jpg) !! "2023.05.06.07.08.09_untitled.jpg"
     = None
  /\ disk (snd run_forced_dot_jpg) !! "2023.05.06.07.08.09_jpg"
     = Some (regular_file 0x1A4 "2023.05.06.07.08.09")
  /\ disk (snd run_forced_dot_jpg) !! "2023.05.06.07.08.09_untitled.jpg"
     = None
  /\ disk (snd run_forced_dot_jpg) !! "2023.05.06.07.08.09_.jpg" = None
  /\ size (disk (snd run_forced_dot_jpg)) = 1%nat.
Proof. vm_compute. repeat split; done. Qed.

(** C8: the code does not do what the claim says.  A name that
    stripping reduces to a dot and an extension is not given the prefix
    [recovered]: [check_stripped] hands on every non-empty name as it is,
    because [os.path.splitext] never returns an empty stem for one.  The
    file 2020.01.01.00.00.00.jpg with the resolved timestamp
    2023.05.06.07.08.09 is planned as 2023.05.06.07.08.09_jpg and not as
    2023.05.06.07.08.09_recovered.jpg. *)
Theorem recovered_prefix_never_applied :
  (forall f,
      check_stripped f
      = if PyStr.truthy f then Proceed f else Skip SkippedInvalidAfterStrip)
  /\ strip_stage false "2023.05.06.07.08.09" "2020.01.01.00.00.00.jpg"
     = Proceed ".jpg"
  /\ process_file plain_platform no_flags
       (single_file "2020.01.01.00.00.00.jpg" 0x1A4 "2023.05.06.07.08.09")
       ∅ "2020.01.01.00.00.00.jpg"
     = Planned "2023.05.06.07.08.09_jpg" SrcCtimeDefault
  /\ process_file plain_platform force_flag
       (single_file "2023.05.06.07.08.09_.jpg" 0x1A4 "2023.05.06.07.08.09")
       ∅ "2023.05.06.07.08.09_.jpg"
     = Planned "2023.05.06.07.08.09_jpg" SrcCtimeDefault.
Proof.
  split; [exact check_stripped_cases|]. vm_compute. repeat split; done.
Qed.

End DegenerateNames.

Section CollisionTheorems.

(** C3, as the specification has it, fails: with the candidate and its
    variants 1 to 99 in use and variant 100 free, the file is given up as
    exhausted; the variant numbered 100 is built but never looked at. *)
Lemma variant_100_is_never_tried :
  crowded_directory !! "2023.05.06.07.08.09_a_100.jpg" = None
  /\ reconcile false "2023.05.06.07.08.09" "a.jpg"
     = Candidate "2023.05.06.07.08.09_a.jpg"
  /\ suffixed "2023.05.06.07.08.09_a" ".jpg" 100
     = "2023.05.06.07.08.09_a_100.jpg"
  /\ process_file plain_platform no_flags crowded_directory ∅ "a.jpg"
     = SkippedCollisionExhausted.
Proof. vm_compute. done. Qed.

(** C3, amended.  For a candidate other than the file's own name: a
    candidate that is neither claimed nor on disk is final; the disk is
    asked only about names that are not claimed; otherwise the variants
    [_n] before the extension are tried for n from 1 to 99, the first
    free one is final, a variant equal to the file's own name ends the
    search without a rename, and when the candidate and all 99 variants
    are in use the search is given up (100 names have been looked at). *)
Theorem resolve_unique_characterised
    (in_seen exists_on_disk : string -> bool)
    (original_basename final_name : string) :
  final_name <> original_basename ->
  let base := fst (OsPath.splitext final_name) in
  let ext := snd (OsPath.splitext final_name) in
  let variant := suffixed base ext in
  let taken n := in_seen n || exists_on_disk n in
  let result :=
    resolve_unique in_seen exists_on_disk original_basename final_name in
  let in_use_before k :=
    taken final_name = true
    /\ forall j, (1 <= j < k)%nat ->
                 taken (variant j) = true
                 /\ variant j <> original_basename in
  (taken final_name = false -> result = Final final_name)
  /\ Forall (fun n => in_seen n = false)
       (snd (resolve_unique_traced in_seen exists_on_disk original_basename
               final_name))
  /\ (forall k, (1 <= k <= 99)%nat -> in_use_before k ->
                taken (variant k) = false ->
                variant k <> original_basename ->
                result = Final (variant k))
  /\ (forall k, (1 <= k <= 99)%nat -> in_use_before k ->
                variant k = original_basename ->
                result = SelfCollision)
  /\ (in_use_before 100%nat -> result = Exhausted).
Proof.
  intros Hne base ext variant taken result in_use_before.
  assert (forall p,
             find (fun n => negb (taken n) || String.eqb n original_basename)
               (probes base ext final_name) = p ->
             result = match p with
                      | None => Exhausted
                      | Some p =>
                          if String.eqb p original_basename
                          then SelfCollision else Final p
                      end) as Hfind.
  { intros p <-. apply resolve_unique_find. }
  split; [by apply resolve_unique_free|].
  split; [apply resolve_unique_asked|].
  assert (forall k, in_use_before k ->
            (forall j, (1 <= j < k)%nat ->
               negb (taken (variant j))
               || String.eqb (variant j) original_basename = false)
            /\ negb (taken final_name)
               || String.eqb final_name original_basename = false)
    as Hbefore.
  { intros k [Hfinal Hvar]. split.
    - intros j Hj. destruct (Hvar j Hj) as [-> Hj'%String.eqb_neq].
      by rewrite Hj'.
    - rewrite Hfinal. by apply String.eqb_neq in Hne as ->. }
  split; [|split].
  - intros k Hk Hin Hfree Hk'.
    destruct (Hbefore k Hin) as [Hvar Hfinal].
    rewrite (Hfind (Some (variant k))).
    + by apply String.eqb_neq in Hk' as ->.
    + unfold probes. cbn [find]. rewrite Hfinal.
      apply (find_map_seq_first _ variant); [lia|done|].
      by rewrite Hfree.
  - intros k Hk Hin Hself.
    destruct (Hbefore k Hin) as [Hvar Hfinal].
    rewrite (Hfind (Some (variant k))).
    + by apply String.eqb_eq in Hself as ->.
    + unfold probes. cbn [find]. rewrite Hfinal.
      apply (find_map_seq_first _ variant); [lia|done|].
      apply String.eqb_eq in Hself as ->. apply orb_true_r.
  - intros Hin. destruct (Hbefore 100%nat Hin) as [Hvar Hfinal].
    rewrite (Hfind None); [done|].
    unfold probes. cbn [find]. rewrite Hfinal.
    apply (find_map_seq_none _ variant). intros j Hj. apply Hvar. lia.
Qed.

(** The amended statement at work: a free candidate, and a second file
    of the same run, which gets the variant 1 without the disk being
    asked about the claimed candidate. *)
Lemma resolve_unique_examples :
  resolve_unique (fun _ => false) (fun _ => false) "a.jpg"
    "2023.05.06.07.08.09_a.jpg"
  = Final "2023.05.06.07.08.09_a.jpg"
  /\ resolve_unique
       (String.eqb "2023.05.06.07.08.09_a.jpg") (fun _ => false) "A.jpg"
       "2023.05.06.07.08.09_a.jpg"
     = Final "2023.05.06.07.08.09_a_1.jpg"
  /\ snd (resolve_unique_traced
            (String.eqb "2023.05.06.07.08.09_a.jpg") (fun _ => false)
            "A.jpg" "2023.05.06.07.08.09_a.jpg")
     = ["2023.05.06.07.08.09_a_1.jpg"].
Proof.
  split; [|split].
  - apply (resolve_unique_characterised (fun _ => false) (fun _ => false)
             "a.jpg" "2023.05.06.07.08.09_a.jpg");
      [discriminate|by vm_compute].
  - pose proof (resolve_unique_characterised
                  (String.eqb "2023.05.06.07.08.09_a.jpg") (fun _ => false)
                  "A.jpg" "2023.05.06.07.08.09_a.jpg" ltac:(discriminate))
      as (_ & _ & Hfirst & _).
    apply (Hfirst 1%nat); [lia| |by vm_compute|by vm_compute].
    split; [by vm_compute|]. intros j Hj. lia.
  - by vm_compute.
Defined.

End CollisionTheorems.

Section MetadataTheorems.





End MetadataTheorems.

Section ScanFacts.

Variable P : platform.
Variable args : arguments.
Variable fs : gmap string inode.

Lemma strip_stage_stop_kinds force ts name o :
  strip_stage force ts name = Skip o ->
  o = SkippedCorrectStamp \/ o = SkippedInvalidAfterStrip
  \/ o = SkippedContainsDate.
Proof.
  unfold strip_stage.
  destruct (STANDALONE_DATE_STAMP_REGEX_match name).
  - destruct (String.eqb _ ts).
    + destruct force; cbn [negb].
      * rewrite check_stripped_cases.
        destruct (PyStr.truthy _); intros [= <-]; auto.
      * intros [= <-]; auto.
    + destruct (strip_incorrect_stamps 2 name 0) as [t c].
      destruct (0 <? c)%nat; [|done].
      rewrite check_stripped_cases.
      destruct (PyStr.truthy _); intros [= <-]; auto.
  - destruct (_ && _); intros [= <-]; auto.
Qed.

Lemma reconcile_stop_kinds force ts name o :
  reconcile force ts name = Stop o ->
  o = SkippedCorrectStamp \/ o = SkippedInvalidAfterStrip
  \/ o = SkippedContainsDate \/ o = SkippedNoChange.
Proof.
  unfold reconcile.
  destruct (strip_stage force ts name) as [f|o'] eqn:E.
  - destruct (String.eqb _ _); intros [= <-]; auto.
  - intros [= <-]. apply strip_stage_stop_kinds in E. tauto.
Qed.

Lemma process_file_eligible seen path :
  is_eligible (process_file P args fs seen path) = eligible fs path.
Proof.
  unfold process_file, eligible, path_isfile.
  destruct (fs !! path) as [ino|]; [|done].
  destruct (S_ISREG (st_mode ino)); [|done].
  destruct (EXTENSIONS_search path); [|done]. cbn [negb andb].
  destruct (resolve_date P args ino) as [[ts src]|]; [|done].
  destruct (PyStr.truthy ts); [|done]. cbn [negb].
  destruct (reconcile _ _ _) as [final|o] eqn:E.
  - by destruct (resolve_unique _ _ _ _).
  - apply reconcile_stop_kinds in E.
    by destruct E as [->|[->|[->| ->]]].
Qed.

(** A name goes into the plan only when it is neither a key of the plan
    nor found by [os.path.exists]. *)
Lemma process_file_planned seen path n src :
  process_file P args fs seen path = Planned n src ->
  seen !! n = None /\ path_exists fs n = false
  /\ n <> OsPath.basename path.
Proof.
  unfold process_file.
  destruct (fs !! path) as [ino|]; [|done].
  destruct (negb (S_ISREG (st_mode ino))); [done|].
  destruct (negb (EXTENSIONS_search path)); [done|].
  destruct (resolve_date P args ino) as [[ts src']|]; [|done].
  destruct (negb (PyStr.truthy ts)); [done|].
  destruct (reconcile _ _ _) as [final|o] eqn:E.
  - destruct (resolve_unique _ _ _ _) as [name| |] eqn:Hres; try done.
    intros [= -> ->].
    apply resolve_unique_final_free in Hres as [Hfree Hne].
    apply orb_false_iff in Hfree as [Hseen Hdisk].
    apply bool_decide_eq_false in Hseen.
    rewrite <- eq_None_not_Some in Hseen. done.
  - apply reconcile_stop_kinds in E.
    by destruct E as [->|[->|[->| ->]]].
Qed.

Lemma planned_names_snoc h path o :
  planned_names (h ++ [(path, o)])%list
  = (planned_names h ++ match o with Planned n _ => [n] | _ => [] end)%list.
Proof.
  unfold planned_names. rewrite omap_app. f_equal. by destruct o.
Qed.


Lemma scan_invariant_initial : scan_invariant P args fs initial_scan_state.
Proof.
  split; simpl.
  - constructor.
  - intros n. rewrite lookup_empty. split; [by intros ?%elem_of_nil|].
    by intros [? ?].
  - intros n v. by rewrite lookup_empty.
  - by intros p o ?%elem_of_nil.
  - by intros p o ?%elem_of_nil.
  - by intros p o ?%elem_of_nil.
Qed.

Lemma scan_invariant_step st path :
  scan_invariant P args fs st -> scan_invariant P args fs (scan_step P args fs st path).
Proof.
  intros [Hnodup Hkeys Hfresh Hhist Hel Hout].
  unfold scan_step.
  assert (exists s, process_file P args fs (seen st) path
                    = process_file P args fs s path) as Hnew by eauto.
  pose proof (process_file_eligible (seen st) path) as Helig.
  pose proof (process_file_planned (seen st) path) as Hplanned.
  set (o := process_file P args fs (seen st) path) in *. clearbody o.
  assert ((exists n src, o = Planned n src)
          \/ forall n src, o <> Planned n src) as [(n & src & Ho)|Ho].
  { destruct o; eauto; right; done. }
  - (* the entry goes into the plan *)
    destruct (Hplanned n src Ho) as (Hseen & Hdisk & _).
    assert (n ∉ planned_names (history st)) as Hnotin.
    { rewrite Hkeys, Hseen. by intros [? ?]. }
    rewrite Ho. split; cbn [history seen eligible_files_not_renamed_paths
                              record_outcome].
    + rewrite planned_names_snoc. apply NoDup_app. split; [done|].
      split; [|apply NoDup_singleton].
      intros x Hx ->%list_elem_of_singleton. done.
    + intros m. rewrite planned_names_snoc, elem_of_app, Hkeys.
      rewrite list_elem_of_singleton.
      destruct (decide (n = m)) as [->|Hne].
      * rewrite lookup_insert_eq. split; eauto.
      * rewrite lookup_insert_ne by done. split; [intros [?| ->]|]; eauto.
        done.
    + intros m v. destruct (decide (n = m)) as [->|Hne].
      * rewrite lookup_insert_eq. intros [= <-]. split; [done|].
        apply elem_of_app. right. by apply list_elem_of_singleton.
      * rewrite lookup_insert_ne by done. intros Hv.
        destruct (Hfresh m v Hv) as [? ?]. split; [done|].
        apply elem_of_app. by left.
    + intros p o' [Hin|Hin%list_elem_of_singleton]%elem_of_app.
      * specialize (Hhist p o' Hin). destruct o'; try done.
        rewrite lookup_insert_ne; [done|].
        intros ->. by rewrite Hseen in Hhist.
      * injection Hin as -> ->. by rewrite lookup_insert_eq.
    + intros p o' [Hin|Hin%list_elem_of_singleton]%elem_of_app.
      * by apply Hel.
      * injection Hin as -> ->. by rewrite <- Ho.
    + intros p o' [Hin|Hin%list_elem_of_singleton]%elem_of_app.
      * by apply Hout.
      * injection Hin as -> ->. by rewrite <- Ho.
  - (* the entry stays out of the plan *)
    assert (seen (record_outcome st path o) = seen st) as Hsame
      by (unfold record_outcome; cbn [seen]; destruct o; try done;
          by destruct (Ho final_name src)).
    assert (planned_names (history (record_outcome st path o))
            = planned_names (history st)) as Hnames.
    { cbn [history record_outcome]. rewrite planned_names_snoc.
      destruct o; try apply app_nil_r. by destruct (Ho final_name src). }
    assert (eligible_files_not_renamed_paths st
            ⊆ eligible_files_not_renamed_paths (record_outcome st path o))
      as Hmono.
    { cbn [eligible_files_not_renamed_paths record_outcome].
      destruct o; try done; apply union_subseteq_r. }
    split; rewrite ?Hsame, ?Hnames.
    + done.
    + done.
    + intros m v Hv. destruct (Hfresh m v Hv) as [? ?]. split; [done|].
      cbn [history record_outcome]. apply elem_of_app. by left.
    + cbn [history record_outcome].
      intros p o' [Hin|Hin%list_elem_of_singleton]%elem_of_app.
      * specialize (Hhist p o' Hin). destruct o'; try done; by apply Hmono.
      * injection Hin as -> ->.
        cbn [eligible_files_not_renamed_paths record_outcome].
        destruct o; try done;
          try (apply elem_of_union; left; by apply elem_of_singleton).
        by destruct (Ho final_name src).
    + cbn [history record_outcome].
      intros p o' [Hin|Hin%list_elem_of_singleton]%elem_of_app.
      * by apply Hel.
      * by injection Hin as -> ->.
    + cbn [history record_outcome].
      intros p o' [Hin|Hin%list_elem_of_singleton]%elem_of_app.
      * by apply Hout.
      * by injection Hin as -> ->.
Qed.

Lemma scan_from_invariant st listing :
  scan_invariant P args fs st -> scan_invariant P args fs (scan_from P args fs st listing).
Proof.
  revert st; induction listing as [|path listing IH]; intros st Hinv.
  - done.
  - apply IH. by apply scan_invariant_step.
Qed.

Lemma scan_has_invariant listing : scan_invariant P args fs (scan P args fs listing).
Proof. apply scan_from_invariant, scan_invariant_initial. Qed.

Lemma scan_from_app st l1 l2 :
  scan_from P args fs st (l1 ++ l2)%list
  = scan_from P args fs (scan_from P args fs st l1) l2.
Proof. apply fold_left_app. Qed.

Lemma scan_from_history st listing :
  map fst (history (scan_from P args fs st listing))
  = (map fst (history st) ++ listing)%list.
Proof.
  revert st; induction listing as [|path listing IH]; intros st.
  - by rewrite app_nil_r.
  - cbn [scan_from fold_left]. fold (scan_from P args fs).
    change (fold_left (scan_step P args fs) listing
              (scan_step P args fs st path))
      with (scan_from P args fs (scan_step P args fs st path) listing).
    rewrite IH. cbn [scan_step record_outcome history].
    rewrite map_app. cbn [map fst]. by rewrite <- app_assoc.
Qed.

End ScanFacts.

Section PlanTheorems.



(** Three files with the same candidate, one variant of which is already
    on disk. *)
Lemma same_candidate_example :
  history (scan plain_platform no_flags same_candidate_directory
             ["a.jpg"; "A.JPG"; "(a).jpeg"])
  = [("a.jpg", Planned "2023.05.06.07.08.09_a.jpg" SrcCtimeDefault);
     ("A.JPG", Planned "2023.05.06.07.08.09_a_2.jpg" SrcCtimeDefault);
     ("(a).jpeg", Planned "2023.05.06.07.08.09_a_3.jpg" SrcCtimeDefault)].
Proof. by vm_compute. Qed.

End PlanTheorems.

Section RunFacts.

Variable P : platform.
Variable fs : gmap string inode.

Lemma insert_sorted_perm {V : Type} (it : string * V) l :
  insert_sorted it l ≡ₚ it :: l.
Proof.
  induction l as [|x l IH]; [done|]. simpl.
  destruct (String.leb (fst it) (fst x)); [done|].
  rewrite IH. apply Permutation_swap.
Qed.

Lemma sorted_items_perm {V : Type} (m : gmap string V) :
  sorted_items m ≡ₚ map_to_list m.
Proof.
  unfold sorted_items.
  induction (map_to_list m) as [|x l IH]; [done|]. simpl.
  by rewrite insert_sorted_perm, IH.
Qed.

Lemma elem_of_sorted_items {V : Type} (m : gmap string V) n v :
  (n, v) ∈ sorted_items m <-> m !! n = Some v.
Proof. by rewrite sorted_items_perm, elem_of_map_to_list. Qed.

Lemma try_remove_lookup (d : gmap string inode) p q :
  is_Some (fst (try_remove_executable_bits P d p) !! q)
  <-> is_Some (d !! q).
Proof.
  unfold try_remove_executable_bits.
  destruct (d !! p) as [ino|] eqn:E; [|done].
  destruct (negb (S_ISREG (st_mode ino))); [done|].
  destruct (negb (_ =? _)); [|done].
  destruct (chmod_denied P p); [done|]. cbn [fst].
  destruct (decide (p = q)) as [<-|Hne].
  - rewrite lookup_insert_eq, E. split; eauto.
  - by rewrite lookup_insert_ne.
Qed.


Lemma try_remove_lookup_ne (d : gmap string inode) p q :
  p <> q -> fst (try_remove_executable_bits P d p) !! q = d !! q.
Proof.
  intros Hne. unfold try_remove_executable_bits.
  destruct (d !! p) as [ino|]; [|done].
  destruct (negb (S_ISREG (st_mode ino))); [done|].
  destruct (negb (_ =? _)); [|done].
  destruct (chmod_denied P p); [done|]. cbn [fst].
  by rewrite lookup_insert_ne.
Qed.

Lemma try_remove_lookup_eq (d : gmap string inode) p ino :
  d !! p = Some ino ->
  fst (try_remove_executable_bits P d p) !! p = Some ino
  \/ fst (try_remove_executable_bits P d p) !! p
     = Some (with_mode ino (clear_exec (st_mode ino))).
Proof.
  intros Hp. unfold try_remove_executable_bits. rewrite Hp.
  destruct (negb (S_ISREG (st_mode ino))); [by left|].
  destruct (negb (_ =? _)); [|by left].
  destruct (chmod_denied P p); [by left|]. cbn [fst].
  right. apply lookup_insert_eq.
Qed.

(** [try_remove_executable_bits] changes no answer of [os.path.exists]. *)
Lemma try_remove_exists (d : gmap string inode) p q :
  path_exists (fst (try_remove_executable_bits P d p)) q = path_exists d q.
Proof.
  unfold try_remove_executable_bits.
  destruct (d !! p) as [ino|] eqn:E; [|done].
  destruct (S_ISREG (st_mode ino)) eqn:Hreg; [|done]. cbn [negb].
  destruct (negb (_ =? _)); [|done].
  destruct (chmod_denied P p); [done|]. cbn [fst].
  unfold path_exists. destruct (decide (p = q)) as [<-|Hne].
  - rewrite lookup_insert_eq, E. cbn [with_mode st_mode].
    rewrite !S_ISREG_not_link; by rewrite ?S_ISREG_clear_exec.
  - by rewrite lookup_insert_ne.
Qed.

Lemma rename_step_invariant rs n old src :
  path_exists fs n = false ->
  rename_invariant fs rs ->
  rename_invariant fs (rename_step P rs (n, (old, src))).
Proof.
  intros Hn [Hkept Hcalls]. unfold rename_step, os_rename.
  destruct (disk rs !! old) as [ino|] eqn:Hold;
    [destruct (rename_denied P old n)|]; try by split.
  destruct (try_remove_executable_bits P _ n) as [fs'' adjusted] eqn:Htry.
  split; cbn [disk successfully_renamed_original_paths chmod_calls].
  - intros p Hp Hnot.
    assert (p <> old /\ p ∉ successfully_renamed_original_paths rs)
      as [Hne Hnot'].
    { split; [intros ->|intros ?]; apply Hnot, elem_of_union;
        [left; by apply elem_of_singleton|by right]. }
    replace fs'' with (fst (try_remove_executable_bits P
                              (<[n:=ino]> (delete old (disk rs))) n))
      by (by rewrite Htry).
    assert (n <> p) as Hnp by (intros ->; by rewrite Hn in Hp).
    rewrite try_remove_lookup_ne by done.
    rewrite lookup_insert_ne, lookup_delete_ne by done. by apply Hkept.
  - intros p [Hin| ->%list_elem_of_singleton]%elem_of_app; [|done].
    by apply Hcalls.
Qed.

Lemma rename_step_mono rs item :
  not_renamed rs ⊆ not_renamed (rename_step P rs item)
  /\ successfully_renamed_original_paths rs
     ⊆ successfully_renamed_original_paths (rename_step P rs item)
  /\ (fst (snd item)
        ∈ successfully_renamed_original_paths (rename_step P rs item)
      \/ fst (snd item) ∈ not_renamed (rename_step P rs item)).
Proof.
  destruct item as [n [old src]]. unfold rename_step. cbn [fst snd].
  destruct (os_rename P (disk rs) old n) as [fs'|].
  - destruct (try_remove_executable_bits P fs' n) as [fs'' adjusted].
    cbn [not_renamed successfully_renamed_original_paths].
    split; [done|]. split; [apply union_subseteq_r|].
    left. apply elem_of_union. left. by apply elem_of_singleton.
  - cbn [not_renamed successfully_renamed_original_paths].
    split; [apply union_subseteq_r|]. split; [done|].
    right. apply elem_of_union. left. by apply elem_of_singleton.
Qed.

Lemma rename_phase_facts plan rs :
  (forall item, item ∈ plan -> path_exists fs (fst item) = false) ->
  rename_invariant fs rs ->
  rename_invariant fs (rename_phase P rs plan)
  /\ not_renamed rs ⊆ not_renamed (rename_phase P rs plan)
  /\ successfully_renamed_original_paths rs
     ⊆ successfully_renamed_original_paths (rename_phase P rs plan)
  /\ (forall item, item ∈ plan ->
        fst (snd item)
          ∈ successfully_renamed_original_paths (rename_phase P rs plan)
        \/ fst (snd item) ∈ not_renamed (rename_phase P rs plan)).
Proof.
  revert rs; induction plan as [|item plan IH]; intros rs Hplan Hinv.
  - split; [done|]. split; [done|]. split; [done|].
    by intros item ?%elem_of_nil.
  - cbn [rename_phase fold_left]. fold (rename_phase P).
    change (fold_left (rename_step P) plan (rename_step P rs item))
      with (rename_phase P (rename_step P rs item) plan).
    destruct (rename_step_mono rs item) as (Hn & Hs & Hitem).
    destruct (IH (rename_step P rs item)) as (Hinv' & Hn' & Hs' & Hall).
    { intros it Hit. apply Hplan. by apply elem_of_cons; right. }
    { destruct item as [n [old src]]. apply rename_step_invariant; [|done].
      apply (Hplan (n, (old, src))). by apply elem_of_cons; left. }
    split; [done|]. split; [by etrans|]. split; [by etrans|].
    intros it [->|Hit]%elem_of_cons; [|by apply Hall].
    destruct Hitem as [H|H]; [left; by apply Hs'|right; by apply Hn'].
Qed.

Lemma chmod_step_facts rs p :
  (forall q, is_Some (disk (chmod_step P rs p) !! q)
             <-> is_Some (disk rs !! q))
  /\ chmod_calls (chmod_step P rs p)
     = (chmod_calls rs ++ if path_exists (disk rs) p then [p] else [])%list
  /\ successfully_renamed_original_paths (chmod_step P rs p)
     = successfully_renamed_original_paths rs
  /\ not_renamed (chmod_step P rs p) = not_renamed rs.
Proof.
  unfold chmod_step.
  destruct (path_exists (disk rs) p); [|by rewrite app_nil_r].
  pose proof (try_remove_lookup (disk rs) p) as Hl.
  destruct (try_remove_executable_bits P (disk rs) p) as [fs' adjusted].
  done.
Qed.

Lemma chmod_step_exists rs p q :
  path_exists (disk (chmod_step P rs p)) q = path_exists (disk rs) q.
Proof.
  unfold chmod_step.
  destruct (path_exists (disk rs) p); [|done].
  pose proof (try_remove_exists (disk rs) p q) as Hl.
  by destruct (try_remove_executable_bits P (disk rs) p) as [fs' adjusted].
Qed.

Lemma chmod_steps_exists paths rs q :
  path_exists (disk (fold_left (chmod_step P) paths rs)) q
  = path_exists (disk rs) q.
Proof.
  revert rs; induction paths as [|p paths IH]; intros rs; [done|].
  cbn [fold_left]. by rewrite IH, chmod_step_exists.
Qed.

Lemma chmod_steps_facts paths rs :
  let rs' := fold_left (chmod_step P) paths rs in
  (forall q, is_Some (disk rs' !! q) <-> is_Some (disk rs !! q))
  /\ chmod_calls rs'
     = (chmod_calls rs ++ List.filter (path_exists (disk rs)) paths)%list
  /\ successfully_renamed_original_paths rs'
     = successfully_renamed_original_paths rs
  /\ not_renamed rs' = not_renamed rs.
Proof.
  revert rs; induction paths as [|p paths IH]; intros rs; cbn zeta.
  - by rewrite app_nil_r.
  - cbn [fold_left List.filter].
    destruct (chmod_step_facts rs p) as (Hd & Hc & Hs & Hn).
    destruct (IH (chmod_step P rs p)) as (Hd' & Hc' & Hs' & Hn').
    cbn zeta in *.
    split; [intros q; by rewrite Hd', Hd|].
    split; [|split; congruence].
    rewrite Hc', Hc, <- app_assoc. f_equal.
    assert (List.filter (path_exists (disk (chmod_step P rs p))) paths
            = List.filter (path_exists (disk rs)) paths) as ->.
    { apply filter_ext. intros q. apply chmod_step_exists. }
    by destruct (path_exists (disk rs) p).
Qed.

Lemma count_occ_filter_once (f : string -> bool) l x :
  NoDup l -> x ∈ l -> f x = true ->
  count_occ string_dec (List.filter f l) x = 1%nat.
Proof.
  intros Hnd Hin Hf.
  apply NoDup_ListNoDup in Hnd.
  pose proof (List.NoDup_filter f Hnd) as Hnd'.
  apply (proj1 (NoDup_count_occ' string_dec _) Hnd').
  apply filter_In. split; [by apply list_elem_of_In|done].
Qed.

Lemma count_occ_absent l (x : string) :
  x ∉ l -> count_occ string_dec l x = 0%nat.
Proof. rewrite list_elem_of_In. apply count_occ_not_In. Qed.

End RunFacts.

Section PermissionPass.

Variable P : platform.
Variable args : arguments.
Variable fs : gmap string inode.

Lemma eligible_on_disk f :
  eligible fs f = true -> is_Some (fs !! f).
Proof.
  unfold eligible, path_isfile. destruct (fs !! f); [eauto|done].
Qed.

Lemma eligible_exists f :
  eligible fs f = true -> path_exists fs f = true.
Proof.
  unfold eligible, path_isfile. destruct (fs !! f) as [ino|] eqn:E; [|done].
  intros [Hreg _]%andb_true_iff. by apply (regular_exists fs f ino).
Qed.

(** The state in which the permission pass starts. *)
Lemma rename_phase_of_scan listing :
  let st := scan P args fs listing in
  let rs := rename_phase P (start_run fs st) (sorted_items (seen st)) in
  rename_invariant fs rs
  /\ eligible_files_not_renamed_paths st ⊆ not_renamed rs
  /\ (forall n old src, seen st !! n = Some (old, src) ->
        old ∈ successfully_renamed_original_paths rs \/ old ∈ not_renamed rs).
Proof.
  intros st rs.
  destruct (rename_phase_facts P fs (sorted_items (seen st))
              (start_run fs st)) as (Hinv & Hn & _ & Hall).
  - intros [n v] Hin%elem_of_sorted_items.
    by destruct (inv_fresh _ _ _ _ (scan_has_invariant P args fs listing)
                   n v Hin).
  - split; [done|]. by intros p ?%elem_of_nil.
  - split; [done|]. split; [done|].
    intros n old src Hin%elem_of_sorted_items. apply (Hall _ Hin).
Qed.

Lemma listed_unrenamed_in_pass listing f :
  f ∈ listing -> eligible fs f = true ->
  let st := scan P args fs listing in
  let rs := rename_phase P (start_run fs st) (sorted_items (seen st)) in
  f ∉ successfully_renamed_original_paths rs ->
  f ∈ final_paths_to_chmod_original rs.
Proof.
  intros Hin Hel st rs Hnot.
  destruct (rename_phase_of_scan listing) as (_ & Hsub & Hplan).
  fold st in Hsub, Hplan. fold rs in Hsub, Hplan.
  pose proof (scan_has_invariant P args fs listing) as Hinv. fold st in Hinv.
  assert (exists o, (f, o) ∈ history st) as [o Ho].
  { pose proof (scan_from_history P args fs initial_scan_state listing) as Hh.
    fold (scan P args fs listing) in Hh. fold st in Hh.
    assert (f ∈ map fst (history st)) as Hm
      by (rewrite Hh; apply elem_of_app; by right).
    apply list_elem_of_fmap in Hm as [[p o] [-> Hpo]]. by exists o. }
  pose proof (inv_eligible _ _ _ _ Hinv f o Ho) as Helig.
  rewrite Hel in Helig.
  pose proof (inv_history _ _ _ _ Hinv f o Ho) as Hhist.
  unfold final_paths_to_chmod_original. apply elem_of_difference.
  split; [|done].
  destruct o; try done; try (by apply Hsub).
  destruct (Hplan _ _ _ Hhist); done.
Qed.

(** The permission pass leaves an entry as it was or with its execute
    bits cleared. *)
Lemma chmod_steps_lookup paths rs f ino :
  disk rs !! f = Some ino
  \/ disk rs !! f = Some (with_mode ino (clear_exec (st_mode ino))) ->
  disk (fold_left (chmod_step P) paths rs) !! f = Some ino
  \/ disk (fold_left (chmod_step P) paths rs) !! f
     = Some (with_mode ino (clear_exec (st_mode ino))).
Proof.
  revert rs; induction paths as [|p paths IH]; intros rs Hf; [done|].
  cbn [fold_left]. apply IH. unfold chmod_step.
  destruct (path_exists (disk rs) p); [|done].
  destruct (decide (p = f)) as [->|Hne].
  - destruct Hf as [Hf|Hf].
    + pose proof (try_remove_lookup_eq P (disk rs) f ino Hf) as Hl.
      by destruct (try_remove_executable_bits P (disk rs) f).
    + pose proof (try_remove_lookup_eq P (disk rs) f _ Hf) as Hl.
      rewrite with_mode_clear_twice in Hl.
      destruct (try_remove_executable_bits P (disk rs) f).
      right. by destruct Hl.
  - pose proof (try_remove_lookup_ne P (disk rs) p f Hne) as Hl.
    destruct (try_remove_executable_bits P (disk rs) p).
    cbn [disk fst] in *. by rewrite Hl.
Qed.

(** X1. An entry of the listing that passes the two tests at the head of
    the scan loop and is not among the successfully renamed originals at
    the end of the run, whatever the stage at which it was skipped and
    also when its rename was refused, is still in the directory when the
    permission pass runs and is handed to [try_remove_executable_bits]
    once in the whole run, neither never nor twice. *)
Theorem unrenamed_eligible_file_normalised_once
    (listing : list string) (f : string) :
  f ∈ listing ->
  eligible fs f = true ->
  f ∉ successfully_renamed_original_paths (snd (main P args fs listing)) ->
  times_normalised (snd (main P args fs listing)) f = 1%nat
  /\ path_exists (disk (snd (main P args fs listing))) f = true.
Proof.
  intros Hin Hel. unfold main, chmod_phase, times_normalised. cbn [snd].
  set (st := scan P args fs listing).
  set (rs := rename_phase P (start_run fs st) (sorted_items (seen st))).
  destruct (chmod_steps_facts P (elements (final_paths_to_chmod_original rs))
              rs) as (Hdisk & Hcalls & Hsucc & _).
  cbn zeta in *. rewrite Hsucc, Hcalls. intros Hnot.
  destruct (rename_phase_of_scan listing) as ([Hkept Hnew] & _ & _).
  fold st in Hkept, Hnew. fold rs in Hkept, Hnew.
  pose proof (eligible_exists f Hel) as Hf.
  assert (path_exists (disk rs) f = true) as Hex.
  { unfold path_exists. rewrite Hkept by done. exact Hf. }
  split.
  - rewrite count_occ_app, count_occ_absent.
    + apply count_occ_filter_once; [apply NoDup_elements| |done].
      apply elem_of_elements. by apply listed_unrenamed_in_pass.
    + intros Hc. apply Hnew in Hc. by rewrite Hc in Hf.
  - by rewrite chmod_steps_exists.
Qed.

End PermissionPass.

(** The file of a one-file directory, skipped as correctly stamped, and
    the file whose rename is refused. *)
Lemma normalised_once_examples :
  times_normalised
    (snd (main plain_platform no_flags
            (single_file "2023.05.06.07.08.09_a.jpg" 0x1ED
               "2023.05.06.07.08.09")
            ["2023.05.06.07.08.09_a.jpg"]))
    "2023.05.06.07.08.09_a.jpg" = 1%nat
  /\ times_normalised
       (snd (main read_only_platform no_flags
               (single_file "a.jpg" 0x1ED "2023.05.06.07.08.09") ["a.jpg"]))
       "a.jpg" = 1%nat.
Proof.
  split.
  - apply (unrenamed_eligible_file_normalised_once plain_platform no_flags
             (single_file "2023.05.06.07.08.09_a.jpg" 0x1ED
                "2023.05.06.07.08.09")
             ["2023.05.06.07.08.09_a.jpg"] "2023.05.06.07.08.09_a.jpg").
    + apply list_elem_of_singleton. reflexivity.
    + vm_compute. reflexivity.
    + apply (bool_decide_unpack _). vm_compute. exact I.
  - apply (unrenamed_eligible_file_normalised_once read_only_platform no_flags
             (single_file "a.jpg" 0x1ED "2023.05.06.07.08.09")
             ["a.jpg"] "a.jpg").
    + apply list_elem_of_singleton. reflexivity.
    + vm_compute. reflexivity.
    + apply (bool_decide_unpack _). vm_compute. exact I.
Defined.

Section CtimeFailure.

Variable P : platform.
Variable args : arguments.
Variable fs : gmap string inode.

Lemma scan_step_seen st1 st2 path :
  seen st1 = seen st2 ->
  seen (scan_step P args fs st1 path) = seen (scan_step P args fs st2 path).
Proof.
  intros Hs. unfold scan_step. rewrite Hs.
  destruct (process_file P args fs (seen st2) path);
    cbn [seen record_outcome]; by rewrite ?Hs.
Qed.

(** The plan depends on the scan state through the plan alone. *)
Lemma scan_from_seen st1 st2 listing :
  seen st1 = seen st2 ->
  seen (scan_from P args fs st1 listing)
  = seen (scan_from P args fs st2 listing).
Proof.
  revert st1 st2; induction listing as [|path listing IH];
    intros st1 st2 Hs; [done|].
  cbn [scan_from fold_left]. apply IH. by apply scan_step_seen.
Qed.

Lemma rename_phase_sources plan rs p :
  p ∈ successfully_renamed_original_paths (rename_phase P rs plan) ->
  p ∈ successfully_renamed_original_paths rs
  \/ exists item, item ∈ plan /\ fst (snd item) = p.
Proof.
  revert rs; induction plan as [|item plan IH]; intros rs Hp; [by left|].
  cbn [rename_phase fold_left] in Hp.
  apply IH in Hp as [Hp|(it & Hit & Hsrc)].
  - destruct item as [n [old src]]. unfold rename_step in Hp.
    destruct (os_rename P (disk rs) old n) as [fs'|]; [|by left].
    destruct (try_remove_executable_bits P fs' n).
    cbn [successfully_renamed_original_paths] in Hp.
    apply elem_of_union in Hp as [->%elem_of_singleton|Hp]; [|by left].
    right. exists (n, (old, src)). split; [|done]. by apply elem_of_cons; left.
  - right. exists it. split; [|done]. by apply elem_of_cons; right.
Qed.

(** X2.  A regular file with a media extension for which no date can be
    had because reading the ctime fails is classified as an error on
    every turn of the scan that meets it; it is no source of the plan,
    and the plan is the one the scan builds without it, so that the run
    goes on with the other entries; it is recorded among the files that
    were not renamed, is not renamed by the run, and is found under its
    own name at the end of it, either as it was or with its execute bits
    cleared by the permission pass and nothing else changed. *)
Theorem ctime_failure_is_a_per_file_error
    (f : string) (ino : inode) :
  fs !! f = Some ino ->
  S_ISREG (st_mode ino) = true ->
  EXTENSIONS_search f = true ->
  resolve_date P args ino = None ->
  (forall plan, process_file P args fs plan f = ErrorCtime)
  /\ (forall before after,
        seen (scan P args fs (before ++ f :: after)%list)
        = seen (scan P args fs (before ++ after)%list)
        /\ f ∈ eligible_files_not_renamed_paths
                (scan P args fs (before ++ f :: after)%list))
  /\ (forall listing,
        (forall n old src,
            seen (scan P args fs listing) !! n = Some (old, src) -> old <> f)
        /\ (f ∉ successfully_renamed_original_paths
                  (snd (main P args fs listing)))
        /\ (disk (snd (main P args fs listing)) !! f = Some ino
            \/ disk (snd (main P args fs listing)) !! f
               = Some (with_mode ino (clear_exec (st_mode ino))))).
Proof.
  intros Hf Hreg Hext Hdate.
  assert (forall plan, process_file P args fs plan f = ErrorCtime) as Herr.
  { intros plan. unfold process_file. by rewrite Hf, Hreg, Hext, Hdate. }
  assert (forall listing n old src,
             seen (scan P args fs listing) !! n = Some (old, src) -> old <> f)
    as Hsource.
  { intros listing n old src Hn ->.
    pose proof (scan_has_invariant P args fs listing) as Hinv.
    destruct (inv_fresh _ _ _ _ Hinv n _ Hn) as [_ Hh]. cbn [fst snd] in Hh.
    destruct (inv_outcome _ _ _ _ Hinv _ _ Hh) as [s Hs].
    by rewrite Herr in Hs. }
  split; [done|]. split.
  - intros before after. split.
    + unfold scan. rewrite !scan_from_app. cbn [scan_from fold_left].
      apply scan_from_seen. unfold scan_step. rewrite Herr. done.
    + pose proof (scan_has_invariant P args fs (before ++ f :: after)%list)
        as Hinv.
      assert (exists o, (f, o) ∈ history
                          (scan P args fs (before ++ f :: after)%list))
        as [o Ho].
      { pose proof (scan_from_history P args fs initial_scan_state
                      (before ++ f :: after)%list) as Hh.
        fold (scan P args fs (before ++ f :: after)%list) in Hh.
        assert (f ∈ map fst (history
                               (scan P args fs (before ++ f :: after)%list)))
          as Hm.
        { rewrite Hh. apply elem_of_app. right. apply elem_of_app. right.
          by apply elem_of_cons; left. }
        apply list_elem_of_fmap in Hm as [[p o] [-> Hpo]]. by exists o. }
      destruct (inv_outcome _ _ _ _ Hinv _ _ Ho) as [s Hs].
      rewrite Herr in Hs. subst o.
      apply (inv_history _ _ _ _ Hinv _ _ Ho).
  - intros listing. split; [apply Hsource|].
    unfold main, chmod_phase. cbn [snd].
    set (st := scan P args fs listing).
    set (rs := rename_phase P (start_run fs st) (sorted_items (seen st))).
    destruct (chmod_steps_facts P
                (elements (final_paths_to_chmod_original rs)) rs)
      as (_ & _ & Hsucc & _).
    cbn zeta in Hsucc. rewrite Hsucc.
    assert (f ∉ successfully_renamed_original_paths rs) as Hnot.
    { intros [Hin|([n [old src]] & Hit & Hsrc)]%rename_phase_sources.
      - by apply elem_of_empty in Hin.
      - apply elem_of_sorted_items in Hit. cbn [fst snd] in Hsrc.
        by apply (Hsource listing n old src Hit). }
    split; [done|].
    apply chmod_steps_lookup. left.
    destruct (rename_phase_of_scan P args fs listing) as ([Hkept _] & _ & _).
    fold st in Hkept. fold rs in Hkept.
    rewrite Hkept; [done| |done]. by apply (regular_exists fs f ino).
Qed.

End CtimeFailure.

(** The theorem at the file a.jpg of the example directory, which keeps
    its name while b.jpg is renamed. *)
Lemma ctime_failure_example :
  process_file plain_platform no_flags directory_with_unreadable_ctime
    ∅ "a.jpg" = ErrorCtime
  /\ "a.jpg" ∉ successfully_renamed_original_paths
                 (snd (main plain_platform no_flags
                         directory_with_unreadable_ctime ["a.jpg"; "b.jpg"])).
Proof.
  pose proof (ctime_failure_is_a_per_file_error plain_platform no_flags
                directory_with_unreadable_ctime "a.jpg"
                (file_without_ctime 0x1ED)
                ltac:(vm_compute; reflexivity) ltac:(vm_compute; reflexivity)
                ltac:(vm_compute; reflexivity) ltac:(vm_compute; reflexivity))
    as (Herr & _ & Hrun).
  split; [apply Herr|]. apply (Hrun ["a.jpg"; "b.jpg"]).
Defined.

Section ExecutableBits.

Variable P : platform.

(** X3.  [try_remove_executable_bits] reports an adjustment exactly when
    the path is a regular file with at least one of the three execute
    bits set and [os.chmod] is not refused.  When it reports none the
    directory is as before.  When it reports one, the entry keeps its
    name and everything but its mode, the new mode is the old one without
    the three execute bits, so that the file is still a regular file, and
    no other entry is touched. *)
Theorem try_remove_executable_bits_effect
    (fs : gmap string inode) (filepath : string) :
  let r := try_remove_executable_bits P fs filepath in
  (snd r = true <->
     exists ino, fs !! filepath = Some ino
                 /\ S_ISREG (st_mode ino) = true
                 /\ Z.land (st_mode ino) EXEC_BITS <> 0
                 /\ chmod_denied P filepath = false)
  /\ (snd r = false -> fst r = fs)
  /\ (forall q, q <> filepath -> fst r !! q = fs !! q)
  /\ (forall ino, fs !! filepath = Some ino -> snd r = true ->
        exists ino', fst r !! filepath = Some ino'
          /\ ctime_stamp ino' = ctime_stamp ino
          /\ image ino' = image ino
          /\ st_mode ino' = Z.ldiff (st_mode ino) EXEC_BITS
          /\ Z.land (st_mode ino') EXEC_BITS = 0
          /\ S_ISREG (st_mode ino') = true).
Proof.
  cbv zeta. split; [|split; [|split]].
  - unfold try_remove_executable_bits.
    destruct (fs !! filepath) as [ino|] eqn:Hf.
    + destruct (S_ISREG (st_mode ino)) eqn:Hreg; cbn [negb].
      * destruct (clear_exec (st_mode ino) =? st_mode ino) eqn:Hm; cbn [negb].
        -- apply Z.eqb_eq, clear_exec_fixed in Hm. cbn [snd].
           split; [done|]. intros (ino' & [= <-] & _ & Hbits & _). done.
        -- apply Z.eqb_neq in Hm.
           destruct (chmod_denied P filepath) eqn:Hden; cbn [snd].
           ++ split; [done|]. by intros (ino' & _ & _ & _ & ?).
           ++ split; [|done]. intros _. exists ino.
              repeat split; try done. by rewrite <- clear_exec_fixed.
      * cbn [snd]. split; [done|]. intros (ino' & [= <-] & Hr & _).
        by rewrite Hreg in Hr.
    + cbn [snd]. split; [done|]. by intros (ino' & ? & _).
  - unfold try_remove_executable_bits.
    destruct (fs !! filepath) as [ino|]; [|done].
    destruct (negb (S_ISREG (st_mode ino))); [done|].
    destruct (negb (_ =? _)); [|done].
    by destruct (chmod_denied P filepath).
  - intros q Hq. by apply try_remove_lookup_ne.
  - intros ino Hf. unfold try_remove_executable_bits. rewrite Hf.
    destruct (S_ISREG (st_mode ino)) eqn:Hreg; cbn [negb]; [|done].
    destruct (negb (_ =? _)); [|done].
    destruct (chmod_denied P filepath); [done|]. cbn [fst snd]. intros _.
    exists (with_mode ino (clear_exec (st_mode ino))).
    rewrite lookup_insert_eq. cbn [with_mode st_mode ctime_stamp image].
    repeat split.
    + apply clear_exec_ldiff.
    + apply clear_exec_no_exec_bits.
    + by rewrite S_ISREG_clear_exec.
Qed.

(** X4.  A second call of [try_remove_executable_bits] on the same path
    finds nothing to do: it reports no adjustment and leaves the
    directory as the first call left it. *)
Theorem try_remove_executable_bits_twice
    (fs : gmap string inode) (filepath : string) :
  try_remove_executable_bits P
    (fst (try_remove_executable_bits P fs filepath)) filepath
  = (fst (try_remove_executable_bits P fs filepath), false).
Proof.
  unfold try_remove_executable_bits at 2 3.
  destruct (fs !! filepath) as [ino|] eqn:Hf; cbn [fst].
  - destruct (S_ISREG (st_mode ino)) eqn:Hreg; cbn [negb fst].
    + destruct (clear_exec (st_mode ino) =? st_mode ino) eqn:Hm;
        cbn [negb fst].
      * unfold try_remove_executable_bits. by rewrite Hf, Hreg, Hm.
      * destruct (chmod_denied P filepath) eqn:Hden; cbn [fst].
        -- unfold try_remove_executable_bits. by rewrite Hf, Hreg, Hm, Hden.
        -- unfold try_remove_executable_bits. rewrite lookup_insert_eq.
           cbn [with_mode st_mode].
           rewrite S_ISREG_clear_exec, Hreg, clear_exec_idem, Z.eqb_refl.
           done.
    + unfold try_remove_executable_bits. by rewrite Hf, Hreg.
  - unfold try_remove_executable_bits. by rewrite Hf.
Qed.

End ExecutableBits.

Section ScanCounters.

Variable P : platform.
Variable args : arguments.
Variable fs : gmap string inode.

Lemma scan_from_scanned st listing :
  scanned_files_count (scan_from P args fs st listing)
  = (scanned_files_count st + length listing)%nat.
Proof.
  revert st; induction listing as [|p listing IH]; intros st.
  - cbn [scan_from fold_left length]. lia.
  - cbn [scan_from fold_left length]. fold (scan_from P args fs).
    change (fold_left (scan_step P args fs) listing ?s)
      with (scan_from P args fs s listing).
    rewrite IH. cbn [scan_step record_outcome scanned_files_count]. lia.
Qed.

Lemma scan_from_eligible st listing :
  eligible_files_count (scan_from P args fs st listing)
  = (eligible_files_count st
     + length (List.filter (eligible fs) listing))%nat.
Proof.
  revert st; induction listing as [|p listing IH]; intros st.
  - cbn [scan_from fold_left List.filter length]. lia.
  - cbn [scan_from fold_left List.filter].
    change (fold_left (scan_step P args fs) listing ?s)
      with (scan_from P args fs s listing).
    rewrite IH. cbn [scan_step record_outcome eligible_files_count].
    rewrite process_file_eligible.
    destruct (eligible fs p); cbn [bump length]; lia.
Qed.

(** The sum the four skip counters and the plan make up. *)
Lemma scan_step_accounted st p :
  (size (seen st) + skipped_datestamped_no_force_count st
   + skipped_empty_after_strip_count st
   + skipped_contains_date_no_force_count st
   + skipped_no_change_count st <= eligible_files_count st)%nat ->
  let st' := scan_step P args fs st p in
  (size (seen st') + skipped_datestamped_no_force_count st'
   + skipped_empty_after_strip_count st'
   + skipped_contains_date_no_force_count st'
   + skipped_no_change_count st' <= eligible_files_count st')%nat.
Proof.
  intros H. cbv zeta. unfold scan_step.
  pose proof (process_file_planned P args fs (seen st) p) as Hplanned.
  destruct (process_file P args fs (seen st) p) as [| | | | | | | | | |n src];
    cbn [record_outcome seen eligible_files_count is_eligible bump
         skipped_datestamped_no_force_count skipped_empty_after_strip_count
         skipped_contains_date_no_force_count skipped_no_change_count];
    try lia.
  destruct (Hplanned n src eq_refl) as (Hfresh & _ & _).
  rewrite map_size_insert_None by done. lia.
Qed.

Lemma scan_from_accounted st listing :
  (size (seen st) + skipped_datestamped_no_force_count st
   + skipped_empty_after_strip_count st
   + skipped_contains_date_no_force_count st
   + skipped_no_change_count st <= eligible_files_count st)%nat ->
  let st' := scan_from P args fs st listing in
  (size (seen st') + skipped_datestamped_no_force_count st'
   + skipped_empty_after_strip_count st'
   + skipped_contains_date_no_force_count st'
   + skipped_no_change_count st' <= eligible_files_count st')%nat.
Proof.
  revert st; induction listing as [|p listing IH]; intros st H; [done|].
  cbn [scan_from fold_left]. apply IH. by apply scan_step_accounted.
Qed.

(** X5.  The two totals of the summary count what they say: the number of
    entries scanned is the length of the listing, and the number of
    eligible files is the number of entries that are regular files with
    a media extension.  The files put into the plan and the files counted
    by the four skip counters are among the eligible ones, each counted
    once. *)
Theorem scan_totals (listing : list string) :
  let st := scan P args fs listing in
  scanned_files_count st = length listing
  /\ eligible_files_count st = length (List.filter (eligible fs) listing)
  /\ (size (seen st) + skipped_datestamped_no_force_count st
      + skipped_empty_after_strip_count st
      + skipped_contains_date_no_force_count st
      + skipped_no_change_count st <= eligible_files_count st)%nat
  /\ (eligible_files_count st <= scanned_files_count st)%nat.
Proof.
  cbv zeta. unfold scan.
  rewrite scan_from_scanned, scan_from_eligible.
  cbn [initial_scan_state scanned_files_count eligible_files_count].
  split; [lia|]. split; [lia|]. split.
  - pose proof (scan_from_accounted initial_scan_state listing) as H.
    cbv zeta in H. rewrite scan_from_eligible in H.
    cbn [initial_scan_state eligible_files_count] in H. apply H.
    cbn. rewrite map_size_empty. lia.
  - pose proof (List.filter_length_le (eligible fs) listing). lia.
Qed.

Lemma scan_step_not_renamed st p :
  eligible_files_not_renamed_paths (scan_step P args fs st p)
  ⊆ {[p]} ∪ eligible_files_not_renamed_paths st.
Proof.
  unfold scan_step. cbn [record_outcome eligible_files_not_renamed_paths].
  destruct (process_file P args fs (seen st) p); try done;
    apply union_subseteq_r.
Qed.

Lemma scan_step_partition st p :
  p ∉ eligible_files_not_renamed_paths st ->
  eligible_files_count st
  = (size (seen st) + size (eligible_files_not_renamed_paths st))%nat ->
  let st' := scan_step P args fs st p in
  eligible_files_count st'
  = (size (seen st') + size (eligible_files_not_renamed_paths st'))%nat.
Proof.
  intros Hp H. cbv zeta. unfold scan_step.
  pose proof (process_file_planned P args fs (seen st) p) as Hplanned.
  assert (size ({[p]} ∪ eligible_files_not_renamed_paths st)
          = S (size (eligible_files_not_renamed_paths st))) as Hsize.
  { rewrite size_union by (by apply disjoint_singleton_l).
    by rewrite size_singleton. }
  destruct (process_file P args fs (seen st) p) as [| | | | | | | | | |n src];
    cbn [record_outcome seen eligible_files_count is_eligible bump
         eligible_files_not_renamed_paths];
    rewrite ?Hsize; try lia.
  destruct (Hplanned n src eq_refl) as (Hfresh & _ & _).
  rewrite map_size_insert_None by done. lia.
Qed.

Lemma scan_from_partition st listing :
  NoDup listing ->
  (forall p, p ∈ listing -> p ∉ eligible_files_not_renamed_paths st) ->
  eligible_files_count st
  = (size (seen st) + size (eligible_files_not_renamed_paths st))%nat ->
  let st' := scan_from P args fs st listing in
  eligible_files_count st'
  = (size (seen st') + size (eligible_files_not_renamed_paths st'))%nat.
Proof.
  revert st; induction listing as [|p listing IH]; intros st Hnd Hnew H;
    [done|].
  apply NoDup_cons in Hnd as [Hp Hnd].
  cbn [scan_from fold_left]. apply IH; [done| |].
  - intros q Hq Hin. apply scan_step_not_renamed in Hin.
    apply elem_of_union in Hin as [->%elem_of_singleton|Hin]; [done|].
    apply (Hnew q); [|done]. by apply elem_of_cons; right.
  - apply scan_step_partition; [|done]. apply Hnew. by apply elem_of_cons; left.
Qed.

(** X6.  When no entry is listed twice, every eligible file is accounted
    for at the end of the scan: it is either the source of one entry of
    the plan or one of the paths recorded as not renamed, so that the
    eligible total is the size of the plan plus the number of recorded
    paths. *)
Theorem eligible_files_planned_or_recorded (listing : list string) :
  NoDup listing ->
  eligible_files_count (scan P args fs listing)
  = (size (seen (scan P args fs listing))
     + size (eligible_files_not_renamed_paths (scan P args fs listing)))%nat.
Proof.
  intros Hnd. apply (scan_from_partition initial_scan_state listing Hnd).
  - intros p _. cbn. apply not_elem_of_empty.
  - cbn. by rewrite map_size_empty, size_empty.
Qed.

End ScanCounters.

(** The three files of the example directory are all planned. *)
Lemma eligible_files_accounted_example :
  eligible_files_count
    (scan plain_platform no_flags same_candidate_directory
       ["a.jpg"; "A.JPG"; "(a).jpeg"]) = 3%nat
  /\ size (seen (scan plain_platform no_flags same_candidate_directory
                   ["a.jpg"; "A.JPG"; "(a).jpeg"])) = 3%nat.
Proof.
  pose proof (eligible_files_planned_or_recorded plain_platform no_flags
                same_candidate_directory ["a.jpg"; "A.JPG"; "(a).jpeg"]
                ltac:(apply (bool_decide_unpack _); vm_compute; exact I))
    as H.
  split; [by vm_compute|].
  assert (eligible_files_not_renamed_paths
            (scan plain_platform no_flags same_candidate_directory
               ["a.jpg"; "A.JPG"; "(a).jpeg"]) = ∅) as Hempty
    by (by vm_compute).
  rewrite Hempty, size_empty, Nat.add_0_r in H. rewrite <- H.
  by vm_compute.
Defined.

Section WholeRun.

Variable P : platform.
Variable args : arguments.
Variable fs : gmap string inode.

Lemma rename_phase_not_renamed plan rs p :
  p ∈ not_renamed (rename_phase P rs plan) ->
  p ∈ not_renamed rs \/ exists item, item ∈ plan /\ fst (snd item) = p.
Proof.
  revert rs; induction plan as [|item plan IH]; intros rs Hp; [by left|].
  cbn [rename_phase fold_left] in Hp.
  apply IH in Hp as [Hp|(it & Hit & Hsrc)].
  - destruct item as [n [old src]]. unfold rename_step in Hp.
    destruct (os_rename P (disk rs) old n) as [fs'|].
    + destruct (try_remove_executable_bits P fs' n). by left.
    + cbn [not_renamed] in Hp.
      apply elem_of_union in Hp as [->%elem_of_singleton|Hp]; [|by left].
      right. exists (n, (old, src)). split; [|done].
      by apply elem_of_cons; left.
  - right. exists it. split; [|done]. by apply elem_of_cons; right.
Qed.

Lemma chmod_steps_lookup_notin paths rs p :
  p ∉ paths ->
  disk (fold_left (chmod_step P) paths rs) !! p = disk rs !! p.
Proof.
  revert rs; induction paths as [|q paths IH]; intros rs Hp; [done|].
  apply not_elem_of_cons in Hp as [Hne Hp].
  cbn [fold_left]. rewrite IH by done. unfold chmod_step.
  destruct (path_exists (disk rs) q); [|done].
  pose proof (try_remove_lookup_ne P (disk rs) q p ltac:(done)) as Hl.
  by destruct (try_remove_executable_bits P (disk rs) q).
Qed.

Lemma scan_from_not_renamed_eligible st listing :
  (forall p, p ∈ eligible_files_not_renamed_paths st ->
             eligible fs p = true) ->
  forall p, p ∈ eligible_files_not_renamed_paths
                  (scan_from P args fs st listing) ->
            eligible fs p = true.
Proof.
  revert st; induction listing as [|q listing IH]; intros st H; [done|].
  cbn [scan_from fold_left]. apply IH. intros p. unfold scan_step.
  pose proof (process_file_eligible P args fs (seen st) q) as Hq.
  destruct (process_file P args fs (seen st) q);
    cbn [record_outcome eligible_files_not_renamed_paths]; try apply H;
    (intros [->%elem_of_singleton|Hp]%elem_of_union; [by rewrite <- Hq|]);
    by apply H.
Qed.

(** The paths the scan records and the sources of its plan are eligible,
    and [os.path.exists] finds none of the targets. *)
Lemma not_renamed_eligible listing p :
  p ∈ eligible_files_not_renamed_paths (scan P args fs listing) ->
  eligible fs p = true.
Proof.
  apply scan_from_not_renamed_eligible. by intros q ?%elem_of_empty.
Qed.

Lemma plan_entry_facts listing n old src :
  seen (scan P args fs listing) !! n = Some (old, src) ->
  path_exists fs n = false /\ eligible fs old = true.
Proof.
  intros Hn. pose proof (scan_has_invariant P args fs listing) as Hinv.
  destruct (inv_fresh _ _ _ _ Hinv n _ Hn) as [Hfree Hh].
  split; [done|]. cbn [fst snd] in Hh.
  by rewrite <- (inv_eligible _ _ _ _ Hinv _ _ Hh).
Qed.

(** The renames leave alone a name that is neither a target nor a source
    of the plan. *)
Lemma rename_phase_lookup_other plan rs p :
  (forall item, item ∈ plan -> fst item <> p /\ fst (snd item) <> p) ->
  disk (rename_phase P rs plan) !! p = disk rs !! p.
Proof.
  revert rs; induction plan as [|[n [old src]] plan IH]; intros rs Hplan;
    [done|].
  cbn [rename_phase fold_left].
  change (fold_left (rename_step P) plan ?s) with (rename_phase P s plan).
  rewrite IH by (intros it Hit; apply Hplan; by apply elem_of_cons; right).
  destruct (Hplan (n, (old, src))) as [Hn Hold];
    [by apply elem_of_cons; left|]. cbn [fst snd] in Hn, Hold.
  unfold rename_step, os_rename.
  destruct (disk rs !! old) as [ino0|];
    [destruct (rename_denied P old n)|]; try done.
  pose proof (try_remove_lookup_ne P (<[n:=ino0]> (delete old (disk rs)))
                n p Hn) as Hne.
  destruct (try_remove_executable_bits P _ n) as [fs'' adjusted].
  cbn [fst disk] in *.
  by rewrite Hne, lookup_insert_ne, lookup_delete_ne.
Qed.

(** X7.  The run touches eligible files only, but for the names it
    assigns: an entry of the directory that is not a regular file with a
    media extension, such as a directory, a file of another kind or a
    symbolic link without a target, is found at the end of the run under
    its name and as it was, whatever the listing and whatever the
    platform refuses, provided that [os.path.exists] finds it or that
    its name is no key of the plan.  The entry that is left out is the
    symbolic link without a target whose name the scan has assigned to a
    file: [os.path.exists] does not find it, and [os.rename] replaces
    it. *)
Theorem ineligible_entries_untouched
    (listing : list string) (p : string) (ino : inode) :
  fs !! p = Some ino ->
  eligible fs p = false ->
  path_exists fs p = true \/ seen (scan P args fs listing) !! p = None ->
  disk (snd (main P args fs listing)) !! p = Some ino.
Proof.
  intros Hp Hel Hkey. unfold main, chmod_phase. cbn [snd].
  set (st := scan P args fs listing).
  set (rs := rename_phase P (start_run fs st) (sorted_items (seen st))).
  assert (forall item, item ∈ sorted_items (seen st) ->
                       fst item <> p /\ fst (snd item) <> p) as Hsrc.
  { intros [n [old src]] Hit%elem_of_sorted_items. cbn [fst snd].
    destruct (plan_entry_facts listing n old src Hit) as [Hfree He].
    split; intros ->.
    - destruct Hkey as [Hex|Hnone].
      + by rewrite Hex in Hfree.
      + fold st in Hnone. by rewrite Hnone in Hit.
    - by rewrite He in Hel. }
  rewrite chmod_steps_lookup_notin.
  - unfold rs. by rewrite rename_phase_lookup_other.
  - rewrite elem_of_elements. unfold final_paths_to_chmod_original.
    intros [Hin _]%elem_of_difference.
    apply rename_phase_not_renamed in Hin as [Hin|(it & Hit & Heq)].
    + apply not_renamed_eligible in Hin. by rewrite Hin in Hel.
    + by destruct (Hsrc it Hit).
Qed.

End WholeRun.

(** A directory and an executable text file beside a picture: they are
    as they were after the run that renames the picture.  So is a
    symbolic link without a target whose name the plan does not
    assign. *)
Lemma ineligible_entries_example :
  disk (snd (main plain_platform no_flags mixed_directory
               ["album"; "b.jpg"; "notes.txt"])) !! "notes.txt"
  = Some (regular_file 0x1ED "2023.05.06.07.08.09")
  /\ disk (snd (main plain_platform no_flags mixed_directory
                  ["album"; "b.jpg"; "notes.txt"])) !! "album"
     = Some (directory_entry 0x1ED)
  /\ disk (snd (main plain_platform no_flags directory_with_dangling_link
                  ["2023.05.06.07.08.09_a.jpg"; "A.JPG"; "a.jpg";
                   "lost.jpg"])) !! "lost.jpg"
     = Some dangling_link.
Proof.
  split; [|split].
  - apply (ineligible_entries_untouched plain_platform no_flags
             mixed_directory ["album"; "b.jpg"; "notes.txt"] "notes.txt").
    + vm_compute. reflexivity.
    + vm_compute. reflexivity.
    + left. vm_compute. reflexivity.
  - apply (ineligible_entries_untouched plain_platform no_flags
             mixed_directory ["album"; "b.jpg"; "notes.txt"] "album").
    + vm_compute. reflexivity.
    + vm_compute. reflexivity.
    + left. vm_compute. reflexivity.
  - apply (ineligible_entries_untouched plain_platform no_flags
             directory_with_dangling_link
             ["2023.05.06.07.08.09_a.jpg"; "A.JPG"; "a.jpg"; "lost.jpg"]
             "lost.jpg").
    + vm_compute. reflexivity.
    + vm_compute. reflexivity.
    + right. vm_compute. reflexivity.
Defined.

Section RenamePhase.

Variable P : platform.
Variable fs : gmap string inode.
(** The whole plan: [os.path.exists] finds its sources and none of its
    targets. *)
Variable whole : list (string * (string * date_source)).
Hypothesis whole_targets :
  forall q p src, (q, (p, src)) ∈ whole -> path_exists fs q = false.
Hypothesis whole_sources :
  forall q p src, (q, (p, src)) ∈ whole -> path_exists fs p = true.

Lemma with_mode_same ino : with_mode ino (st_mode ino) = ino.
Proof. by destruct ino. Qed.

Lemma try_remove_lookup_exact (d : gmap string inode) q ino :
  d !! q = Some ino ->
  fst (try_remove_executable_bits P d q) !! q = Some (normalised P q ino).
Proof.
  intros Hq. unfold try_remove_executable_bits, normalised. rewrite Hq.
  destruct (S_ISREG (st_mode ino)); cbn [negb andb]; [|done].
  destruct (clear_exec (st_mode ino) =? st_mode ino) eqn:Hm; cbn [negb].
  - apply Z.eqb_eq in Hm. rewrite Hm, with_mode_same.
    by destruct (chmod_denied P q).
  - destruct (chmod_denied P q); cbn [negb fst]; [done|].
    apply lookup_insert_eq.
Qed.

Lemma rename_step_kept item rest rs p ino :
  NoDup (map fst (item :: rest)) ->
  item ∈ whole ->
  path_exists fs p = true ->
  file_kept P whole (item :: rest) rs p ino ->
  file_kept P whole rest (rename_step P rs item) p ino.
Proof.
  destruct item as [n [old src]]. cbn [map fst].
  intros [Hn _]%NoDup_cons Hw Hp Hkept.
  pose proof (whole_targets _ _ _ Hw) as Hfree.
  pose proof (whole_sources _ _ _ Hw) as Hold.
  pose proof (exists_differs fs p n Hp Hfree) as Hpn.
  pose proof (exists_differs fs old n Hold Hfree) as Hon.
  unfold rename_step, os_rename.
  destruct (disk rs !! old) as [ino0|] eqn:Hd;
    [destruct (rename_denied P old n)|].
  - (* refused *)
    destruct Hkept as [?|(q & s & ? & Hq%not_elem_of_cons & ?)];
      [by left|]. right. exists q, s. tauto.
  - (* carried out *)
    pose proof (try_remove_lookup_ne P (<[n:=ino0]> (delete old (disk rs))) n)
      as Hne.
    pose proof (try_remove_lookup_exact (<[n:=ino0]> (delete old (disk rs)))
                  n ino0 (lookup_insert_eq _ _ _)) as Heq.
    destruct (try_remove_executable_bits P
                (<[n:=ino0]> (delete old (disk rs))) n) as [fs'' adjusted].
    cbn [fst] in Hne, Heq.
    destruct Hkept as [[Hnot Hdp]|(q & s & Hq & Hqn & Hin & Hgone & Hat)].
    + destruct (decide (p = old)) as [->|Hpo].
      * right. exists n, src. rewrite Hd in Hdp. injection Hdp as ->.
        cbn [successfully_renamed_original_paths disk].
        split; [done|]. split; [done|].
        split; [apply elem_of_union; left; by apply elem_of_singleton|].
        split; [|done].
        rewrite Hne, lookup_insert_ne, lookup_delete_eq by done. done.
      * left. cbn [successfully_renamed_original_paths disk]. split.
        -- intros [?%elem_of_singleton|?]%elem_of_union; done.
        -- rewrite Hne, lookup_insert_ne, lookup_delete_ne by done. done.
    + apply not_elem_of_cons in Hqn as [Hqn Hqrest]. cbn [fst] in Hqn.
      assert (q <> old) as Hqo.
      { intros ->. by rewrite (whole_targets _ _ _ Hq) in Hold. }
      assert (p <> old) as Hpo by (intros ->; by rewrite Hd in Hgone).
      right. exists q, s. cbn [successfully_renamed_original_paths disk].
      split; [done|]. split; [done|].
      split; [apply elem_of_union; by right|].
      rewrite !Hne, !lookup_insert_ne, !lookup_delete_ne by done. done.
  - (* the source is gone *)
    destruct Hkept as [?|(q & s & ? & Hq%not_elem_of_cons & ?)];
      [by left|]. right. exists q, s. tauto.
Qed.

Lemma rename_phase_kept plan rs p ino :
  NoDup (map fst plan) ->
  (forall item, item ∈ plan -> item ∈ whole) ->
  path_exists fs p = true ->
  file_kept P whole plan rs p ino ->
  file_kept P whole [] (rename_phase P rs plan) p ino.
Proof.
  revert rs; induction plan as [|item plan IH]; intros rs Hnd Hsub Hp Hk;
    [done|].
  cbn [rename_phase fold_left]. apply IH; [| |done|].
  - cbn [map] in Hnd. by apply NoDup_cons in Hnd as [_ ?].
  - intros it Hit. apply Hsub. by apply elem_of_cons; right.
  - apply rename_step_kept; [done| |done|done].
    apply Hsub. by apply elem_of_cons; left.
Qed.

Lemma try_remove_size (d : gmap string inode) p :
  size (fst (try_remove_executable_bits P d p)) = size d.
Proof.
  rewrite <- !(size_dom (D := gset string)). f_equal. apply set_eq. intros q.
  rewrite !elem_of_dom. apply try_remove_lookup.
Qed.

(** Where no target is an entry of the directory, the renames keep the
    number of entries. *)
Lemma rename_phase_size plan rs :
  NoDup (map fst plan) ->
  (forall item, item ∈ plan -> fs !! fst item = None) ->
  (forall q, is_Some (disk rs !! q) ->
             is_Some (fs !! q) \/ q ∉ map fst plan) ->
  size (disk (rename_phase P rs plan)) = size (disk rs).
Proof.
  revert rs; induction plan as [|[n [old src]] plan IH];
    intros rs Hnd Hsub Hdom; [done|].
  cbn [map fst] in Hnd. apply NoDup_cons in Hnd as [Hn Hnd].
  assert (fs !! n = None) as Hfree
    by (apply (Hsub (n, (old, src))); by apply elem_of_cons; left).
  cbn [rename_phase fold_left].
  change (fold_left (rename_step P) plan ?s) with (rename_phase P s plan).
  rewrite IH; [|done| |].
  - unfold rename_step, os_rename.
    destruct (disk rs !! old) as [ino0|] eqn:Hd;
      [destruct (rename_denied P old n)|]; try done.
    pose proof (try_remove_size (<[n:=ino0]> (delete old (disk rs))) n) as Hs.
    destruct (try_remove_executable_bits P _ n) as [fs'' adjusted].
    cbn [fst disk] in *. rewrite Hs.
    assert (disk rs !! n = None) as Hnone.
    { apply eq_None_not_Some. intros [Hin|Hin]%Hdom.
      - rewrite Hfree in Hin. by destruct Hin.
      - apply Hin. cbn [map fst]. by apply elem_of_cons; left. }
    assert (old <> n) as Hon by (intros ->; by rewrite Hd in Hnone).
    rewrite map_size_insert_None
      by (by rewrite lookup_delete_ne).
    rewrite map_size_delete_Some by (rewrite Hd; eauto).
    assert (size (disk rs) <> 0%nat) as Hpos.
    { intros Hz. apply map_size_empty_inv in Hz. rewrite Hz in Hd.
      by rewrite lookup_empty in Hd. }
    lia.
  - intros it Hit. apply Hsub. by apply elem_of_cons; right.
  - intros q Hq.
    destruct (decide (q = n)) as [->|Hqn]; [by right|].
    assert (is_Some (disk rs !! q)) as Hq'.
    { revert Hq. unfold rename_step, os_rename.
      destruct (disk rs !! old) as [ino0|] eqn:Hd;
        [destruct (rename_denied P old n)|]; try done.
      pose proof (try_remove_lookup_ne P
                    (<[n:=ino0]> (delete old (disk rs))) n q ltac:(done))
        as Hne.
      destruct (try_remove_executable_bits P _ n) as [fs'' adjusted].
      cbn [fst disk] in *. rewrite Hne, lookup_insert_ne by done.
      destruct (decide (old = q)) as [->|Hoq].
      - rewrite lookup_delete_eq. by intros [? ?].
      - by rewrite lookup_delete_ne. }
    destruct (Hdom q Hq') as [?|Hout]; [by left|].
    right. intros Hin. apply Hout. cbn [map fst]. by apply elem_of_cons; right.
Qed.

End RenamePhase.

Section NoFileLost.

Variable P : platform.
Variable args : arguments.
Variable fs : gmap string inode.

Lemma sorted_items_NoDup_fst {V : Type} (m : gmap string V) :
  NoDup (map fst (sorted_items m)).
Proof.
  change (map fst (sorted_items m)) with (fst <$> sorted_items m).
  rewrite sorted_items_perm. apply NoDup_fst_map_to_list.
Qed.

Lemma plan_targets listing q p src :
  (q, (p, src)) ∈ sorted_items (seen (scan P args fs listing)) ->
  path_exists fs q = false.
Proof.
  intros H%elem_of_sorted_items. by destruct (plan_entry_facts _ _ _ _ _ _ _ H).
Qed.

Lemma plan_sources listing q p src :
  (q, (p, src)) ∈ sorted_items (seen (scan P args fs listing)) ->
  path_exists fs p = true.
Proof.
  intros H%elem_of_sorted_items.
  destruct (plan_entry_facts _ _ _ _ _ _ _ H) as [_ He].
  by apply eligible_exists.
Qed.

(** The paths of the permission pass are files of the directory the
    scan saw. *)
Lemma final_paths_on_disk listing p :
  let st := scan P args fs listing in
  let rs := rename_phase P (start_run fs st) (sorted_items (seen st)) in
  p ∈ final_paths_to_chmod_original rs -> path_exists fs p = true.
Proof.
  intros st rs [Hin _]%elem_of_difference. apply eligible_exists.
  apply rename_phase_not_renamed in Hin
    as [Hin|([n [old src]] & Hit%elem_of_sorted_items & Heq)].
  - by apply (not_renamed_eligible P args fs listing).
  - cbn [fst snd] in Heq. subst old.
    by destruct (plan_entry_facts _ _ _ _ _ _ _ Hit).
Qed.

(** Where an entry of the directory that [os.path.exists] finds is at
    the end of the run. *)
Lemma main_file_kept (listing : list string) (p : string) (ino : inode) :
  fs !! p = Some ino ->
  path_exists fs p = true ->
  ((p ∉ successfully_renamed_original_paths
          (snd (main P args fs listing)))
   /\ (disk (snd (main P args fs listing)) !! p = Some ino
       \/ disk (snd (main P args fs listing)) !! p
          = Some (with_mode ino (clear_exec (st_mode ino)))))
  \/ (exists q src,
        seen (scan P args fs listing) !! q = Some (p, src)
        /\ (p ∈ successfully_renamed_original_paths
                  (snd (main P args fs listing)))
        /\ disk (snd (main P args fs listing)) !! p = None
        /\ disk (snd (main P args fs listing)) !! q
           = Some (normalised P q ino)).
Proof.
  unfold main, chmod_phase. cbn [snd].
  set (st := scan P args fs listing).
  set (plan := sorted_items (seen st)).
  set (rs := rename_phase P (start_run fs st) plan).
  destruct (chmod_steps_facts P (elements (final_paths_to_chmod_original rs))
              rs) as (Hdisk & _ & Hsucc & _).
  cbn zeta in Hdisk, Hsucc. rewrite Hsucc.
  intros Hp Hex.
  assert (file_kept P plan plan (start_run fs st) p ino) as Hstart.
  { left. split; [apply not_elem_of_empty|done]. }
  pose proof (rename_phase_kept P fs plan (plan_targets listing)
                (plan_sources listing) plan (start_run fs st) p ino
                (sorted_items_NoDup_fst _) ltac:(done) Hex Hstart) as Hk.
  fold rs in Hk.
  destruct Hk as [[Hnot Hat]|(q & src & Hq & _ & Hin & Hgone & Hat)].
  - left. split; [done|]. apply chmod_steps_lookup. by left.
  - right. exists q, src. split; [by apply elem_of_sorted_items|].
    split; [done|]. split.
    + apply eq_None_not_Some. rewrite Hdisk. by rewrite Hgone; intros [? ?].
    + rewrite chmod_steps_lookup_notin; [done|].
      rewrite elem_of_elements. intros Hpath.
      apply final_paths_on_disk in Hpath.
      by rewrite (plan_targets listing _ _ _ Hq) in Hpath.
Qed.

(** X8.  The run loses no file that [os.path.exists] finds and
    overwrites none, whatever the listing and whatever the platform
    refuses.  Every such entry is found again: either it was not renamed
    and is under its own name, as it was or with its execute bits
    cleared; or it is the source of an entry of the plan, its old name
    is gone and its inode is under the planned name, with the execute
    bits cleared unless [os.chmod] was refused.  Where every entry of
    the directory is found by [os.path.exists], that is where no entry
    is a symbolic link without a target, the directory has as many
    entries after the run as before. *)
Theorem run_loses_no_file (listing : list string) :
  (forall p ino, fs !! p = Some ino -> path_exists fs p = true ->
     ((p ∉ successfully_renamed_original_paths
             (snd (main P args fs listing)))
      /\ (disk (snd (main P args fs listing)) !! p = Some ino
          \/ disk (snd (main P args fs listing)) !! p
             = Some (with_mode ino (clear_exec (st_mode ino)))))
     \/ (exists q src,
           seen (scan P args fs listing) !! q = Some (p, src)
           /\ (p ∈ successfully_renamed_original_paths
                     (snd (main P args fs listing)))
           /\ disk (snd (main P args fs listing)) !! p = None
           /\ disk (snd (main P args fs listing)) !! q
              = Some (normalised P q ino)))
  /\ ((forall p, is_Some (fs !! p) -> path_exists fs p = true) ->
      size (disk (snd (main P args fs listing))) = size fs).
Proof.
  split; [apply main_file_kept|]. intros Hall.
  unfold main, chmod_phase. cbn [snd].
  set (st := scan P args fs listing).
  set (plan := sorted_items (seen st)).
  set (rs := rename_phase P (start_run fs st) plan).
  destruct (chmod_steps_facts P (elements (final_paths_to_chmod_original rs))
              rs) as (Hdisk & _ & _ & _).
  cbn zeta in Hdisk.
  rewrite <- !(size_dom (D := gset string)).
  assert (dom (disk (fold_left (chmod_step P)
                       (elements (final_paths_to_chmod_original rs)) rs))
          = dom (disk rs)) as ->.
  { apply set_eq. intros q. rewrite !elem_of_dom. apply Hdisk. }
  rewrite !size_dom. unfold rs.
  rewrite (rename_phase_size P fs); try done.
  - apply sorted_items_NoDup_fst.
  - intros [q [p src]] Hit. cbn [fst].
    pose proof (plan_targets listing q p src Hit) as Hfree.
    destruct (fs !! q) as [ino|] eqn:E; [|done].
    rewrite Hall in Hfree by (rewrite E; eauto). done.
  - intros q Hq. by left.
Qed.

End NoFileLost.

(** The mixed directory has no symbolic link: it has three entries
    before the run and three after it. *)
Lemma run_loses_no_file_example :
  size (disk (snd (main plain_platform no_flags mixed_directory
                     ["album"; "b.jpg"; "notes.txt"])))
  = size mixed_directory.
Proof.
  apply (proj2 (run_loses_no_file plain_platform no_flags mixed_directory
                  ["album"; "b.jpg"; "notes.txt"])).
  intros p [ino Hp]. unfold path_exists. rewrite Hp.
  assert (map_Forall (fun _ i => negb (S_ISLNK (st_mode i)) = true)
            mixed_directory) as Hall
    by (apply (bool_decide_unpack _); vm_compute; exact I).
  exact (Hall p ino Hp).
Defined.

Section AllRenamed.

Variable P : platform.
Variable args : arguments.
Variable fs : gmap string inode.
(** Nothing is refused by [os.rename]. *)
Hypothesis rename_allowed : forall a b, rename_denied P a b = false.

Lemma NoDup_fst_functional {A B : Type} (l : list (A * B)) a b1 b2 :
  NoDup (map fst l) -> (a, b1) ∈ l -> (a, b2) ∈ l -> b1 = b2.
Proof.
  induction l as [|[a' b'] l IH]; cbn [map fst]; intros Hnd H1 H2.
  - by apply elem_of_nil in H1.
  - apply NoDup_cons in Hnd as [Hnotin Hnd].
    assert (forall b, (a', b) ∈ l -> False) as Hfresh.
    { intros b Hb. apply Hnotin.
      change (map fst l) with (fst <$> l).
      apply list_elem_of_fmap. by exists (a', b). }
    apply elem_of_cons in H1 as [H1|H1];
      apply elem_of_cons in H2 as [H2|H2]; simplify_eq.
    + done.
    + by destruct (Hfresh _ H2).
    + by destruct (Hfresh _ H1).
    + by apply IH.
Qed.

Lemma rename_step_success rs n old src ino :
  disk rs !! old = Some ino ->
  let rs' := rename_step P rs (n, (old, src)) in
  renamed_count rs' = S (renamed_count rs)
  /\ not_renamed rs' = not_renamed rs
  /\ successfully_renamed_original_paths rs'
     = {[old]} ∪ successfully_renamed_original_paths rs.
Proof.
  intros Hold. cbv zeta. unfold rename_step, os_rename.
  rewrite Hold, rename_allowed.
  by destruct (try_remove_executable_bits P _ n).
Qed.

Lemma rename_phase_all_succeed plan rs :
  NoDup (map (fun item => fst (snd item)) plan) ->
  (forall item, item ∈ plan ->
     path_exists fs (fst item) = false
     /\ path_exists fs (fst (snd item)) = true
     /\ fst (snd item) ∉ successfully_renamed_original_paths rs) ->
  rename_invariant fs rs ->
  renamed_count (rename_phase P rs plan)
  = (renamed_count rs + length plan)%nat
  /\ not_renamed (rename_phase P rs plan) = not_renamed rs
  /\ forall item, item ∈ plan ->
       fst (snd item)
         ∈ successfully_renamed_original_paths (rename_phase P rs plan).
Proof.
  revert rs; induction plan as [|[n [old src]] plan IH];
    intros rs Hnd Hplan Hinv.
  - cbn [rename_phase fold_left length]. split; [lia|]. split; [done|].
    by intros item ?%elem_of_nil.
  - cbn [map fst snd] in Hnd. apply NoDup_cons in Hnd as [Hold Hnd].
    destruct (Hplan (n, (old, src)) ltac:(by apply elem_of_cons; left))
      as (Hfree & Hex & Hnot). cbn [fst snd] in *.
    destruct (path_exists_is_Some fs old Hex) as [ino Hino].
    assert (disk rs !! old = Some ino) as Hdisk
      by (rewrite (rinv_kept _ _ Hinv) by done; done).
    destruct (rename_step_success rs n old src ino Hdisk)
      as (Hcount & Hnr & Hsucc). cbv zeta in *.
    cbn [rename_phase fold_left length].
    change (fold_left (rename_step P) plan ?s) with (rename_phase P s plan).
    assert (forall item, item ∈ plan -> path_exists fs (fst item) = false)
      as Htargets.
    { intros it Hit. apply Hplan. by apply elem_of_cons; right. }
    pose proof (rename_step_invariant P fs rs n old src Hfree Hinv) as Hinv'.
    destruct (IH (rename_step P rs (n, (old, src)))) as (Hc & Hn & Hall);
      [done| |done|].
    + intros it Hit.
      destruct (Hplan it ltac:(by apply elem_of_cons; right)) as (? & ? & ?).
      split; [done|]. split; [done|]. rewrite Hsucc.
      intros [Heq%elem_of_singleton|?]%elem_of_union; [|done].
      apply Hold. change (map ?f plan) with (f <$> plan).
      apply list_elem_of_fmap. by exists it.
    + split; [rewrite Hc, Hcount; lia|]. split; [by rewrite Hn|].
      intros it [->|Hit]%elem_of_cons; [|by apply Hall]. cbn [fst snd].
      destruct (rename_phase_facts P fs plan
                  (rename_step P rs (n, (old, src))) Htargets Hinv')
        as (_ & _ & Hmono & _).
      apply Hmono. rewrite Hsucc. apply elem_of_union. left.
      by apply elem_of_singleton.
Qed.

Lemma chmod_steps_renamed_count paths rs :
  renamed_count (fold_left (chmod_step P) paths rs) = renamed_count rs.
Proof.
  revert rs; induction paths as [|p paths IH]; intros rs; [done|].
  cbn [fold_left]. rewrite IH. unfold chmod_step.
  destruct (path_exists (disk rs) p); [|done].
  by destruct (try_remove_executable_bits P (disk rs) p).
Qed.

(** Two entries of the plan have different sources when no entry is
    listed twice. *)
Lemma plan_source_once listing q1 q2 p s1 s2 :
  NoDup listing ->
  seen (scan P args fs listing) !! q1 = Some (p, s1) ->
  seen (scan P args fs listing) !! q2 = Some (p, s2) ->
  q1 = q2.
Proof.
  intros Hnd H1 H2.
  pose proof (scan_has_invariant P args fs listing) as Hinv.
  destruct (inv_fresh _ _ _ _ Hinv _ _ H1) as [_ Hh1].
  destruct (inv_fresh _ _ _ _ Hinv _ _ H2) as [_ Hh2].
  cbn [fst snd] in Hh1, Hh2.
  pose proof (scan_from_history P args fs initial_scan_state listing) as Hh.
  fold (scan P args fs listing) in Hh.
  cbn [history initial_scan_state map app] in Hh.
  rewrite <- Hh in Hnd.
  pose proof (NoDup_fst_functional _ _ _ _ Hnd Hh1 Hh2) as Heq.
  by injection Heq.
Qed.

Lemma plan_sources_NoDup listing :
  NoDup listing ->
  NoDup (map (fun item => fst (snd item))
           (sorted_items (seen (scan P args fs listing)))).
Proof.
  intros Hnd.
  change (map ?f ?l) with (f <$> l).
  rewrite sorted_items_perm.
  apply NoDup_fmap_2_strong; [|apply NoDup_map_to_list].
  intros [q1 [p1 s1]] [q2 [p2 s2]] H1%elem_of_map_to_list
    H2%elem_of_map_to_list. cbn [fst snd]. intros <-.
  pose proof (plan_source_once listing q1 q2 p1 s1 s2 Hnd H1 H2) as <-.
  rewrite H1 in H2. by injection H2 as <-.
Qed.

(** X9.  When [os.rename] refuses nothing and no entry is listed twice,
    the whole plan is carried out: the number of renames is the size of
    the plan, no rename is recorded as failed, and for every entry of
    the plan the old name is gone and the file is under its new name,
    with the execute bits cleared unless [os.chmod] was refused. *)
Theorem every_planned_rename_carried_out (listing : list string) :
  NoDup listing ->
  renamed_count (snd (main P args fs listing))
  = size (seen (scan P args fs listing))
  /\ not_renamed (snd (main P args fs listing))
     = eligible_files_not_renamed_paths (scan P args fs listing)
  /\ forall q p src ino,
       seen (scan P args fs listing) !! q = Some (p, src) ->
       fs !! p = Some ino ->
       disk (snd (main P args fs listing)) !! p = None
       /\ disk (snd (main P args fs listing)) !! q
          = Some (normalised P q ino).
Proof.
  intros Hnd.
  set (st := scan P args fs listing).
  set (plan := sorted_items (seen st)).
  destruct (rename_phase_all_succeed plan (start_run fs st))
    as (Hcount & Hnr & Hall).
  { by apply plan_sources_NoDup. }
  { intros [q [p src]] Hit. cbn [fst snd].
    split; [by apply (plan_targets P args fs listing q p src)|].
    split; [by apply (plan_sources P args fs listing q p src)|].
    apply not_elem_of_empty. }
  { split; [done|]. by intros p ?%elem_of_nil. }
  split; [|split].
  - unfold main, chmod_phase. cbn [snd]. fold st. fold plan.
    rewrite chmod_steps_renamed_count, Hcount.
    cbn [renamed_count start_run]. unfold plan.
    by rewrite (Permutation_length (sorted_items_perm _)), length_map_to_list.
  - unfold main, chmod_phase. cbn [snd]. fold st. fold plan.
    destruct (chmod_steps_facts P
                (elements (final_paths_to_chmod_original
                             (rename_phase P (start_run fs st) plan)))
                (rename_phase P (start_run fs st) plan)) as (_ & _ & _ & Hn).
    cbn zeta in Hn. by rewrite Hn, Hnr.
  - intros q p src ino Hq Hp.
    assert (p ∈ successfully_renamed_original_paths
                  (snd (main P args fs listing))) as Hin.
    { unfold main, chmod_phase. cbn [snd]. fold st. fold plan.
      destruct (chmod_steps_facts P
                  (elements (final_paths_to_chmod_original
                               (rename_phase P (start_run fs st) plan)))
                  (rename_phase P (start_run fs st) plan))
        as (_ & _ & Hs & _).
      cbn zeta in Hs. rewrite Hs.
      apply (Hall (q, (p, src))). by apply elem_of_sorted_items. }
    assert (path_exists fs p = true) as Hex
      by (apply (plan_sources P args fs listing q p src);
          by apply elem_of_sorted_items).
    destruct (main_file_kept P args fs listing p ino Hp Hex)
      as [[Hnot _]|(q' & src' & Hq' & _ & Hgone & Hat)]; [done|].
    pose proof (plan_source_once listing q q' p src src' Hnd Hq Hq') as <-.
    done.
Qed.

End AllRenamed.

(** The three files of the example directory after the run. *)
Lemma all_renamed_example :
  renamed_count (snd (main plain_platform no_flags same_candidate_directory
                        ["a.jpg"; "A.JPG"; "(a).jpeg"]))
  = size (seen (scan plain_platform no_flags same_candidate_directory
                  ["a.jpg"; "A.JPG"; "(a).jpeg"])).
Proof.
  apply (every_planned_rename_carried_out plain_platform no_flags
           same_candidate_directory).
  - intros a b. reflexivity.
  - apply (bool_decide_unpack _). vm_compute. exact I.
Defined.

Section NormalisedNames.

Lemma str_all_impl (f g : ascii -> bool) s :
  (forall a, f a = true -> g a = true) ->
  str_all f s = true -> str_all g s = true.
Proof.
  intros Hfg. induction s as [|a t IH]; [done|]. cbn [str_all].
  intros [Ha Ht]%andb_true_iff. by rewrite (Hfg _ Ha), IH.
Qed.

Lemma str_all_and (f g : ascii -> bool) s :
  str_all (fun a => f a && g a) s = str_all f s && str_all g s.
Proof.
  induction s as [|a t IH]; [done|]. cbn [str_all]. rewrite IH.
  destruct (f a), (g a), (str_all f t), (str_all g t); reflexivity.
Qed.

Lemma str_all_remove_chars cls s :
  str_all (fun a => negb (cls a)) (PyStr.remove_chars cls s) = true.
Proof.
  induction s as [|a t IH]; [done|]. cbn [PyStr.remove_chars].
  destruct (cls a) eqn:E; [done|]. cbn [str_all]. by rewrite E, IH.
Qed.

Lemma str_all_remove_chars_keep f cls s :
  str_all f s = true -> str_all f (PyStr.remove_chars cls s) = true.
Proof.
  induction s as [|a t IH]; [done|]. cbn [str_all PyStr.remove_chars].
  intros [Ha Ht]%andb_true_iff.
  destruct (cls a); [by apply IH|]. cbn [str_all]. by rewrite Ha, IH.
Qed.

Lemma str_all_lstrip_char f c s :
  str_all f s = true -> str_all f (PyStr.lstrip_char c s) = true.
Proof.
  induction s as [|a t IH]; [done|]. cbn [str_all PyStr.lstrip_char].
  intros H. destruct (Ascii.eqb a c); [|done].
  apply andb_true_iff in H as [_ Ht]. by apply IH.
Qed.

Lemma lstrip_char_startswith c s :
  PyStr.startswith (PyStr.lstrip_char c s) (String c "") = false.
Proof.
  induction s as [|a t IH]; [done|]. cbn [PyStr.lstrip_char].
  destruct (Ascii.eqb a c) eqn:E; [done|].
  cbn [PyStr.startswith]. by rewrite E.
Qed.

Lemma lower_char_not_upper a : not_upper (PyStr.lower_char a) = true.
Proof.
  unfold not_upper, PyStr.lower_char.
  destruct (PyStr.is_upper a) eqn:E; [|by rewrite E].
  unfold PyStr.is_upper in *. cbv zeta in *.
  apply andb_true_iff in E as [E1%Nat.leb_le E2%Nat.leb_le].
  rewrite nat_ascii_embedding by lia.
  apply negb_true_iff, andb_false_iff. right. apply Nat.leb_gt. lia.
Qed.

Lemma str_all_lower s : str_all not_upper (PyStr.lower s) = true.
Proof.
  induction s as [|a t IH]; [done|]. cbn [PyStr.lower str_all].
  by rewrite lower_char_not_upper, IH.
Qed.

Lemma clean_name_part_clean name_part :
  str_all clean_char (clean_name_part name_part) = true.
Proof.
  unfold clean_name_part. cbv zeta.
  do 2 apply str_all_lstrip_char.
  unfold clean_char. rewrite !str_all_and.
  apply andb_true_iff; split; [apply andb_true_iff; split|].
  - apply str_all_remove_chars_keep, str_all_remove_chars.
  - apply str_all_remove_chars.
  - do 2 apply str_all_remove_chars_keep. apply str_all_lower.
Qed.

Lemma clean_name_part_no_leading_dot name_part :
  PyStr.startswith (clean_name_part name_part) "." = false.
Proof. unfold clean_name_part. apply lstrip_char_startswith. Qed.

Lemma final_name_part_facts name_part ext :
  let stem := final_name_part (clean_name_part name_part) ext in
  stem <> ""
  /\ str_all clean_char stem = true
  /\ PyStr.startswith stem "." = false.
Proof.
  cbv zeta. unfold final_name_part.
  pose proof (clean_name_part_clean name_part) as Hc.
  pose proof (clean_name_part_no_leading_dot name_part) as Hd.
  destruct (clean_name_part name_part) as [|a t]; cbn [PyStr.truthy negb].
  - by destruct (PyStr.truthy ext).
  - done.
Qed.

(** The position [str.rfind] returns: the start value when the character
    does not occur, else an index that holds it and after which it does
    not occur again. *)
Lemma rfind_from_spec c s i last :
  (PyStr.rfind_from c s i last = last /\ str_all (is_not c) s = true)
  \/ (i <= PyStr.rfind_from c s i last < i + Z.of_nat (String.length s)
      /\ String.get (Z.to_nat (PyStr.rfind_from c s i last - i)) s = Some c
      /\ str_all (is_not c)
           (PyStr.drop (S (Z.to_nat (PyStr.rfind_from c s i last - i))) s)
         = true).
Proof.
  revert i last; induction s as [|a t IH]; intros i last; [by left|].
  cbn [PyStr.rfind_from].
  destruct (IH (i + 1) (if Ascii.eqb a c then i else last))
    as [[Hr Hall]|(Hrange & Hget & Hall)].
  - rewrite Hr. destruct (Ascii.eqb a c) eqn:E.
    + right. apply Ascii.eqb_eq in E. subst a.
      rewrite Z.sub_diag. cbn [Z.to_nat String.get PyStr.drop String.length].
      split; [lia|]. split; [done|]. done.
    + left. split; [done|]. cbn [str_all]. unfold is_not at 1. by rewrite E.
  - right. set (r := PyStr.rfind_from c t (i + 1) _) in *.
    replace (Z.to_nat (r - i)) with (S (Z.to_nat (r - (i + 1)))) by lia.
    cbn [String.get PyStr.drop String.length]. split; [lia|]. done.
Qed.

Lemma drop_get n s c :
  String.get n s = Some c -> PyStr.drop n s = String c (PyStr.drop (S n) s).
Proof.
  revert s; induction n as [|n IH]; intros [|a t]; cbn; try done.
  - by intros [= ->].
  - apply IH.
Qed.

(** The extension [os.path.splitext] returns is empty or a period
    followed by characters other than the period. *)
Lemma splitext_ext p :
  snd (OsPath.splitext p) = ""
  \/ exists e, snd (OsPath.splitext p) = String "." e
               /\ str_all (is_not ".") e = true.
Proof.
  unfold OsPath.splitext. destruct (_ && _) eqn:E; [|by left].
  cbn [snd]. right.
  apply andb_true_iff in E as [Hlt%Z.ltb_lt _].
  pose proof (rfind_lower p OsPath.sep) as Hsep.
  unfold PyStr.rfind in *.
  destruct (rfind_from_spec OsPath.extsep p 0 (-1))
    as [[Hr _]|(Hrange & Hget & Hall)]; [lia|].
  rewrite Z.sub_0_r in Hget, Hall.
  rewrite (drop_get _ _ _ Hget). eauto.
Qed.

Lemma splitext_join p :
  fst (OsPath.splitext p) ++ snd (OsPath.splitext p) = p.
Proof.
  unfold OsPath.splitext. destruct (_ && _); cbn [fst snd].
  - apply take_drop.
  - clear. induction p as [|a t IH]; [done|]. rewrite append_cons. by f_equal.
Qed.

Lemma clean_ext_part_facts ext_part :
  (ext_part = "" \/ PyStr.startswith ext_part "." = true) ->
  let ext := clean_ext_part ext_part in
  ext <> ".jpeg"
  /\ str_all not_upper ext = true
  /\ (ext = "" \/ PyStr.startswith ext "." = true).
Proof.
  intros Hdot. cbv zeta. unfold clean_ext_part.
  destruct (String.eqb (PyStr.lower ext_part) ".jpeg") eqn:E.
  - split; [done|]. split; [done|]. by right.
  - apply String.eqb_neq in E. split; [done|].
    split; [apply str_all_lower|].
    destruct Hdot as [->|Hdot]; [by left|]. right.
    destruct ext_part as [|a t]; [done|]. cbn in Hdot.
    rewrite andb_true_r in Hdot. apply Ascii.eqb_eq in Hdot. by subst a.
Qed.

(** X10.  The name the normalisation proposes for a file is the date
    stamp, an underscore, a stem and an extension, where the stem is not
    empty, holds no bracket, white space, comma, plus sign, ampersand or
    capital letter and does not begin with a period, and the extension
    is the lower-cased extension of the processed name, is not [.jpeg],
    and is empty or begins with a period. *)
Theorem tentative_final_name_shape (file_date_str filename_to_process : string) :
  exists stem ext,
    tentative_final_name file_date_str filename_to_process
    = file_date_str ++ "_" ++ stem ++ ext
    /\ stem <> ""
    /\ str_all clean_char stem = true
    /\ PyStr.startswith stem "." = false
    /\ ext = clean_ext_part (snd (OsPath.splitext filename_to_process))
    /\ ext <> ".jpeg"
    /\ str_all not_upper ext = true
    /\ (ext = "" \/ PyStr.startswith ext "." = true).
Proof.
  unfold tentative_final_name.
  pose proof (splitext_ext filename_to_process) as Hext.
  destruct (OsPath.splitext filename_to_process) as [name_part ext_part].
  cbn [snd] in Hext. cbv zeta.
  exists (final_name_part (clean_name_part name_part)
            (clean_ext_part ext_part)), (clean_ext_part ext_part).
  destruct (final_name_part_facts name_part (clean_ext_part ext_part))
    as (H1 & H2 & H3). cbv zeta in *.
  destruct (clean_ext_part_facts ext_part) as (H4 & H5 & H6).
  { destruct Hext as [->|(e & -> & _)]; [by left|by right]. }
  cbv zeta in *. done.
Qed.

End NormalisedNames.

Section WithoutPillow.

Variable P : platform.
Variable fs : gmap string inode.
Variables f v : bool.
(** Pillow could not be imported. *)
Hypothesis no_pillow : PIL_AVAILABLE P = false.

Lemma find_pointwise {A : Type} (g1 g2 : A -> bool) l :
  (forall x, g1 x = g2 x) -> find g1 l = find g2 l.
Proof.
  intros H. induction l as [|x l IH]; [done|]. cbn [find].
  by rewrite H, IH.
Qed.

Lemma resolve_unique_ext (in1 in2 ex : string -> bool) orig final :
  (forall n, in1 n = in2 n) ->
  resolve_unique in1 ex orig final = resolve_unique in2 ex orig final.
Proof.
  intros Hin. rewrite !resolve_unique_find.
  rewrite (find_pointwise _ (fun n => negb (in2 n || ex n) || String.eqb n orig));
    [done|].
  intros n. by rewrite Hin.
Qed.

Lemma resolve_date_without_pillow ino :
  resolve_date P (flags true f v) ino
  = match resolve_date P (flags false f v) ino with
    | Some (ts, _) => Some (ts, SrcCtimeFallback)
    | None => None
    end.
Proof.
  unfold resolve_date, get_exif_date. cbn [time_from_exif flags].
  rewrite no_pillow. cbn [negb]. by destruct (ctime_stamp ino).
Qed.

Lemma process_file_without_pillow
    (seen1 seen2 : gmap string (string * date_source)) path :
  fst <$> seen1 = fst <$> seen2 ->
  process_file P (flags true f v) fs seen1 path
  = as_fallback (process_file P (flags false f v) fs seen2 path).
Proof.
  intros Hseen. unfold process_file.
  destruct (fs !! path) as [ino|]; [|done].
  destruct (negb (S_ISREG (st_mode ino))); [done|].
  destruct (negb (EXTENSIONS_search path)); [done|].
  rewrite resolve_date_without_pillow.
  destruct (resolve_date P (flags false f v) ino) as [[ts src]|]; [|done].
  destruct (negb (PyStr.truthy ts)); [done|].
  cbn [force flags].
  destruct (reconcile f ts (OsPath.basename path)) as [final|o] eqn:E.
  - rewrite (resolve_unique_ext
               (fun n => bool_decide (is_Some (seen1 !! n)))
               (fun n => bool_decide (is_Some (seen2 !! n)))).
    + by destruct (resolve_unique _ _ _ _).
    + intros n. apply bool_decide_ext.
      rewrite <- (fmap_is_Some fst (seen1 !! n)).
      rewrite <- (fmap_is_Some fst (seen2 !! n)).
      by rewrite <- !lookup_fmap, Hseen.
  - apply reconcile_stop_kinds in E.
    by destruct E as [->|[->|[->| ->]]].
Qed.

Lemma scan_step_without_pillow st1 st2 path :
  fst <$> seen st1 = fst <$> seen st2 ->
  eligible_files_not_renamed_paths st1 = eligible_files_not_renamed_paths st2 ->
  map (fun po => (fst po, as_fallback (snd po))) (history st2) = history st1 ->
  let st1' := scan_step P (flags true f v) fs st1 path in
  let st2' := scan_step P (flags false f v) fs st2 path in
  fst <$> seen st1' = fst <$> seen st2'
  /\ eligible_files_not_renamed_paths st1'
     = eligible_files_not_renamed_paths st2'
  /\ map (fun po => (fst po, as_fallback (snd po))) (history st2')
     = history st1'.
Proof.
  intros Hseen Hnr Hh. cbv zeta. unfold scan_step.
  rewrite (process_file_without_pillow (seen st1) (seen st2) path Hseen).
  destruct (process_file P (flags false f v) fs (seen st2) path);
    cbn [as_fallback record_outcome seen eligible_files_not_renamed_paths
         history];
    rewrite ?map_app, ?Hh, ?Hnr, ?fmap_insert, ?Hseen; done.
Qed.

Lemma scan_from_without_pillow listing st1 st2 :
  fst <$> seen st1 = fst <$> seen st2 ->
  eligible_files_not_renamed_paths st1 = eligible_files_not_renamed_paths st2 ->
  map (fun po => (fst po, as_fallback (snd po))) (history st2) = history st1 ->
  let st1' := scan_from P (flags true f v) fs st1 listing in
  let st2' := scan_from P (flags false f v) fs st2 listing in
  fst <$> seen st1' = fst <$> seen st2'
  /\ eligible_files_not_renamed_paths st1'
     = eligible_files_not_renamed_paths st2'
  /\ map (fun po => (fst po, as_fallback (snd po))) (history st2')
     = history st1'.
Proof.
  revert st1 st2; induction listing as [|p listing IH];
    intros st1 st2 H1 H2 H3; [done|].
  cbn [scan_from fold_left].
  destruct (scan_step_without_pillow st1 st2 p H1 H2 H3) as (? & ? & ?).
  by apply IH.
Qed.

(** X11.  Without Pillow the flag [-t] changes nothing but the label of
    the date source: the scan gives every entry the same outcome as
    without the flag, plans the same renames from the same files under
    the same names, records the same files as not renamed, and every
    date in the plan is the ctime, labelled as the fallback. *)
Theorem exif_flag_without_pillow (listing : list string) :
  history (scan P (flags true f v) fs listing)
  = map (fun po => (fst po, as_fallback (snd po)))
      (history (scan P (flags false f v) fs listing))
  /\ fst <$> seen (scan P (flags true f v) fs listing)
     = fst <$> seen (scan P (flags false f v) fs listing)
  /\ eligible_files_not_renamed_paths (scan P (flags true f v) fs listing)
     = eligible_files_not_renamed_paths (scan P (flags false f v) fs listing)
  /\ forall q p src,
       seen (scan P (flags true f v) fs listing) !! q = Some (p, src) ->
       src = SrcCtimeFallback.
Proof.
  destruct (scan_from_without_pillow listing initial_scan_state
              initial_scan_state) as (H1 & H2 & H3); try done.
  cbv zeta in *. fold (scan P (flags true f v) fs listing) in *.
  fold (scan P (flags false f v) fs listing) in *.
  split; [done|]. split; [done|]. split; [done|].
  intros q p src Hq.
  pose proof (scan_has_invariant P (flags true f v) fs listing) as Hinv.
  destruct (inv_fresh _ _ _ _ Hinv _ _ Hq) as [_ Hh]. cbn [fst snd] in Hh.
  rewrite <- H3 in Hh.
  change (map ?g ?l) with (g <$> l) in Hh.
  apply list_elem_of_fmap in Hh as ([p' o] & Heq & _).
  cbn [fst snd] in Heq. injection Heq as _ Ho.
  destruct o; cbn [as_fallback] in Ho; try done. by injection Ho.
Qed.

End WithoutPillow.
(** The example directory scanned with [-t] on a platform without
    Pillow. *)
Lemma exif_flag_without_pillow_example :
  fst <$> seen (scan plain_platform (flags true false false)
                  same_candidate_directory ["a.jpg"; "A.JPG"; "(a).jpeg"])
  = fst <$> seen (scan plain_platform (flags false false false)
                    same_candidate_directory ["a.jpg"; "A.JPG"; "(a).jpeg"]).
Proof.
  apply (exif_flag_without_pillow plain_platform same_candidate_directory
           false false eq_refl ["a.jpg"; "A.JPG"; "(a).jpeg"]).
Defined.

Section SecondRun.

Lemma str_all_drop f n s :
  str_all f s = true -> str_all f (PyStr.drop n s) = true.
Proof.
  revert s; induction n as [|n IH]; intros [|a t]; cbn; try done.
  intros [_ Ht]%andb_true_iff. by apply IH.
Qed.

Lemma str_all_take f n s :
  str_all f s = true -> str_all f (PyStr.take n s) = true.
Proof.
  revert s; induction n as [|n IH]; intros [|a t]; cbn; try done.
  intros [Ha Ht]%andb_true_iff. by rewrite Ha, IH.
Qed.

Lemma str_all_lower_keep f s :
  (forall a, f a = true -> f (PyStr.lower_char a) = true) ->
  str_all f s = true -> str_all f (PyStr.lower s) = true.
Proof.
  intros Hf. induction s as [|a t IH]; [done|]. cbn [str_all PyStr.lower].
  intros [Ha Ht]%andb_true_iff. by rewrite (Hf _ Ha), IH.
Qed.

Lemma lower_char_cases a :
  PyStr.lower_char a = a
  \/ (PyStr.is_upper a = true
      /\ (97 <= nat_of_ascii (PyStr.lower_char a) <= 122)%nat).
Proof.
  unfold PyStr.lower_char. destruct (PyStr.is_upper a) eqn:E; [|by left].
  right. split; [done|]. unfold PyStr.is_upper in E. cbv zeta in E.
  apply andb_true_iff in E as [E1%Nat.leb_le E2%Nat.leb_le].
  rewrite nat_ascii_embedding by lia. lia.
Qed.

(** Lower-casing does not produce a separator, a period or an
    underscore, and keeps them. *)
Lemma lower_char_is_not c a :
  (nat_of_ascii c <? 97)%nat = true ->
  PyStr.is_upper c = false ->
  is_not c (PyStr.lower_char a) = is_not c a.
Proof.
  intros Hc%Nat.ltb_lt Hup. unfold is_not.
  destruct (lower_char_cases a) as [->|[Ha Hrange]]; [done|].
  f_equal.
  destruct (Ascii.eqb_spec (PyStr.lower_char a) c) as [Heq|_];
    destruct (Ascii.eqb_spec a c) as [Heq'|_]; try done.
  - rewrite Heq in Hrange. lia.
  - subst a. by rewrite Ha in Hup.
Qed.

Lemma str_all_is_not_lower c s :
  (nat_of_ascii c <? 97)%nat = true ->
  PyStr.is_upper c = false ->
  str_all (is_not c) (PyStr.lower s) = str_all (is_not c) s.
Proof.
  intros Hc Hup. induction s as [|a t IH]; [done|].
  cbn [str_all PyStr.lower]. by rewrite lower_char_is_not, IH.
Qed.

Lemma basename_no_sep p :
  str_all (is_not OsPath.sep) (OsPath.basename p) = true.
Proof.
  unfold OsPath.basename, PyStr.rfind.
  destruct (rfind_from_spec OsPath.sep p 0 (-1))
    as [[-> Hall]|(Hrange & _ & Hall)]; [done|].
  rewrite Z.sub_0_r in Hall.
  by replace (Z.to_nat (PyStr.rfind_from OsPath.sep p 0 (-1) + 1))
    with (S (Z.to_nat (PyStr.rfind_from OsPath.sep p 0 (-1)))) by lia.
Qed.

Lemma basename_without_sep p :
  str_all (is_not OsPath.sep) p = true -> OsPath.basename p = p.
Proof.
  intros Hall. unfold OsPath.basename, PyStr.rfind.
  destruct (rfind_from_spec OsPath.sep p 0 (-1))
    as [[-> _]|(Hrange & Hget & _)]; [done|].
  rewrite Z.sub_0_r in Hget. exfalso. clear Hrange.
  revert Hget Hall. generalize (Z.to_nat (PyStr.rfind_from OsPath.sep p 0 (-1))).
  intros n. revert p. induction n as [|n IH]; intros [|a t]; cbn; try done.
  - intros [= ->]. done.
  - intros Hget [_ Ht]%andb_true_iff. by apply (IH t).
Qed.

Lemma strip_one_stamp_keeps f s :
  str_all f s = true -> str_all f (strip_one_stamp s) = true.
Proof.
  intros H. unfold strip_one_stamp. cbv zeta.
  destruct (PyStr.startswith _ _); by repeat apply str_all_drop.
Qed.

Lemma strip_incorrect_stamps_keeps f passes s k :
  str_all f s = true ->
  str_all f (fst (strip_incorrect_stamps passes s k)) = true.
Proof.
  revert s k; induction passes as [|passes IH]; intros s k H; [done|].
  cbn [strip_incorrect_stamps].
  destruct (STANDALONE_DATE_STAMP_REGEX_match s); [|done].
  by apply IH, strip_one_stamp_keeps.
Qed.

Lemma strip_stage_keeps f force ts name r :
  strip_stage force ts name = Proceed r ->
  str_all f name = true -> str_all f r = true.
Proof.
  unfold strip_stage. intros Hstage Hall.
  destruct (STANDALONE_DATE_STAMP_REGEX_match name).
  - destruct (String.eqb _ ts).
    + destruct force; cbn [negb] in Hstage; [|done].
      rewrite check_stripped_cases in Hstage.
      destruct (PyStr.truthy _); [|done]. injection Hstage as <-.
      by apply strip_one_stamp_keeps.
    + pose proof (strip_incorrect_stamps_keeps f 2 name 0 Hall) as Hk.
      destruct (strip_incorrect_stamps 2 name 0) as [t c]. cbn [fst] in Hk.
      destruct (0 <? c)%nat; [|by injection Hstage as <-].
      rewrite check_stripped_cases in Hstage.
      destruct (PyStr.truthy _); [|done]. by injection Hstage as <-.
  - destruct (_ && _); [done|]. by injection Hstage as <-.
Qed.


Lemma string_of_uint_digits d :
  str_all PyStr.is_digit (NilEmpty.string_of_uint d) = true.
Proof. induction d; cbn; done. Qed.

Lemma of_nat_digits n : str_all PyStr.is_digit (PyStr.of_nat n) = true.
Proof.
  unfold PyStr.of_nat, NilZero.string_of_uint.
  destruct (Nat.to_uint n) eqn:E; try (rewrite <- E); try done;
    apply string_of_uint_digits.
Qed.

Lemma digit_is_not c a :
  PyStr.is_digit c = false -> PyStr.is_digit a = true -> is_not c a = true.
Proof.
  intros Hc Ha. unfold is_not.
  destruct (Ascii.eqb_spec a c) as [->|_]; [|done]. by rewrite Hc in Ha.
Qed.

Lemma lower_app (x y : string) :
  PyStr.lower (x ++ y) = PyStr.lower x ++ PyStr.lower y.
Proof.
  induction x as [|a x IH]; [done|]. rewrite append_cons.
  cbn [PyStr.lower]. by rewrite IH, append_cons.
Qed.

Lemma append_assoc (x y z : string) : (x ++ y) ++ z = x ++ (y ++ z).
Proof.
  induction x as [|a x IH]; [done|]. rewrite !append_cons. by f_equal.
Qed.

Lemma append_nil_r (x : string) : x ++ "" = x.
Proof. induction x as [|a x IH]; [done|]. rewrite append_cons. by f_equal. Qed.

Lemma length_app (x y : string) :
  String.length (x ++ y) = (String.length x + String.length y)%nat.
Proof.
  induction x as [|a x IH]; [done|]. rewrite append_cons.
  cbn [String.length]. by rewrite IH.
Qed.

Lemma re_match_app pat (s t : string) :
  re_match pat s = true -> re_match pat (s ++ t) = true.
Proof.
  revert s; induction pat as [|it pat IH]; intros s; [done|].
  destruct s as [|a s]; [done|]. rewrite append_cons. cbn [re_match].
  intros [Ha Hs]%andb_true_iff. by rewrite Ha, IH.
Qed.

(** A name that begins with the well-formed stamp [ts] is recognised as
    stamped with [ts]. *)
Lemma stamp_app ts r :
  well_formed_stamp ts = true ->
  STANDALONE_DATE_STAMP_REGEX_match (ts ++ r) = true
  /\ PyStr.take DATE_STAMP_LENGTH (ts ++ r) = ts.
Proof.
  intros [Hm Hlen%Nat.eqb_eq]%andb_true_iff. split.
  - by apply re_match_app.
  - rewrite <- Hlen. apply take_app_length.
Qed.

Lemma app_prefix (x y u w : string) :
  x ++ y = u ++ w -> (String.length u <= String.length x)%nat ->
  exists x', x = u ++ x'.
Proof.
  revert x; induction u as [|c u IH]; intros x Heq Hlen; [by exists x|].
  destruct x as [|a x]; [cbn in Hlen; lia|].
  rewrite !append_cons in Heq. injection Heq as -> Heq.
  cbn [String.length] in Hlen.
  destruct (IH x Heq ltac:(lia)) as [x' ->]. by exists x'.
Qed.

(** The character that follows [u] in [u ++ c :: w] is in the second
    part of every split made inside [u]. *)
Lemma app_split_char (x y u w : string) c :
  x ++ y = u ++ String c w ->
  (String.length x <= String.length u)%nat ->
  str_all (is_not c) y = false.
Proof.
  revert u; induction x as [|a x IH]; intros u Heq Hlen.
  - rewrite append_nil_l in Heq. subst y. rewrite str_all_app.
    cbn [str_all]. unfold is_not at 2. rewrite Ascii.eqb_refl.
    apply andb_false_r.
  - destruct u as [|b u]; [cbn in Hlen; lia|].
    rewrite !append_cons in Heq. injection Heq as -> Heq.
    cbn [String.length] in Hlen. apply (IH u Heq). lia.
Qed.

(** What follows the last occurrence of a character is determined. *)
Lemma last_char_unique c (x y x' y' : string) :
  x ++ String c y = x' ++ String c y' ->
  str_all (is_not c) y = true ->
  str_all (is_not c) y' = true ->
  y = y'.
Proof.
  revert x'; induction x as [|a x IH]; intros x' Heq Hy Hy'.
  - destruct x' as [|a' x'].
    + rewrite !append_nil_l in Heq. by injection Heq.
    + rewrite append_nil_l, append_cons in Heq. injection Heq as _ Heq.
      rewrite Heq, str_all_app in Hy. cbn [str_all] in Hy.
      unfold is_not at 2 in Hy. rewrite Ascii.eqb_refl in Hy.
      by rewrite andb_false_r in Hy.
  - destruct x' as [|a' x'].
    + rewrite append_nil_l, append_cons in Heq. injection Heq as _ Heq.
      rewrite <- Heq, str_all_app in Hy'. cbn [str_all] in Hy'.
      unfold is_not at 2 in Hy'. rewrite Ascii.eqb_refl in Hy'.
      by rewrite andb_false_r in Hy'.
    + rewrite !append_cons in Heq. injection Heq as _ Heq.
      by apply (IH x').
Qed.

Lemma extension_names_chars e :
  In e EXTENSION_NAMES ->
  str_all (is_not ".") (e ++ newline) = true
  /\ str_all (is_not "_") (e ++ newline) = true.
Proof.
  intros Hin.
  assert (forallb (fun e => str_all (is_not ".") (e ++ newline)
                            && str_all (is_not "_") (e ++ newline))
            EXTENSION_NAMES = true) as Hall by (by vm_compute).
  rewrite forallb_forall in Hall. by apply andb_true_iff, Hall.
Qed.

(** A name whose last period is followed by characters that include an
    underscore has no media extension. *)
Lemma underscore_after_last_dot_not_eligible (x e : string) :
  str_all (is_not ".") e = true ->
  str_all (is_not "_") e = false ->
  EXTENSIONS_search (x ++ String "." e) = false.
Proof.
  intros Hdot Hus.
  destruct (EXTENSIONS_search (x ++ String "." e)) eqn:He; [exfalso|done].
  apply existsb_exists in He as (n & Hin & Hend).
  destruct (extension_names_chars n Hin) as [Hnd Hnu].
  rewrite str_all_app in Hnd, Hnu.
  apply andb_true_iff in Hnd as [Hnd Hnld], Hnu as [Hnu Hnlu].
  assert (exists pre suf,
             PyStr.lower (x ++ String "." e) = pre ++ String "." suf
             /\ str_all (is_not ".") suf = true
             /\ str_all (is_not "_") suf = true)
    as (pre & suf & Heq & Hsd & Hsu).
  { apply orb_true_iff in Hend as [[pre Hp]%endswith_split
                                  |[pre Hp]%endswith_split].
    - exists pre, n. rewrite Hp. done.
    - exists pre, (n ++ newline). rewrite Hp, !str_all_app, Hnd, Hnu. done. }
  rewrite lower_app in Heq. cbn [PyStr.lower] in Heq.
  change (PyStr.lower_char ".") with "."%char in Heq.
  apply last_char_unique in Heq; [| |done].
  - rewrite <- Heq in Hsu.
    rewrite str_all_is_not_lower in Hsu by (by vm_compute).
    by rewrite Hsu in Hus.
  - by rewrite str_all_is_not_lower by (by vm_compute).
Qed.

(** The candidate and its numbered variants, when they have a media
    extension, begin with the stamp they were given. *)
Lemma probe_restamped ts f n :
  well_formed_stamp ts = true ->
  In n (probes (fst (OsPath.splitext (tentative_final_name ts f)))
          (snd (OsPath.splitext (tentative_final_name ts f)))
          (tentative_final_name ts f)) ->
  EXTENSIONS_search n = true ->
  STANDALONE_DATE_STAMP_REGEX_match n = true
  /\ PyStr.take DATE_STAMP_LENGTH n = ts.
Proof.
  intros Hts Hin Hel.
  destruct (tentative_final_name_prefix ts f) as [rest Hfinal].
  pose proof (splitext_join (tentative_final_name ts f)) as Hjoin.
  pose proof (splitext_ext (tentative_final_name ts f)) as Hext.
  set (base := fst (OsPath.splitext (tentative_final_name ts f))) in *.
  set (ext := snd (OsPath.splitext (tentative_final_name ts f))) in *.
  rewrite Hfinal in Hjoin. clearbody base ext.
  unfold probes in Hin. destruct Hin as [<-|Hin].
  { rewrite Hfinal. by apply stamp_app. }
  apply in_map_iff in Hin as (k & <- & _). unfold suffixed in *.
  assert (String.length ts = 19%nat) as Hlen
    by (by apply andb_true_iff in Hts as [_ ?%Nat.eqb_eq]).
  destruct (le_lt_dec (String.length ts) (String.length base)) as [Hle|Hlt].
  - destruct (app_prefix _ _ _ _ Hjoin Hle) as [b' ->].
    rewrite append_assoc. by apply stamp_app.
  - exfalso. destruct Hext as [->|(e & -> & Hdot)].
    + rewrite append_nil_r in Hjoin. subst base.
      rewrite length_app in Hlt. lia.
    + pose proof (app_split_char _ _ _ _ _ Hjoin ltac:(lia)) as Hus.
      cbn [str_all] in Hus.
      change (is_not "_" ".") with true in Hus. rewrite andb_true_l in Hus.
      replace (base ++ "_" ++ PyStr.of_nat k ++ String "." e)
        with ((base ++ "_" ++ PyStr.of_nat k) ++ String "." e) in Hel
        by (by rewrite !append_assoc).
      by rewrite underscore_after_last_dot_not_eligible in Hel.
Qed.


Lemma stamp_no_sep ts :
  well_formed_stamp ts = true -> str_all (is_not OsPath.sep) ts = true.
Proof.
  intros [Hm Hlen%Nat.eqb_eq]%andb_true_iff.
  pose proof (stamp_prefix_chars ts Hm) as Hc.
  rewrite <- Hlen in Hc.
  pose proof (take_app_length ts "") as Ht. rewrite append_nil_r in Ht.
  rewrite Ht in Hc. revert Hc. apply str_all_impl. intros a Ha.
  unfold is_not. destruct (Ascii.eqb_spec a OsPath.sep) as [->|_]; done.
Qed.

Lemma clean_name_part_keeps c name_part :
  (nat_of_ascii c <? 97)%nat = true ->
  PyStr.is_upper c = false ->
  str_all (is_not c) name_part = true ->
  str_all (is_not c) (clean_name_part name_part) = true.
Proof.
  intros Hc Hup H. unfold clean_name_part. cbv zeta.
  do 2 apply str_all_lstrip_char. do 2 apply str_all_remove_chars_keep.
  by rewrite str_all_is_not_lower.
Qed.

Lemma tentative_final_name_no_sep ts f :
  str_all (is_not OsPath.sep) ts = true ->
  str_all (is_not OsPath.sep) f = true ->
  str_all (is_not OsPath.sep) (tentative_final_name ts f) = true.
Proof.
  intros Hts Hf. unfold tentative_final_name.
  pose proof (splitext_join f) as Hjoin.
  destruct (OsPath.splitext f) as [name_part ext_part].
  cbn [fst snd] in Hjoin. rewrite <- Hjoin, str_all_app in Hf.
  apply andb_true_iff in Hf as [Hn He]. cbv zeta.
  rewrite !str_all_app, Hts. cbn [andb].
  apply andb_true_iff; split; [done|]. apply andb_true_iff; split.
  - unfold final_name_part.
    destruct (negb (PyStr.truthy (clean_name_part name_part))).
    + by destruct (PyStr.truthy _).
    + by apply clean_name_part_keeps.
  - unfold clean_ext_part. destruct (String.eqb _ _); [done|].
    by rewrite str_all_is_not_lower.
Qed.

Lemma probes_no_sep final n :
  str_all (is_not OsPath.sep) final = true ->
  In n (probes (fst (OsPath.splitext final)) (snd (OsPath.splitext final))
          final) ->
  str_all (is_not OsPath.sep) n = true.
Proof.
  intros Hf [<-|Hin]; [done|].
  apply in_map_iff in Hin as (k & <- & _). unfold suffixed.
  pose proof (splitext_join final) as Hjoin.
  rewrite <- Hjoin, str_all_app in Hf.
  apply andb_true_iff in Hf as [Hb He].
  rewrite !str_all_app, Hb, He. cbn [andb]. rewrite andb_true_r.
  apply (str_all_impl PyStr.is_digit); [|apply of_nat_digits].
  intros a Ha. by apply digit_is_not.
Qed.

Section Runs.

Variable P : platform.

(** How a name gets into the plan. *)
Lemma process_file_planned_probe args fs
    (seen : gmap string (string * date_source)) p n src :
  process_file P args fs seen p = Planned n src ->
  exists ino ts f,
    fs !! p = Some ino
    /\ resolve_date P args ino = Some (ts, src)
    /\ strip_stage (force args) ts (OsPath.basename p) = Proceed f
    /\ In n (probes (fst (OsPath.splitext (tentative_final_name ts f)))
               (snd (OsPath.splitext (tentative_final_name ts f)))
               (tentative_final_name ts f)).
Proof.
  unfold process_file.
  destruct (fs !! p) as [ino|]; [|done].
  destruct (negb (S_ISREG (st_mode ino))); [done|].
  destruct (negb (EXTENSIONS_search p)); [done|].
  destruct (resolve_date P args ino) as [[ts src']|] eqn:Hd; [|done].
  destruct (negb (PyStr.truthy ts)); [done|].
  unfold reconcile.
  destruct (strip_stage (force args) ts (OsPath.basename p)) as [f|o] eqn:Hs.
  - destruct (String.eqb _ _).
    + done.
    + rewrite resolve_unique_find.
      destruct (find _ _) as [q|] eqn:Hfind; [|done].
      apply find_some in Hfind as [Hin _].
      destruct (String.eqb q (OsPath.basename p)); [done|].
      intros [= -> ->]. exists ino, ts, f. repeat split; assumption.
  - apply strip_stage_stop_kinds in Hs.
    by destruct Hs as [->|[->| ->]].
Qed.

(** X12.  A file the scan has planned to rename is not renamed again by a
    later run without [-f] for which its date resolves to the same
    stamp: under its new name the later scan skips it as correctly
    stamped, or, in the case that the new name has no media extension any
    more, passes it over as not eligible. *)
Theorem renamed_file_not_renamed_again
    (args args' : arguments) (fs fs' : gmap string inode)
    (seen seen' : gmap string (string * date_source))
    (p n ts : string) (ino ino' : inode) (src src' : date_source) :
  fs !! p = Some ino ->
  resolve_date P args ino = Some (ts, src) ->
  well_formed_stamp ts = true ->
  process_file P args fs seen p = Planned n src ->
  force args' = false ->
  fs' !! n = Some ino' ->
  S_ISREG (st_mode ino') = true ->
  resolve_date P args' ino' = Some (ts, src') ->
  process_file P args' fs' seen' n
  = if EXTENSIONS_search n then SkippedCorrectStamp else NotEligible.
Proof.
  intros Hp Hdate Hts Hplanned Hforce Hn Hreg Hdate'.
  apply process_file_planned_probe in Hplanned
    as (ino0 & ts0 & f & Hp0 & Hdate0 & Hstage & Hin).
  rewrite Hp in Hp0. injection Hp0 as <-.
  rewrite Hdate in Hdate0. injection Hdate0 as <-.
  assert (OsPath.basename n = n) as Hbase.
  { apply basename_without_sep.
    apply (probes_no_sep (tentative_final_name ts f)); [|done].
    apply tentative_final_name_no_sep; [by apply stamp_no_sep|].
    apply (strip_stage_keeps _ _ _ _ _ Hstage), basename_no_sep. }
  unfold process_file. rewrite Hn, Hreg. cbn [negb].
  destruct (EXTENSIONS_search n) eqn:Hel; [|done]. cbn [negb].
  rewrite Hdate', (well_formed_stamp_truthy _ Hts). cbn [negb].
  destruct (probe_restamped ts f n Hts Hin Hel) as [Hm Htake].
  unfold reconcile, strip_stage.
  rewrite Hbase, Hm, Htake, String.eqb_refl, Hforce. done.
Qed.

End Runs.

End SecondRun.

(** The file a.jpg, renamed by a first run, in a second run. *)
Lemma renamed_file_second_run_example :
  process_file plain_platform no_flags
    (single_file "2023.05.06.07.08.09_a.jpg" 0x1A4 "2023.05.06.07.08.09")
    ∅ "2023.05.06.07.08.09_a.jpg"
  = SkippedCorrectStamp.
Proof.
  apply (renamed_file_not_renamed_again plain_platform no_flags no_flags
           (single_file "a.jpg" 0x1ED "2023.05.06.07.08.09")
           (single_file "2023.05.06.07.08.09_a.jpg" 0x1A4
              "2023.05.06.07.08.09")
           ∅ ∅ "a.jpg" "2023.05.06.07.08.09_a.jpg" "2023.05.06.07.08.09"
           (regular_file 0x1ED "2023.05.06.07.08.09")
           (regular_file 0x1A4 "2023.05.06.07.08.09")
           SrcCtimeDefault SrcCtimeDefault);
    by vm_compute.
Defined.

Section NoExecuteBits.

Variable P : platform.
Variable args : arguments.
Variable fs : gmap string inode.
(** Nothing is refused by [os.chmod]. *)
Hypothesis chmod_allowed : forall q, chmod_denied P q = false.

Lemma normalised_twice q ino :
  normalised P q (normalised P q ino) = normalised P q ino.
Proof.
  unfold normalised.
  destruct (S_ISREG (st_mode ino) && negb (chmod_denied P q)) eqn:E; [|by rewrite E].
  cbn [with_mode st_mode]. rewrite S_ISREG_clear_exec, E.
  apply with_mode_clear_twice.
Qed.

Lemma normalised_no_exec_bits q ino :
  S_ISREG (st_mode ino) = true ->
  Z.land (st_mode (normalised P q ino)) EXEC_BITS = 0.
Proof.
  intros Hreg. unfold normalised. rewrite Hreg, chmod_allowed.
  cbn [andb negb with_mode st_mode]. apply clear_exec_no_exec_bits.
Qed.

Lemma chmod_steps_normalised_keep paths rs p ino :
  disk rs !! p = Some (normalised P p ino) ->
  disk (fold_left (chmod_step P) paths rs) !! p = Some (normalised P p ino).
Proof.
  revert rs; induction paths as [|q paths IH]; intros rs Hp; [done|].
  cbn [fold_left]. apply IH. unfold chmod_step.
  destruct (path_exists (disk rs) q); [|done].
  destruct (decide (q = p)) as [->|Hne].
  - pose proof (try_remove_lookup_exact P (disk rs) p _ Hp) as Hl.
    rewrite normalised_twice in Hl.
    by destruct (try_remove_executable_bits P (disk rs) p).
  - pose proof (try_remove_lookup_ne P (disk rs) q p Hne) as Hl.
    destruct (try_remove_executable_bits P (disk rs) q).
    cbn [disk fst] in *. by rewrite Hl.
Qed.

Lemma chmod_steps_normalised paths rs p ino :
  p ∈ paths ->
  S_ISREG (st_mode ino) = true ->
  disk rs !! p = Some ino ->
  disk (fold_left (chmod_step P) paths rs) !! p = Some (normalised P p ino).
Proof.
  revert rs; induction paths as [|q paths IH]; intros rs Hin Hreg Hp.
  - by apply elem_of_nil in Hin.
  - cbn [fold_left]. destruct (decide (q = p)) as [->|Hne].
    + apply chmod_steps_normalised_keep. unfold chmod_step.
      rewrite (regular_exists (disk rs) p ino Hp Hreg).
      pose proof (try_remove_lookup_exact P (disk rs) p _ Hp) as Hl.
      by destruct (try_remove_executable_bits P (disk rs) p).
    + apply elem_of_cons in Hin as [->|Hin]; [done|].
      apply IH; [done|done|]. unfold chmod_step.
      destruct (path_exists (disk rs) q); [|done].
      pose proof (try_remove_lookup_ne P (disk rs) q p Hne) as Hl.
      destruct (try_remove_executable_bits P (disk rs) q).
      cbn [disk fst] in *. by rewrite Hl.
Qed.

(** X13.  When [os.chmod] refuses nothing, no listed eligible file is
    left with an execute bit: at the end of the run the file is under
    its own name or, if it was renamed, under the name the plan gave it,
    and its mode there is its old mode without the three execute
    bits. *)
Theorem no_execute_bit_left
    (listing : list string) (p : string) (ino : inode) :
  p ∈ listing ->
  fs !! p = Some ino ->
  eligible fs p = true ->
  exists q,
    (q = p \/ exists src, seen (scan P args fs listing) !! q = Some (p, src))
    /\ disk (snd (main P args fs listing)) !! q
       = Some (with_mode ino (Z.ldiff (st_mode ino) EXEC_BITS))
    /\ Z.land (Z.ldiff (st_mode ino) EXEC_BITS) EXEC_BITS = 0.
Proof.
  intros Hin Hp Hel.
  assert (S_ISREG (st_mode ino) = true) as Hreg.
  { unfold eligible, path_isfile in Hel. rewrite Hp in Hel.
    by apply andb_true_iff in Hel as [? _]. }
  assert (forall q, normalised P q ino
                    = with_mode ino (Z.ldiff (st_mode ino) EXEC_BITS))
    as Hnorm.
  { intros q. unfold normalised.
    by rewrite Hreg, chmod_allowed, clear_exec_ldiff. }
  assert (Z.land (Z.ldiff (st_mode ino) EXEC_BITS) EXEC_BITS = 0) as Hbits
    by (rewrite <- clear_exec_ldiff; apply clear_exec_no_exec_bits).
  destruct (main_file_kept P args fs listing p ino Hp
              (regular_exists fs p ino Hp Hreg))
    as [[Hnot _]|(q & src & Hq & _ & _ & Hat)].
  - exists p. split; [by left|]. split; [|done].
    rewrite <- (Hnorm p).
    revert Hnot. unfold main, chmod_phase. cbn [snd].
    set (st := scan P args fs listing).
    set (rs := rename_phase P (start_run fs st) (sorted_items (seen st))).
    destruct (chmod_steps_facts P
                (elements (final_paths_to_chmod_original rs)) rs)
      as (_ & _ & Hsucc & _).
    cbn zeta in Hsucc. rewrite Hsucc. intros Hnot.
    apply chmod_steps_normalised; [|done|].
    + apply elem_of_elements.
      by apply (listed_unrenamed_in_pass P args fs listing p).
    + destruct (rename_phase_of_scan P args fs listing)
        as ([Hkept _] & _ & _).
      fold st in Hkept. fold rs in Hkept.
      rewrite Hkept; [done| |done]. by apply (regular_exists fs p ino).
  - exists q. split; [right; by exists src|]. by rewrite Hat, Hnorm.
Qed.

End NoExecuteBits.

(** The picture of the mixed directory, mode 0755 before the run, is
    renamed and has mode 0644 after it. *)
Lemma no_execute_bit_left_example :
  exists q,
    (q = "b.jpg"
     \/ exists src,
          seen (scan plain_platform no_flags mixed_directory
                  ["album"; "b.jpg"; "notes.txt"]) !! q
          = Some ("b.jpg", src))
    /\ disk (snd (main plain_platform no_flags mixed_directory
                    ["album"; "b.jpg"; "notes.txt"])) !! q
       = Some (with_mode (regular_file 0x1ED "2023.05.06.07.08.09")
                 (Z.ldiff (st_mode (regular_file 0x1ED "2023.05.06.07.08.09"))
                    EXEC_BITS))
    /\ Z.land (Z.ldiff (st_mode (regular_file 0x1ED "2023.05.06.07.08.09"))
                 EXEC_BITS) EXEC_BITS = 0.
Proof.
  apply (no_execute_bit_left plain_platform no_flags mixed_directory
           (fun q => eq_refl) ["album"; "b.jpg"; "notes.txt"] "b.jpg").
  - apply (bool_decide_unpack _). by vm_compute.
  - by vm_compute.
  - by vm_compute.
Defined.

Section KeptExtension.

Lemma rfind_absent s c :
  str_all (is_not c) s = true -> PyStr.rfind s c = -1.
Proof.
  intros Hall. unfold PyStr.rfind.
  destruct (rfind_from_spec c s 0 (-1)) as [[-> _]|(_ & Hget & _)]; [done|].
  rewrite Z.sub_0_r in Hget. exfalso.
  revert Hget Hall. generalize (Z.to_nat (PyStr.rfind_from c s 0 (-1))).
  intros n. revert s. induction n as [|n IH]; intros [|a t]; cbn; try done.
  - intros [= ->]. unfold is_not. by rewrite Ascii.eqb_refl.
  - intros Hget [_ Ht]%andb_true_iff. by apply (IH t).
Qed.

Lemma get_take_drop n s c :
  String.get n s = Some c ->
  s = PyStr.take n s ++ String c (PyStr.drop (S n) s).
Proof.
  intros H. rewrite <- (drop_get _ _ _ H). symmetry. apply take_drop.
Qed.

Lemma drop_app_length (x y : string) : PyStr.drop (String.length x) (x ++ y) = y.
Proof. induction x as [|a x IH]; [done|]. by rewrite append_cons. Qed.

Lemma endswith_app (x y : string) : PyStr.endswith (x ++ y) y = true.
Proof.
  unfold PyStr.endswith. rewrite length_app.
  apply andb_true_iff. split; [apply Nat.leb_le; lia|].
  replace (String.length x + String.length y - String.length y)%nat
    with (String.length x) by lia.
  rewrite drop_app_length. apply String.eqb_refl.
Qed.

(** A suffix without the character [c] lies after the last [c]. *)
Lemma suffix_after_char c (x y u w : string) :
  x ++ String c y = u ++ w ->
  str_all (is_not c) w = true ->
  exists u', y = u' ++ w.
Proof.
  revert u; induction x as [|a x IH]; intros u Heq Hw.
  - rewrite append_nil_l in Heq. destruct u as [|b u].
    + rewrite append_nil_l in Heq. subst w. cbn [str_all] in Hw.
      unfold is_not at 1 in Hw. by rewrite Ascii.eqb_refl in Hw.
    + rewrite append_cons in Heq. injection Heq as _ ->. by exists u.
  - rewrite append_cons in Heq. destruct u as [|b u].
    + rewrite append_nil_l in Heq. subst w.
      cbn [str_all] in Hw. apply andb_true_iff in Hw as [_ Hw].
      rewrite str_all_app in Hw. apply andb_true_iff in Hw as [_ Hw].
      cbn [str_all] in Hw. unfold is_not at 1 in Hw.
      by rewrite Ascii.eqb_refl in Hw.
    + rewrite append_cons in Heq. injection Heq as _ Heq. by apply (IH u).
Qed.

(** The endings [EXTENSIONS] accepts: a period and one of the names,
    with or without a final newline. *)
Lemma extensions_search_ending name :
  EXTENSIONS_search name = true <->
  exists pre x, In x EXTENSION_NAMES
                /\ (PyStr.lower name = pre ++ String "." x
                    \/ PyStr.lower name = pre ++ String "." (x ++ newline)).
Proof.
  unfold EXTENSIONS_search. rewrite existsb_exists. split.
  - intros (x & Hin & [[pre Hp]%endswith_split|[pre Hp]%endswith_split]%orb_true_iff);
      exists pre, x; (split; [done|]); [by left|by right].
  - intros (pre & x & Hin & [Hp|Hp]); exists x; (split; [done|]);
      rewrite Hp; apply orb_true_iff; [left|right]; apply endswith_app.
Qed.

Lemma extension_names_lower x :
  In x EXTENSION_NAMES ->
  PyStr.lower x = x
  /\ PyStr.lower (x ++ newline) = x ++ newline
  /\ str_all (is_not OsPath.sep) (String "." (x ++ newline)) = true.
Proof.
  intros Hin.
  assert (forallb (fun x => String.eqb (PyStr.lower x) x
                            && String.eqb (PyStr.lower (x ++ newline))
                                 (x ++ newline)
                            && str_all (is_not OsPath.sep)
                                 (String "." (x ++ newline)))
            EXTENSION_NAMES = true)
    as Hall by (by vm_compute).
  rewrite forallb_forall in Hall. specialize (Hall x Hin).
  apply andb_true_iff in Hall as [[H1%String.eqb_eq H2%String.eqb_eq]%andb_true_iff H3].
  done.
Qed.

(** The split [os.path.splitext] makes of an eligible name that has no
    separator and does not begin with a period: the extension is the
    ending that makes the name eligible. *)
Lemma splitext_eligible name :
  EXTENSIONS_search name = true ->
  str_all (is_not OsPath.sep) name = true ->
  PyStr.startswith name "." = false ->
  exists e x,
    snd (OsPath.splitext name) = String "." e
    /\ In x EXTENSION_NAMES
    /\ (PyStr.lower e = x \/ PyStr.lower e = x ++ newline).
Proof.
  intros Hel Hsep Hstart.
  apply extensions_search_ending in Hel as (pre & x & Hin & Hlow).
  destruct (extension_names_chars x Hin) as [Hxd _].
  assert (str_all (is_not ".") x = true) as Hxd'.
  { rewrite str_all_app in Hxd. by apply andb_true_iff in Hxd as [? _]. }
  assert (exists x', PyStr.lower name = pre ++ String "." x'
                     /\ str_all (is_not ".") x' = true
                     /\ (x' = x \/ x' = x ++ newline))
    as (x' & Hlow' & Hx'd & Hx') by (destruct Hlow; eauto).
  clear Hlow.
  unfold OsPath.splitext. rewrite (rfind_absent name OsPath.sep Hsep).
  unfold PyStr.rfind.
  destruct (rfind_from_spec OsPath.extsep name 0 (-1))
    as [[_ Hnone]|(Hrange & Hget & Hafter)].
  { exfalso.
    rewrite <- (str_all_is_not_lower ".") in Hnone by (by vm_compute).
    rewrite Hlow', str_all_app in Hnone. cbn [str_all] in Hnone.
    by rewrite andb_false_r in Hnone. }
  set (r := PyStr.rfind_from OsPath.extsep name 0 (-1)) in *.
  rewrite Z.sub_0_r in Hget, Hafter.
  assert (r <> 0) as Hr.
  { intros Hz. rewrite Hz in Hget. destruct name as [|a t]; [done|].
    cbn in Hget, Hstart. injection Hget as ->. done. }
  assert ((-1 <? r) = true) as -> by (apply Z.ltb_lt; lia).
  assert (OsPath.skip_leading_dots (Z.to_nat (r - (-1 + 1))) name (-1 + 1)
          = true) as ->.
  { replace (Z.to_nat (r - (-1 + 1))) with (S (Z.to_nat (r - 1))) by lia.
    change (-1 + 1) with 0. cbn [OsPath.skip_leading_dots Z.to_nat].
    destruct name as [|a t]; [done|]. cbn [String.get].
    cbn in Hstart. rewrite andb_true_r in Hstart.
    change (Z.to_nat 0) with 0%nat. cbv iota.
    unfold OsPath.extsep. by rewrite Hstart. }
  cbn [andb snd]. rewrite (drop_get _ _ _ Hget).
  exists (PyStr.drop (S (Z.to_nat r)) name), x.
  split; [done|]. split; [done|].
  pose proof (get_take_drop _ _ _ Hget) as Hname.
  rewrite Hname, lower_app in Hlow'. cbn [PyStr.lower] in Hlow'.
  change (PyStr.lower_char OsPath.extsep) with "."%char in Hlow'.
  apply last_char_unique in Hlow'; [|by rewrite str_all_is_not_lower by done|done].
  rewrite Hlow'. done.
Qed.


Lemma eligible_with_ext (s e x : string) :
  In x EXTENSION_NAMES ->
  PyStr.lower e = x \/ PyStr.lower e = x ++ newline ->
  EXTENSIONS_search (s ++ clean_ext_part (String "." e)) = true.
Proof.
  intros Hin He. unfold clean_ext_part. cbn [PyStr.lower].
  change (PyStr.lower_char ".") with "."%char.
  destruct (extension_names_lower x Hin) as (Hx & Hxn & _).
  apply extensions_search_ending.
  destruct (String.eqb (String "." (PyStr.lower e)) ".jpeg").
  - exists (PyStr.lower s), "jpg". split; [|left; by rewrite lower_app].
    unfold EXTENSION_NAMES. cbn. tauto.
  - exists (PyStr.lower s), x. split; [done|].
    rewrite lower_app. cbn [PyStr.lower].
    change (PyStr.lower_char ".") with "."%char.
    destruct He as [->| ->]; [left; by rewrite Hx|right; by rewrite Hxn].
Qed.

Lemma candidate_eligible ts name :
  EXTENSIONS_search name = true ->
  str_all (is_not OsPath.sep) name = true ->
  PyStr.startswith name "." = false ->
  EXTENSIONS_search (tentative_final_name ts name) = true.
Proof.
  intros Hel Hsep Hstart.
  destruct (splitext_eligible name Hel Hsep Hstart) as (e & x & He & Hin & Hx).
  unfold tentative_final_name.
  destruct (OsPath.splitext name) as [name_part ext_part].
  cbn [snd] in He. subst ext_part. cbv zeta.
  rewrite <- !append_assoc. by apply (eligible_with_ext _ e x).
Qed.

Lemma probes_eligible final n :
  EXTENSIONS_search final = true ->
  str_all (is_not OsPath.sep) final = true ->
  PyStr.startswith final "." = false ->
  In n (probes (fst (OsPath.splitext final)) (snd (OsPath.splitext final))
          final) ->
  EXTENSIONS_search n = true.
Proof.
  intros Hel Hsep Hstart [<-|Hin]; [done|].
  apply in_map_iff in Hin as (k & <- & _). unfold suffixed.
  destruct (splitext_eligible final Hel Hsep Hstart)
    as (e & x & -> & Hin & Hx).
  destruct (extension_names_lower x Hin) as (Hlx & Hlxn & _).
  apply extensions_search_ending.
  exists (PyStr.lower (fst (OsPath.splitext final) ++ "_" ++ PyStr.of_nat k)),
    x.
  split; [done|].
  replace (fst (OsPath.splitext final) ++ "_" ++ PyStr.of_nat k
           ++ String "." e)
    with ((fst (OsPath.splitext final) ++ "_" ++ PyStr.of_nat k)
          ++ String "." e) by (by rewrite !append_assoc).
  rewrite lower_app. cbn [PyStr.lower].
  change (PyStr.lower_char ".") with "."%char.
  destruct Hx as [->| ->]; [by left|by right].
Qed.

Lemma stamp_not_dot ts r :
  well_formed_stamp ts = true -> PyStr.startswith (ts ++ r) "." = false.
Proof.
  intros [Hm _]%andb_true_iff. destruct ts as [|a t]; [done|].
  cbn in Hm. apply andb_true_iff in Hm as [Ha _].
  rewrite append_cons. cbn. rewrite andb_true_r.
  destruct (Ascii.eqb_spec a ".") as [->|_]; done.
Qed.

Lemma basename_eligible p :
  EXTENSIONS_search p = true -> EXTENSIONS_search (OsPath.basename p) = true.
Proof.
  intros Hel. unfold OsPath.basename, PyStr.rfind.
  destruct (rfind_from_spec OsPath.sep p 0 (-1))
    as [[-> _]|(Hrange & Hget & _)]; [done|].
  set (r := PyStr.rfind_from OsPath.sep p 0 (-1)) in *.
  rewrite Z.sub_0_r in Hget.
  replace (Z.to_nat (r + 1)) with (S (Z.to_nat r)) by lia.
  pose proof (get_take_drop _ _ _ Hget) as Hp.
  apply extensions_search_ending in Hel as (pre & x & Hin & Hlow).
  destruct (extension_names_lower x Hin) as (_ & _ & Hnosep).
  apply extensions_search_ending.
  rewrite Hp, lower_app in Hlow. cbn [PyStr.lower] in Hlow.
  change (PyStr.lower_char OsPath.sep) with OsPath.sep in Hlow.
  cbn [str_all] in Hnosep. rewrite str_all_app in Hnosep.
  apply andb_true_iff in Hnosep as [Hdot [Hx Hnl]%andb_true_iff].
  destruct Hlow as [Hlow|Hlow].
  - apply suffix_after_char in Hlow as [u Hu].
    + exists u, x. split; [done|]. rewrite Hu. by left.
    + cbn [str_all]. by rewrite Hdot, Hx.
  - apply suffix_after_char in Hlow as [u Hu].
    + exists u, x. split; [done|]. rewrite Hu. by right.
    + cbn [str_all]. by rewrite Hdot, str_all_app, Hx, Hnl.
Qed.

Section Runs.

Variable P : platform.

(** What the scan without [-f] makes of a regular file whose name has a
    media extension and begins with the stamp its date resolves to. *)
Lemma stamped_file_skipped args fs
    (seen : gmap string (string * date_source)) n ts ino src :
  force args = false ->
  fs !! n = Some ino ->
  S_ISREG (st_mode ino) = true ->
  resolve_date P args ino = Some (ts, src) ->
  well_formed_stamp ts = true ->
  OsPath.basename n = n ->
  EXTENSIONS_search n = true ->
  STANDALONE_DATE_STAMP_REGEX_match n = true ->
  PyStr.take DATE_STAMP_LENGTH n = ts ->
  process_file P args fs seen n = SkippedCorrectStamp.
Proof.
  intros Hforce Hn Hreg Hdate Hts Hbase Hel Hm Htake.
  unfold process_file. rewrite Hn, Hreg, Hel. cbn [negb].
  rewrite Hdate, (well_formed_stamp_truthy _ Hts). cbn [negb].
  unfold reconcile, strip_stage.
  rewrite Hbase, Hm, Htake, String.eqb_refl, Hforce. done.
Qed.

(** X14.  A file whose name does not begin with a stamp or a period
    keeps a media extension when the scan plans its renaming, whether it
    gets the candidate name or one of the numbered variants: the new
    name is eligible again and begins with the stamp, so that a later
    run without [-f] for which the date resolves to the same stamp skips
    the file as correctly stamped. *)
Theorem plain_file_renamed_once
    (args args' : arguments) (fs fs' : gmap string inode)
    (seen seen' : gmap string (string * date_source))
    (p n ts : string) (ino ino' : inode) (src src' : date_source) :
  fs !! p = Some ino ->
  resolve_date P args ino = Some (ts, src) ->
  well_formed_stamp ts = true ->
  STANDALONE_DATE_STAMP_REGEX_match (OsPath.basename p) = false ->
  PyStr.startswith (OsPath.basename p) "." = false ->
  process_file P args fs seen p = Planned n src ->
  EXTENSIONS_search n = true
  /\ PyStr.take DATE_STAMP_LENGTH n = ts
  /\ (force args' = false ->
      fs' !! n = Some ino' ->
      S_ISREG (st_mode ino') = true ->
      resolve_date P args' ino' = Some (ts, src') ->
      process_file P args' fs' seen' n = SkippedCorrectStamp).
Proof.
  intros Hp Hdate Hts Hplain Hdot Hplanned.
  pose proof (process_file_eligible P args fs seen p) as Helig.
  rewrite Hplanned in Helig. cbn [is_eligible] in Helig. symmetry in Helig.
  unfold eligible in Helig. apply andb_true_iff in Helig as [_ Hel].
  apply basename_eligible in Hel.
  apply process_file_planned_probe in Hplanned
    as (ino0 & ts0 & f & Hp0 & Hdate0 & Hstage & Hin).
  rewrite Hp in Hp0. injection Hp0 as <-.
  rewrite Hdate in Hdate0. injection Hdate0 as <-.
  assert (f = OsPath.basename p) as ->.
  { revert Hstage. unfold strip_stage. rewrite Hplain.
    destruct (_ && _); [done|]. by intros [= <-]. }
  pose proof (basename_no_sep p) as Hsep.
  pose proof (candidate_eligible ts _ Hel Hsep Hdot) as Hfinal.
  pose proof (tentative_final_name_no_sep ts _ (stamp_no_sep _ Hts) Hsep)
    as Hfsep.
  assert (EXTENSIONS_search n = true) as Hn.
  { apply (probes_eligible (tentative_final_name ts (OsPath.basename p)));
      try done.
    destruct (tentative_final_name_prefix ts (OsPath.basename p))
      as [rest ->]. by apply stamp_not_dot. }
  destruct (probe_restamped ts _ n Hts Hin Hn) as [Hm Htake].
  split; [done|]. split; [done|].
  intros Hforce Hn' Hreg Hdate'.
  apply (stamped_file_skipped args' fs' seen' n ts ino' src'); try done.
  apply basename_without_sep. by apply (probes_no_sep _ _ Hfsep).
Qed.

End Runs.

End KeptExtension.

(** The picture A.JPG of the example directory, whose candidate name is
    taken, gets the second numbered variant and keeps its extension. *)
Lemma plain_file_renamed_once_example :
  EXTENSIONS_search "2023.05.06.07.08.09_a_2.jpg" = true
  /\ PyStr.take DATE_STAMP_LENGTH "2023.05.06.07.08.09_a_2.jpg"
     = "2023.05.06.07.08.09".
Proof.
  destruct (plain_file_renamed_once plain_platform no_flags no_flags
              same_candidate_directory same_candidate_directory
              {[ "2023.05.06.07.08.09_a.jpg" := ("a.jpg", SrcCtimeDefault) ]}
              ∅ "A.JPG" "2023.05.06.07.08.09_a_2.jpg" "2023.05.06.07.08.09"
              (regular_file 0x1A4 "2023.05.06.07.08.09")
              (regular_file 0x1A4 "2023.05.06.07.08.09")
              SrcCtimeDefault SrcCtimeDefault
              ltac:(by vm_compute) ltac:(by vm_compute) ltac:(by vm_compute)
              ltac:(by vm_compute) ltac:(by vm_compute) ltac:(by vm_compute))
    as (H1 & H2 & _).
  done.
Defined.

Section AdjustedCount.

Variable P : platform.
Variable args : arguments.
Variable fs : gmap string inode.
(** Nothing is refused by [os.chmod]. *)
Hypothesis chmod_allowed : forall q, chmod_denied P q = false.

Let with_bit (p : string) : Prop := has_execute_bit fs p = true.

Lemma try_remove_flag (d : gmap string inode) q ino :
  d !! q = Some ino ->
  snd (try_remove_executable_bits P d q)
  = S_ISREG (st_mode ino) && negb (Z.land (st_mode ino) EXEC_BITS =? 0).
Proof.
  intros Hq. unfold try_remove_executable_bits. rewrite Hq.
  destruct (S_ISREG (st_mode ino)); cbn [negb andb]; [|done].
  destruct (Z.eqb_spec (clear_exec (st_mode ino)) (st_mode ino)) as [He|He];
    cbn [negb].
  - apply clear_exec_fixed in He. by rewrite He.
  - rewrite chmod_allowed. cbn [snd].
    destruct (Z.eqb_spec (Z.land (st_mode ino) EXEC_BITS) 0) as [Hz|_];
      [|done].
    by apply clear_exec_fixed in Hz.
Qed.

Lemma size_filter_add (X : gset string) p :
  p ∉ X ->
  size (filter with_bit ({[p]} ∪ X))
  = bump (has_execute_bit fs p) (size (filter with_bit X)).
Proof.
  intros Hp. rewrite filter_union_L by apply _. rewrite size_union.
  - rewrite filter_singleton_L by apply _.
    destruct (decide (with_bit p)) as [Hb|Hb]; unfold with_bit in Hb.
    + by rewrite Hb, size_singleton.
    + apply not_true_is_false in Hb. by rewrite Hb, size_empty.
  - intros q [_ Hq%elem_of_singleton]%elem_of_filter [_ Hq']%elem_of_filter.
    by subst q.
Qed.

(** The counter after the rename loop: the renamed originals that had
    an execute bit. *)
Lemma rename_phase_adjusted plan rs :
  (forall item, item ∈ plan ->
     path_exists fs (fst item) = false
     /\ path_exists fs (fst (snd item)) = true) ->
  rename_invariant fs rs ->
  (forall p, p ∈ successfully_renamed_original_paths rs ->
             path_exists fs p = true -> disk rs !! p = None) ->
  total_permissions_adjusted rs
  = size (filter with_bit (successfully_renamed_original_paths rs)) ->
  let rs' := rename_phase P rs plan in
  total_permissions_adjusted rs'
  = size (filter with_bit (successfully_renamed_original_paths rs')).
Proof.
  revert rs; induction plan as [|[n [old src]] plan IH];
    intros rs Hplan Hinv Hgone Htotal; [done|].
  cbv zeta. cbn [rename_phase fold_left].
  change (fold_left (rename_step P) plan ?s) with (rename_phase P s plan).
  destruct (Hplan (n, (old, src)) ltac:(by apply elem_of_cons; left))
    as [Hfree Hold]. cbn [fst snd] in Hfree, Hold.
  pose proof (exists_differs fs old n Hold Hfree) as Hon.
  apply IH.
  - intros it Hit. apply Hplan. by apply elem_of_cons; right.
  - by apply rename_step_invariant.
  - unfold rename_step, os_rename.
    destruct (disk rs !! old) as [ino0|] eqn:Hd;
      [destruct (rename_denied P old n)|]; try done.
    pose proof (try_remove_lookup_ne P (<[n:=ino0]> (delete old (disk rs))) n)
      as Hne.
    destruct (try_remove_executable_bits P _ n) as [fs'' adjusted].
    cbn [fst successfully_renamed_original_paths disk] in *.
    intros p Hp Hfs.
    pose proof (exists_differs fs p n Hfs Hfree) as Hpn.
    rewrite Hne, lookup_insert_ne by done.
    apply elem_of_union in Hp as [->%elem_of_singleton|Hp].
    + apply lookup_delete_eq.
    + destruct (decide (old = p)) as [->|Hop]; [apply lookup_delete_eq|].
      rewrite lookup_delete_ne by done. by apply Hgone.
  - unfold rename_step, os_rename.
    destruct (disk rs !! old) as [ino0|] eqn:Hd;
      [destruct (rename_denied P old n)|]; try done.
    assert (old ∉ successfully_renamed_original_paths rs) as Hnot.
    { intros Hin. by rewrite (Hgone old Hin Hold) in Hd. }
    assert (fs !! old = Some ino0) as Hfs
      by (by rewrite <- (rinv_kept _ _ Hinv old Hold Hnot)).
    pose proof (try_remove_flag (<[n:=ino0]> (delete old (disk rs))) n ino0
                  (lookup_insert_eq _ _ _)) as Hflag.
    destruct (try_remove_executable_bits P _ n) as [fs'' adjusted].
    cbn [snd successfully_renamed_original_paths
         total_permissions_adjusted] in *.
    rewrite size_filter_add by done. rewrite Htotal. f_equal.
    unfold has_execute_bit. by rewrite Hfs.
Qed.

(** The counter after the permission pass over paths that are as the
    scan saw them. *)
Lemma chmod_steps_adjusted paths rs :
  NoDup paths ->
  (forall p, p ∈ paths ->
             path_exists fs p = true /\ disk rs !! p = fs !! p) ->
  total_permissions_adjusted (fold_left (chmod_step P) paths rs)
  = (total_permissions_adjusted rs
     + size (filter with_bit (list_to_set paths : gset string)))%nat.
Proof.
  revert rs; induction paths as [|p paths IH]; intros rs Hnd Hpaths.
  - cbn [fold_left list_to_set]. rewrite filter_empty_L by apply _.
    rewrite size_empty. lia.
  - apply NoDup_cons in Hnd as [Hp Hnd].
    destruct (Hpaths p ltac:(by apply elem_of_cons; left)) as [Hex Hd].
    destruct (path_exists_is_Some fs p Hex) as [ino Hfs].
    rewrite Hfs in Hd.
    cbn [fold_left list_to_set]. rewrite IH; [|done|].
    + rewrite size_filter_add by (by rewrite elem_of_list_to_set).
      unfold chmod_step.
      assert (path_exists (disk rs) p = true) as ->
        by (unfold path_exists in *; rewrite Hd; by rewrite Hfs in Hex).
      pose proof (try_remove_flag (disk rs) p ino Hd) as Hflag.
      destruct (try_remove_executable_bits P (disk rs) p) as [fs' adjusted].
      cbn [snd total_permissions_adjusted] in *.
      unfold has_execute_bit. rewrite Hfs, <- Hflag.
      destruct adjusted; cbn [bump]; lia.
    + intros q Hq.
      destruct (Hpaths q ltac:(by apply elem_of_cons; right)) as [Hqfs Hqd].
      split; [done|]. rewrite <- Hqd. unfold chmod_step.
      destruct (path_exists (disk rs) p); [|done].
      assert (p <> q) as Hpq by (intros ->; done).
      pose proof (try_remove_lookup_ne P (disk rs) p q Hpq) as Hl.
      by destruct (try_remove_executable_bits P (disk rs) p).
Qed.

Lemma scan_from_not_renamed_listed st listing p :
  p ∈ eligible_files_not_renamed_paths (scan_from P args fs st listing) ->
  p ∈ eligible_files_not_renamed_paths st \/ p ∈ listing.
Proof.
  revert st; induction listing as [|q listing IH]; intros st Hp; [by left|].
  cbn [scan_from fold_left] in Hp. apply IH in Hp as [Hp|Hp].
  - apply scan_step_not_renamed in Hp.
    apply elem_of_union in Hp as [->%elem_of_singleton|Hp]; [|by left].
    right. by apply elem_of_cons; left.
  - right. by apply elem_of_cons; right.
Qed.

Lemma plan_source_listed listing n old src :
  seen (scan P args fs listing) !! n = Some (old, src) -> old ∈ listing.
Proof.
  intros Hn. pose proof (scan_has_invariant P args fs listing) as Hinv.
  destruct (inv_fresh _ _ _ _ Hinv _ _ Hn) as [_ Hh]. cbn [fst snd] in Hh.
  pose proof (scan_from_history P args fs initial_scan_state listing) as Hl.
  fold (scan P args fs listing) in Hl.
  cbn [history initial_scan_state map app] in Hl. rewrite <- Hl.
  change (map fst ?l) with (fst <$> l).
  apply list_elem_of_fmap. by exists (old, Planned n src).
Qed.

(** The files the run deals with are the listed eligible ones. *)
Lemma handled_files listing :
  let st := scan P args fs listing in
  let rs := rename_phase P (start_run fs st) (sorted_items (seen st)) in
  successfully_renamed_original_paths rs ∪ final_paths_to_chmod_original rs
  = eligible_listed fs listing.
Proof.
  intros st rs. apply set_eq. intros p.
  unfold eligible_listed, final_paths_to_chmod_original.
  rewrite elem_of_list_to_set, list_elem_of_In, filter_In, <- list_elem_of_In.
  rewrite elem_of_union, elem_of_difference.
  assert (forall q, (exists item, item ∈ sorted_items (seen st)
                                  /\ fst (snd item) = q) ->
                    q ∈ listing /\ eligible fs q = true) as Hsrc.
  { intros q ([n [old src]] & Hit%elem_of_sorted_items & Heq).
    cbn [fst snd] in Heq. subst old. split.
    - by apply (plan_source_listed listing n q src).
    - by destruct (plan_entry_facts P args fs listing n q src Hit). }
  split.
  - intros [Hin|[Hin _]].
    + apply rename_phase_sources in Hin as [Hin|Hin]; [|by apply Hsrc].
      by apply elem_of_empty in Hin.
    + apply rename_phase_not_renamed in Hin as [Hin|Hin]; [|by apply Hsrc].
      split; [|by apply (not_renamed_eligible P args fs listing)].
      apply scan_from_not_renamed_listed in Hin as [Hin|Hin]; [|done].
      by apply elem_of_empty in Hin.
  - intros [Hin Hel].
    destruct (decide (p ∈ successfully_renamed_original_paths rs))
      as [Hs|Hs]; [by left|right].
    split; [|done].
    pose proof (listed_unrenamed_in_pass P args fs listing p Hin Hel Hs) as Hf.
    by apply elem_of_difference in Hf as [? _].
Qed.

(** X15.  When [os.chmod] refuses nothing, the number of adjusted
    permissions the summary reports is the number of listed eligible
    files that had an execute bit before the run, each counted once,
    whether the file was renamed or not. *)
Theorem permissions_adjusted_count (listing : list string) :
  total_permissions_adjusted (snd (main P args fs listing))
  = size (filter (fun p => has_execute_bit fs p = true)
            (eligible_listed fs listing)).
Proof.
  rewrite <- handled_files. unfold main, chmod_phase. cbn [snd].
  set (st := scan P args fs listing).
  set (rs := rename_phase P (start_run fs st) (sorted_items (seen st))).
  assert (total_permissions_adjusted rs
          = size (filter with_bit (successfully_renamed_original_paths rs)))
    as Hrs.
  { apply (rename_phase_adjusted (sorted_items (seen st)) (start_run fs st)).
    - intros [n [old src]] Hit. cbn [fst snd].
      split; [by apply (plan_targets P args fs listing n old src)|].
      by apply (plan_sources P args fs listing n old src).
    - split; [done|]. by intros p ?%elem_of_nil.
    - by intros p ?%elem_of_empty.
    - cbn. rewrite filter_empty_L by apply _. by rewrite size_empty. }
  rewrite chmod_steps_adjusted.
  - rewrite list_to_set_elements_L, Hrs. rewrite filter_union_L by apply _.
    rewrite size_union; [done|].
    intros p [_ Hs]%elem_of_filter [_ Hf]%elem_of_filter.
    by apply elem_of_difference in Hf as [_ ?].
  - apply NoDup_elements.
  - intros p Hp%elem_of_elements.
    pose proof (final_paths_on_disk P args fs listing p Hp) as Hfs.
    split; [done|].
    destruct (rename_phase_of_scan P args fs listing) as ([Hkept _] & _ & _).
    apply Hkept; [done|]. by apply elem_of_difference in Hp as [_ ?].
Qed.

End AdjustedCount.

(** In the mixed directory the picture is the one eligible file, and it
    has execute bits. *)
Lemma permissions_adjusted_example :
  total_permissions_adjusted
    (snd (main plain_platform no_flags mixed_directory
            ["album"; "b.jpg"; "notes.txt"]))
  = size (filter (fun p => has_execute_bit mixed_directory p = true)
            (eligible_listed mixed_directory ["album"; "b.jpg"; "notes.txt"])).
Proof.
  apply (permissions_adjusted_count plain_platform no_flags mixed_directory
           (fun q => eq_refl)).
Defined.

Section NormalForm.

Lemma lower_not_upper s : str_all not_upper s = true -> PyStr.lower s = s.
Proof.
  induction s as [|a t IH]; [done|]. cbn [str_all PyStr.lower].
  intros [Ha Ht]%andb_true_iff. rewrite (IH Ht). f_equal.
  unfold not_upper in Ha. apply negb_true_iff in Ha.
  unfold PyStr.lower_char. by rewrite Ha.
Qed.

Lemma remove_chars_none cls s :
  str_all (fun a => negb (cls a)) s = true -> PyStr.remove_chars cls s = s.
Proof.
  induction s as [|a t IH]; [done|]. cbn [str_all PyStr.remove_chars].
  intros [Ha%negb_true_iff Ht]%andb_true_iff. by rewrite Ha, (IH Ht).
Qed.

Lemma lstrip_char_none c s :
  PyStr.startswith s (String c "") = false -> PyStr.lstrip_char c s = s.
Proof.
  destruct s as [|a t]; [done|]. cbn. rewrite andb_true_r. by intros ->.
Qed.

Lemma clean_name_part_fixed stem :
  str_all clean_char stem = true ->
  PyStr.startswith stem "_" = false ->
  PyStr.startswith stem "." = false ->
  clean_name_part stem = stem.
Proof.
  intros Hc Hu Hd. unfold clean_name_part. cbv zeta.
  unfold clean_char in Hc. rewrite !str_all_and in Hc.
  apply andb_true_iff in Hc as [[Hb Hs]%andb_true_iff Hup].
  rewrite (lower_not_upper stem) by done.
  rewrite (remove_chars_none is_bracket) by done.
  rewrite (remove_chars_none is_space_comma_plus_amp) by done.
  rewrite (lstrip_char_none "_") by done.
  by rewrite (lstrip_char_none ".").
Qed.

Lemma append_cancel_r (x y z : string) : x ++ z = y ++ z -> x = y.
Proof.
  revert y; induction x as [|a x IH]; intros [|b y] H.
  - done.
  - exfalso. rewrite append_nil_l in H.
    assert (String.length z = String.length (String b y ++ z)) as Hl
      by (by rewrite <- H).
    rewrite length_app in Hl. cbn [String.length] in Hl. lia.
  - exfalso. rewrite append_nil_l in H.
    assert (String.length (String a x ++ z) = String.length z) as Hl
      by (by rewrite H).
    rewrite length_app in Hl. cbn [String.length] in Hl. lia.
  - rewrite !append_cons in H. injection H as -> H. f_equal. by apply IH.
Qed.

(** [os.path.splitext] undoes the joining of a stem and an extension. *)
Lemma splitext_app stem e :
  stem <> "" ->
  PyStr.startswith stem "." = false ->
  str_all (is_not OsPath.sep) stem = true ->
  str_all (is_not OsPath.sep) e = true ->
  str_all (is_not ".") e = true ->
  OsPath.splitext (stem ++ String "." e) = (stem, String "." e).
Proof.
  intros Hne Hstart Hsep Hesep Hedot.
  set (name := stem ++ String "." e).
  assert (str_all (is_not OsPath.sep) name = true) as Hnsep.
  { unfold name. rewrite str_all_app, Hsep. cbn [str_all andb].
    by rewrite Hesep. }
  unfold OsPath.splitext. rewrite (rfind_absent name OsPath.sep Hnsep).
  unfold PyStr.rfind.
  destruct (rfind_from_spec OsPath.extsep name 0 (-1))
    as [[_ Hnone]|(Hrange & Hget & Hafter)].
  { exfalso. unfold name in Hnone. rewrite str_all_app in Hnone.
    cbn [str_all] in Hnone. by rewrite andb_false_r in Hnone. }
  set (r := PyStr.rfind_from OsPath.extsep name 0 (-1)) in *.
  rewrite Z.sub_0_r in Hget, Hafter.
  pose proof (get_take_drop _ _ _ Hget) as Hname.
  assert (PyStr.drop (S (Z.to_nat r)) name = e) as He.
  { symmetry.
    apply (last_char_unique "." stem e (PyStr.take (Z.to_nat r) name));
      [exact Hname|done|done]. }
  assert (PyStr.take (Z.to_nat r) name = stem) as Hs.
  { apply (append_cancel_r _ _ (String "." e)).
    pose proof Hname as Hname'. rewrite He in Hname'. symmetry.
    exact Hname'. }
  assert (r <> 0) as Hr.
  { intros Hz. rewrite Hz in Hs. cbn in Hs. by rewrite <- Hs in Hne. }
  assert ((-1 <? r) = true) as -> by (apply Z.ltb_lt; lia).
  assert (OsPath.skip_leading_dots (Z.to_nat (r - (-1 + 1))) name (-1 + 1)
          = true) as ->.
  { replace (Z.to_nat (r - (-1 + 1))) with (S (Z.to_nat (r - 1))) by lia.
    change (-1 + 1) with 0. cbn [OsPath.skip_leading_dots Z.to_nat].
    unfold name. destruct stem as [|a t]; [done|]. rewrite append_cons.
    cbn [String.get]. change (Z.to_nat 0) with 0%nat. cbv iota.
    cbn in Hstart. rewrite andb_true_r in Hstart.
    unfold OsPath.extsep. by rewrite Hstart. }
  cbn [andb]. rewrite Hs, (drop_get _ _ _ Hget), He. done.
Qed.

Lemma strip_one_stamp_app ts r :
  well_formed_stamp ts = true ->
  strip_one_stamp (ts ++ "_" ++ r) = r.
Proof.
  intros [_ Hlen%Nat.eqb_eq]%andb_true_iff. unfold strip_one_stamp.
  cbv zeta. rewrite <- Hlen, drop_app_length. done.
Qed.

(** X16.  A name in the form the normalisation produces is a fixed point
    of a forced run: for a stem that is clean, is not empty and begins
    with neither an underscore nor a period, and an extension in lower
    case other than [.jpeg], the file named stamp, underscore, stem and
    extension is taken apart and put together again to the same name,
    and the scan with [-f] skips it as needing no change. *)
Theorem normal_name_is_fixed_point (ts stem e : string) :
  well_formed_stamp ts = true ->
  stem <> "" ->
  str_all clean_char stem = true ->
  PyStr.startswith stem "_" = false ->
  PyStr.startswith stem "." = false ->
  str_all (is_not OsPath.sep) stem = true ->
  str_all (is_not OsPath.sep) e = true ->
  str_all (is_not ".") e = true ->
  str_all not_upper e = true ->
  e <> "jpeg" ->
  strip_stage true ts (ts ++ "_" ++ stem ++ String "." e)
  = Proceed (stem ++ String "." e)
  /\ tentative_final_name ts (stem ++ String "." e)
     = ts ++ "_" ++ stem ++ String "." e
  /\ reconcile true ts (ts ++ "_" ++ stem ++ String "." e)
     = Stop SkippedNoChange.
Proof.
  intros Hts Hne Hclean Hus Hdot Hsep Hesep Hedot Hup Hjpeg.
  assert (strip_stage true ts (ts ++ "_" ++ stem ++ String "." e)
          = Proceed (stem ++ String "." e)) as Hstage.
  { unfold strip_stage.
    destruct (stamp_app ts ("_" ++ stem ++ String "." e) Hts) as [-> ->].
    rewrite String.eqb_refl. cbn [negb].
    rewrite (strip_one_stamp_app ts _ Hts).
    apply check_stripped_proceeds. by destruct stem. }
  assert (tentative_final_name ts (stem ++ String "." e)
          = ts ++ "_" ++ stem ++ String "." e) as Hname.
  { unfold tentative_final_name. rewrite splitext_app by done. cbv zeta.
    rewrite clean_name_part_fixed by done.
    assert (clean_ext_part (String "." e) = String "." e) as ->.
    { unfold clean_ext_part.
      rewrite (lower_not_upper (String "." e))
        by (cbn [str_all]; by rewrite Hup).
      destruct (String.eqb_spec (String "." e) ".jpeg") as [Heq|_]; [|done].
      by injection Heq. }
    unfold final_name_part. by destruct stem. }
  split; [done|]. split; [done|].
  unfold reconcile. by rewrite Hstage, Hname, String.eqb_refl.
Qed.

End NormalForm.

(** The name a first run gives to a.jpg. *)
Lemma normal_name_example :
  reconcile true "2023.05.06.07.08.09" "2023.05.06.07.08.09_a.jpg"
  = Stop SkippedNoChange.
Proof.
  apply (normal_name_is_fixed_point "2023.05.06.07.08.09" "a" "jpg");
    by vm_compute.
Defined.

Section StaleStamp.

Variable P : platform.
Variable args : arguments.
Variable fs : gmap string inode.

(** The scan never takes an entry out of the plan nor gives a key
    another source. *)
Lemma scan_from_seen_kept st listing n v :
  seen st !! n = Some v ->
  seen (scan_from P args fs st listing) !! n = Some v.
Proof.
  revert st; induction listing as [|p listing IH]; intros st Hn; [done|].
  cbn [scan_from fold_left]. apply IH. unfold scan_step.
  pose proof (process_file_planned P args fs (seen st) p) as Hplanned.
  destruct (process_file P args fs (seen st) p);
    cbn [record_outcome seen]; try done.
  destruct (Hplanned _ _ eq_refl) as (Hfree & _ & _).
  rewrite lookup_insert_ne; [done|]. intros ->. by rewrite Hfree in Hn.
Qed.

(** An entry of the plan whose rename is not refused is carried out. *)
Lemma rename_phase_item_succeeds plan rs n old src :
  (forall item, item ∈ plan -> path_exists fs (fst item) = false) ->
  rename_invariant fs rs ->
  (n, (old, src)) ∈ plan ->
  path_exists fs old = true ->
  rename_denied P old n = false ->
  old ∈ successfully_renamed_original_paths (rename_phase P rs plan).
Proof.
  revert rs; induction plan as [|item plan IH];
    intros rs Hplan Hinv Hin Hex Hallowed; [by apply elem_of_nil in Hin|].
  cbn [rename_phase fold_left].
  change (fold_left (rename_step P) plan ?s) with (rename_phase P s plan).
  assert (forall it, it ∈ plan -> path_exists fs (fst it) = false) as Hrest
    by (intros it Hit; apply Hplan; by apply elem_of_cons; right).
  assert (rename_invariant fs (rename_step P rs item)) as Hinv'.
  { destruct item as [m [o s]]. apply rename_step_invariant; [|done].
    apply (Hplan (m, (o, s))). by apply elem_of_cons; left. }
  apply elem_of_cons in Hin as [<-|Hin]; [|by apply IH].
  destruct (rename_phase_facts P fs plan (rename_step P rs (n, (old, src)))
              Hrest Hinv') as (_ & _ & Hmono & _).
  apply Hmono. unfold rename_step, os_rename.
  destruct (decide (old ∈ successfully_renamed_original_paths rs))
    as [Hdone|Hnot].
  - destruct (disk rs !! old); [rewrite Hallowed|]; [|done].
    destruct (try_remove_executable_bits P _ n).
    cbn [successfully_renamed_original_paths]. apply elem_of_union. by right.
  - rewrite (rinv_kept _ _ Hinv old Hex Hnot).
    destruct (path_exists_is_Some fs old Hex) as [ino ->].
    rewrite Hallowed. destruct (try_remove_executable_bits P _ n).
    cbn [successfully_renamed_original_paths]. apply elem_of_union. left.
    by apply elem_of_singleton.
Qed.

(** A file the scan plans under the name [n] while the listing names it
    once, and whose rename is not refused, is under that name at the end
    of the run. *)
Lemma planned_file_renamed before after path n src ino :
  NoDup (before ++ path :: after)%list ->
  fs !! path = Some ino ->
  process_file P args fs (seen (scan P args fs before)) path
  = Planned n src ->
  rename_denied P path n = false ->
  let listing := (before ++ path :: after)%list in
  seen (scan P args fs listing) !! n = Some (path, src)
  /\ (path ∈ successfully_renamed_original_paths
              (snd (main P args fs listing)))
  /\ disk (snd (main P args fs listing)) !! path = None
  /\ disk (snd (main P args fs listing)) !! n = Some (normalised P n ino).
Proof.
  intros Hnd Hfs Hplanned Hallowed listing.
  assert (seen (scan P args fs listing) !! n = Some (path, src)) as Hseen.
  { unfold listing, scan. rewrite scan_from_app. cbn [scan_from fold_left].
    apply scan_from_seen_kept. unfold scan_step.
    fold (scan P args fs before). rewrite Hplanned.
    cbn [seen record_outcome]. apply lookup_insert_eq. }
  assert (path_exists fs path = true) as Hex.
  { apply eligible_exists.
    rewrite <- (process_file_eligible P args fs
                  (seen (scan P args fs before)) path).
    by rewrite Hplanned. }
  assert (path ∈ successfully_renamed_original_paths
                   (snd (main P args fs listing))) as Hin.
  { unfold main, chmod_phase. cbn [snd].
    set (st := scan P args fs listing) in *.
    set (rs := rename_phase P (start_run fs st) (sorted_items (seen st))).
    destruct (chmod_steps_facts P
                (elements (final_paths_to_chmod_original rs)) rs)
      as (_ & _ & Hsucc & _).
    cbn zeta in Hsucc. rewrite Hsucc.
    apply (rename_phase_item_succeeds _ _ n path src); try done.
    - intros [q [p s]] Hit. by apply (plan_targets P args fs listing q p s).
    - split; [done|]. by intros p ?%elem_of_nil.
    - by apply elem_of_sorted_items. }
  split; [done|]. split; [done|].
  destruct (main_file_kept P args fs listing path ino Hfs Hex)
    as [[Hnot _]|(q & src' & Hq & _ & Hgone & Hat)]; [done|].
  by rewrite (plan_source_once P args fs listing n q path src src' Hnd
                Hseen Hq).
Qed.

(** C1. A file whose name starts with a stamp other than the resolved
    timestamp has that stamp stripped (with one following underscore),
    then one more stamp if the remainder starts with one, and goes on to
    normalisation and to renaming, whatever the force flag is: for every
    eligible entry [path] of the directory, the stripping stage hands on
    the stripped remainder, the reconciler yields the candidate built
    from it, the scan passes the candidate to collision resolution and
    plans the file under it when the name is free; and in a run over a
    listing that names the file once, where the candidate is free when
    the file is met and [os.rename] is not refused, the file is renamed:
    at the end of the run its old name is gone and the file is in the
    directory under the candidate name. *)
Theorem stale_stamp_reprocessed_without_force
    (before after : list string) (path : string)
    (ino : inode) (ts : string) (src : date_source) :
  fs !! path = Some ino ->
  S_ISREG (st_mode ino) = true ->
  EXTENSIONS_search path = true ->
  OsPath.basename path = path ->
  resolve_date P args ino = Some (ts, src) ->
  well_formed_stamp ts = true ->
  STANDALONE_DATE_STAMP_REGEX_match path = true ->
  PyStr.take DATE_STAMP_LENGTH path <> ts ->
  let once := strip_one_stamp path in
  let remainder :=
    if STANDALONE_DATE_STAMP_REGEX_match once then strip_one_stamp once
    else once in
  let final_name := tentative_final_name ts remainder in
  let listing := (before ++ path :: after)%list in
  strip_stage (force args) ts path = Proceed remainder
  /\ reconcile (force args) ts path = Candidate final_name
  /\ (forall seen,
        process_file P args fs seen path
        = match
            resolve_unique (fun n => bool_decide (is_Some (seen !! n)))
              (path_exists fs) path final_name
          with
          | Final name => Planned name src
          | SelfCollision => SkippedSelfCollision
          | Exhausted => SkippedCollisionExhausted
          end)
  /\ (forall seen,
        seen !! final_name = None -> path_exists fs final_name = false ->
        process_file P args fs seen path = Planned final_name src)
  /\ (NoDup listing ->
      seen (scan P args fs before) !! final_name = None ->
      path_exists fs final_name = false ->
      rename_denied P path final_name = false ->
      seen (scan P args fs listing) !! final_name = Some (path, src)
      /\ (path ∈ successfully_renamed_original_paths
                  (snd (main P args fs listing)))
      /\ disk (snd (main P args fs listing)) !! path = None
      /\ disk (snd (main P args fs listing)) !! final_name
         = Some (normalised P final_name ino)).
Proof.
  intros Hfs Hreg Hel Hbase Hdate Hts Hm Hne once remainder final_name
    listing.
  destruct (stale_stamp_scanned P args fs path ino ts src Hfs Hreg Hel Hbase
              Hdate Hts Hm Hne) as (Hstage & Hrec & Hproc & Hfree).
  split; [done|]. split; [done|]. split; [done|]. split; [done|].
  intros Hnd Hseen Hdisk Hallowed.
  apply (planned_file_renamed before after path final_name src ino);
    try done.
  by apply Hfree.
Qed.

End StaleStamp.

(** The file 2020.01.01.00.00.00_old.jpg, alone in its directory and
    dated 2023.05.06.07.08.09, in a run without the force flag: it is
    planned as 2023.05.06.07.08.09_old.jpg, and after the run it is
    under that name and its old name is gone. *)
Lemma stale_stamp_example :
  process_file plain_platform no_flags
    (single_file "2020.01.01.00.00.00_old.jpg" 0x1A4 "2023.05.06.07.08.09")
    ∅ "2020.01.01.00.00.00_old.jpg"
  = Planned "2023.05.06.07.08.09_old.jpg" SrcCtimeDefault
  /\ seen (fst run_stale_stamp) !! "2023.05.06.07.08.09_old.jpg"
     = Some ("2020.01.01.00.00.00_old.jpg", SrcCtimeDefault)
  /\ disk (snd run_stale_stamp) !! "2020.01.01.00.00.00_old.jpg" = None
  /\ disk (snd run_stale_stamp) !! "2023.05.06.07.08.09_old.jpg"
     = Some (regular_file 0x1A4 "2023.05.06.07.08.09").
Proof.
  destruct (stale_stamp_reprocessed_without_force plain_platform no_flags
              (single_file "2020.01.01.00.00.00_old.jpg" 0x1A4
                 "2023.05.06.07.08.09")
              [] [] "2020.01.01.00.00.00_old.jpg"
              (regular_file 0x1A4 "2023.05.06.07.08.09")
              "2023.05.06.07.08.09" SrcCtimeDefault
              ltac:(reflexivity) ltac:(reflexivity) ltac:(reflexivity)
              ltac:(reflexivity) ltac:(reflexivity) ltac:(reflexivity)
              ltac:(reflexivity) ltac:(discriminate))
    as (_ & _ & _ & Hplanned & Hrun).
  split; [by apply Hplanned|].
  destruct Hrun as (Hseen & _ & Hgone & Hat).
  - apply NoDup_singleton.
  - reflexivity.
  - reflexivity.
  - reflexivity.
  - split; [exact Hseen|]. split; [exact Hgone|]. exact Hat.
Defined.
